(** * hammer.tech: library filters, path-prefix resolution and
      archive/install verification

    A shallow embedding of [hammer/tech/__init__.py].  The technology
    object, the settings database, the logger and the file system are an
    explicit state; a method is a computation over that state that either
    returns a value or raises. *)

From Stdlib Require Import String Ascii ZArith List Bool Lia.
From stdpp Require Import base option list gmap strings pretty.

Set Warnings "-register-all".

Local Open Scope string_scope.
Local Open Scope list_scope.

(** ** Python strings and [os.path] on a POSIX system *)

Module Py.

(** [os.sep] *)
Definition sep : ascii := "/"%char.
Definition sep_str : string := "/".

(** [s.startswith(os.sep)] *)
Definition startswith_sep (s : string) : bool :=
  match s with
  | String c _ => Ascii.eqb c sep
  | EmptyString => false
  end.

(** [s.endswith(os.sep)] *)
Fixpoint endswith_sep (s : string) : bool :=
  match s with
  | EmptyString => false
  | String c EmptyString => Ascii.eqb c sep
  | String _ r => endswith_sep r
  end.

(** [os.sep in s] *)
Fixpoint contains_sep (s : string) : bool :=
  match s with
  | EmptyString => false
  | String c r => Ascii.eqb c sep || contains_sep r
  end.

(** [s.split(os.path.sep)]: the segments between separators; never the
    empty list. *)
Fixpoint split (s : string) : list string :=
  match s with
  | EmptyString => [EmptyString]
  | String c r =>
      if Ascii.eqb c sep then EmptyString :: split r
      else match split r with
           | h :: t => String c h :: t
           | [] => [String c EmptyString]
           end
  end.

(** [posixpath.isabs] *)
Definition isabs (s : string) : bool := startswith_sep s.

(** One round of the loop of [posixpath.join]. *)
Definition join_step (path b : string) : string :=
  if startswith_sep b then b
  else if (String.eqb path "" || endswith_sep path)%bool then path +:+ b
  else path +:+ sep_str +:+ b.

(** [os.path.join(a, *p)] *)
Definition join (a : string) (p : list string) : string :=
  fold_left join_step p a.

(** [os.path.join(a, b)] *)
Definition join2 (a b : string) : string := join a [b].

(** [len(s) > 0] *)
Definition nonempty (s : string) : bool :=
  match s with EmptyString => false | _ => true end.

End Py.

(** ** Python values: settings and JSON documents

    The settings database and pydantic's [.json()] / [parse_raw] both work
    on JSON-shaped Python values: [None], booleans, integers, strings,
    lists and dicts (a dict keeps its insertion order). *)

Inductive json : Type :=
| JNull
| JBool (b : bool)
| JInt (z : Z)
| JStr (s : string)
| JArr (items : list json)
| JObj (fields : list (string * json)).

(** Exceptions, one constructor per Python exception class raised in the
    module or by the library calls it makes. *)
Inductive exn : Type :=
| ValueError (msg : string)
| AssertionError (msg : string)
| TypeError (msg : string)
| AttributeError (msg : string)
| ValidationError (field : string)
| OSError (msg : string)
| ModuleNotFoundError (msg : string).

Inductive Result (A : Type) : Type :=
| Ok (a : A)
| Raise (e : exn).
Arguments Ok {A} a.
Arguments Raise {A} e.

Definition rbind {A B} (r : Result A) (k : A -> Result B) : Result B :=
  match r with Ok a => k a | Raise e => Raise e end.

Fixpoint rmap_list {A B} (f : A -> Result B) (l : list A) : Result (list B) :=
  match l with
  | [] => Ok []
  | x :: r =>
      rbind (f x) (fun y => rbind (rmap_list f r) (fun ys => Ok (y :: ys)))
  end.

Module PyVal.

(** [bool(v)] *)
Definition truthy (v : json) : bool :=
  match v with
  | JNull => false
  | JBool b => b
  | JInt z => negb (Z.eqb z 0)
  | JStr s => Py.nonempty s
  | JArr l => match l with [] => false | _ => true end
  | JObj l => match l with [] => false | _ => true end
  end.

(** [v == s] for a [str] [s] *)
Definition eq_str (v : json) (s : string) : bool :=
  match v with JStr s' => String.eqb s' s | _ => false end.

(** [v is None] *)
Definition is_none (v : json) : bool :=
  match v with JNull => true | _ => false end.

Definition commas (l : list string) : string :=
  match l with
  | [] => ""
  | x :: r => fold_left (fun acc y => acc +:+ ", " +:+ y) r x
  end.

(** [repr(v)]; a string is shown between single quotes, which is what
    Python prints for a string free of quotes, backslashes and control
    characters. *)
Fixpoint repr (v : json) : string :=
  match v with
  | JNull => "None"
  | JBool true => "True"
  | JBool false => "False"
  | JInt z => pretty z
  | JStr s => "'" +:+ s +:+ "'"
  | JArr l => "[" +:+ commas (map repr l) +:+ "]"
  | JObj l =>
      "{" +:+ commas (map (fun kv => "'" +:+ fst kv +:+ "': " +:+ repr (snd kv)) l)
          +:+ "}"
  end.

(** [str(v)] *)
Definition str (v : json) : string :=
  match v with JStr s => s | _ => repr v end.

(** A value used where [os.path] wants a [str]: anything else makes
    [os.path.join] and friends raise [TypeError]. *)
Definition as_path (v : json) : Result string :=
  match v with
  | JStr s => Ok s
  | _ => Raise (TypeError "expected str, bytes or os.PathLike object")
  end.

(** [d.get(k)] on the fields of a dict: the first binding of [k]. *)
Fixpoint get (k : string) (o : list (string * json)) : json :=
  match o with
  | [] => JNull
  | (k', v) :: r => if String.eqb k' k then v else get k r
  end.

End PyVal.

(** ** The data model (pydantic models of the module) *)

Module Corner.
Record t := mk { nmos : string; pmos : string; temperature : string }.
End Corner.
Abbreviation Corner := Corner.t.

Module MinMaxCap.
Record t := mk { max_cap : string; min_cap : string }.
End MinMaxCap.
Abbreviation MinMaxCap := MinMaxCap.t.

Module Provide.
Record t := mk { lib_type : string; vt : option string }.
End Provide.
Abbreviation Provide := Provide.t.

Module Supplies.
Record t := mk { GND : string; VDD : string }.
End Supplies.
Abbreviation Supplies := Supplies.t.

Definition TLUPlusMapFile := string.

Module SpiceModelFile.
Record t := mk { path : string; lib_corner : string }.
End SpiceModelFile.
Abbreviation SpiceModelFile := SpiceModelFile.t.

Module PathPrefix.
Record t := mk { id : string; path : string }.

(** [PathPrefix.prepend] *)
Definition prepend (self : t) (rest_of_path : string) : string :=
  Py.join2 (path self) rest_of_path.
End PathPrefix.
Abbreviation PathPrefix := PathPrefix.t.

Module Library.
Record t := mk {
  name : option string;
  ccs_liberty_file : option string;
  ccs_library_file : option string;
  ecsm_liberty_file : option string;
  ecsm_library_file : option string;
  corner : option Corner;
  itf_files : option MinMaxCap;
  lef_file : option string;
  klayout_techfile : option string;
  spice_file : option string;
  gds_file : option string;
  milkyway_lib_in_dir : option string;
  milkyway_techfile : option string;
  nldm_liberty_file : option string;
  nldm_library_file : option string;
  openaccess_techfile : option string;
  provides : option (list Provide);
  qrc_techfile : option string;
  supplies : option Supplies;
  tluplus_files : option MinMaxCap;
  tluplus_map_file : option TLUPlusMapFile;
  verilog_sim : option string;
  verilog_synth : option string;
  spice_model_file : option SpiceModelFile;
  power_grid_library : option string;
  extra_prefixes : option (list PathPrefix)
}.

(** The assignment [lib.extra_prefixes = v]. *)
Definition set_extra_prefixes (v : option (list PathPrefix)) (lib : t) : t :=
  mk (name lib) (ccs_liberty_file lib) (ccs_library_file lib)
     (ecsm_liberty_file lib) (ecsm_library_file lib) (corner lib)
     (itf_files lib) (lef_file lib) (klayout_techfile lib) (spice_file lib)
     (gds_file lib) (milkyway_lib_in_dir lib) (milkyway_techfile lib)
     (nldm_liberty_file lib) (nldm_library_file lib)
     (openaccess_techfile lib) (provides lib) (qrc_techfile lib)
     (supplies lib) (tluplus_files lib) (tluplus_map_file lib)
     (verilog_sim lib) (verilog_synth lib) (spice_model_file lib)
     (power_grid_library lib) v.

End Library.
Abbreviation Library := Library.t.

Definition Cell := string.

Module DRCDeck.
Record t := mk { tool_name : string; deck_name : string; path : string }.
(** The assignment [deck.path = p]. *)
Definition set_path (p : string) (d : t) : t := mk (tool_name d) (deck_name d) p.
End DRCDeck.
Abbreviation DRCDeck := DRCDeck.t.

Module LVSDeck.
Record t := mk { tool_name : string; deck_name : string; path : string }.
(** The assignment [deck.path = p]. *)
Definition set_path (p : string) (d : t) : t := mk (tool_name d) (deck_name d) p.
End LVSDeck.
Abbreviation LVSDeck := LVSDeck.t.

Module Tarball.
Record t := mk { root : PathPrefix; homepage : string; optional : bool }.
End Tarball.
Abbreviation Tarball := Tarball.t.

Module Site.
(** [x] and [y] are [Decimal]s, kept as their decimal literals. *)
Record t := mk { name : string; x : string; y : string }.
End Site.
Abbreviation Site := Site.t.

Module TechJSON.
(** [stackups] and [special_cells] hold models of the sibling modules
    [stackup] and [specialcells]; they are carried as the JSON documents
    they were loaded from. *)
Record t := mk {
  name : string;
  grid_unit : option string;
  shrink_factor : option string;
  installs : option (list PathPrefix);
  libraries : option (list Library);
  gds_map_file : option string;
  physical_only_cells_list : option (list Cell);
  dont_use_list : option (list Cell);
  drc_decks : option (list DRCDeck);
  lvs_decks : option (list LVSDeck);
  tarballs : option (list Tarball);
  sites : option (list Site);
  stackups : option (list json);
  special_cells : option (list json);
  extra_prefixes : option (list PathPrefix);
  additional_lvs_text : option string;
  additional_drc_text : option string
}.

Definition set_lvs_decks (v : option (list LVSDeck)) (c : t) : t :=
  mk (name c) (grid_unit c) (shrink_factor c) (installs c) (libraries c)
     (gds_map_file c) (physical_only_cells_list c) (dont_use_list c)
     (drc_decks c) v (tarballs c) (sites c) (stackups c) (special_cells c)
     (extra_prefixes c) (additional_lvs_text c) (additional_drc_text c).

Definition set_drc_decks (v : option (list DRCDeck)) (c : t) : t :=
  mk (name c) (grid_unit c) (shrink_factor c) (installs c) (libraries c)
     (gds_map_file c) (physical_only_cells_list c) (dont_use_list c)
     v (lvs_decks c) (tarballs c) (sites c) (stackups c) (special_cells c)
     (extra_prefixes c) (additional_lvs_text c) (additional_drc_text c).
End TechJSON.
Abbreviation TechJSON := TechJSON.t.

(** ** pydantic: [.json()] / [.dict()] and [parse_raw] / [parse_obj]

    Serialising writes every field, [None] as [null]; parsing reads a field
    by name, takes a missing or [null] optional field as [None], ignores
    unknown fields and rejects a value of the wrong shape, after the
    coercions of pydantic 1: a number or a boolean is taken for a [str]
    field as [str] writes it, and [dict] is applied to a value that is not
    a dict where a model is wanted. *)

Module Pydantic.

Definition fields := list (string * json).

Definition of_opt {A} (f : A -> json) (o : option A) : json :=
  match o with Some a => f a | None => JNull end.

Definition of_list {A} (f : A -> json) (l : list A) : json := JArr (map f l).

Definition str_field (k : string) (v : json) : Result string :=
  match v with
  | JStr s => Ok s
  | JInt _ | JBool _ => Ok (PyVal.str v)
  | _ => Raise (ValidationError k)
  end.

(** An item of the iterable given to [dict]: itself an iterable of two
    items, the key and the value.  A list of two, a string of two
    characters and a dict of two keys are such; the text is ASCII. *)
Definition pair_of (item : json) : option (json * json) :=
  match item with
  | JArr [key; value] => Some (key, value)
  | JStr (String a (String b EmptyString)) =>
      Some (JStr (String a EmptyString), JStr (String b EmptyString))
  | JObj [(k1, _); (k2, _)] => Some (JStr k1, JStr k2)
  | _ => None
  end.

(** A key must be hashable: lists and dicts are not. *)
Definition hashable (key : json) : bool :=
  match key with JArr _ | JObj _ => false | _ => true end.

Fixpoint pairs_of (items : list json) : option (list (json * json)) :=
  match items with
  | [] => Some []
  | item :: rest =>
      match pair_of item with
      | Some (key, value) =>
          if hashable key
          then match pairs_of rest with
               | Some ps => Some ((key, value) :: ps)
               | None => None
               end
          else None
      | None => None
      end
  end.

Definition is_str (v : json) : bool :=
  match v with JStr _ => true | _ => false end.

(** What the constructor is given when it is called with the items of
    [dict(v)] as keywords.  [dict] itself fails with [TypeError] or
    [ValueError], which pydantic catches; the call with keywords fails
    with [TypeError] when a key is not a string.  A key bound twice keeps
    its last value, so the pairs are listed from the last one on. *)
Inductive Coerced : Type :=
| Fields (o : fields)
| NotADict
| NotKeywords.

Definition coerce (v : json) : Coerced :=
  match v with
  | JObj o => Fields o
  | JArr items =>
      match pairs_of items with
      | Some ps =>
          if forallb (fun kv => is_str (fst kv)) ps
          then Fields (rev (map (fun kv => (PyVal.str (fst kv), snd kv)) ps))
          else NotKeywords
      | None => NotADict
      end
  | JStr EmptyString => Fields []
  | _ => NotADict
  end.

(** A field that holds a model: every error of the model's constructor is
    a validation error of the field. *)
Definition obj_field {A} (p : fields -> Result A) (k : string) (v : json)
  : Result A :=
  match coerce v with
  | Fields o => p o
  | _ => Raise (ValidationError k)
  end.

(** [Model.parse_obj(v)] *)
Definition parse_obj {A} (p : fields -> Result A) (model : string) (v : json)
  : Result A :=
  match coerce v with
  | Fields o => p o
  | NotADict => Raise (ValidationError model)
  | NotKeywords => Raise (TypeError "keywords must be strings")
  end.

Definition list_field {A} (p : string -> json -> Result A) (k : string)
    (v : json) : Result (list A) :=
  match v with
  | JArr l => rmap_list (p k) l
  | _ => Raise (ValidationError k)
  end.

Definition opt_field {A} (p : string -> json -> Result A) (k : string)
    (v : json) : Result (option A) :=
  match v with
  | JNull => Ok None
  | _ => rbind (p k v) (fun a => Ok (Some a))
  end.

(** Read field [k] of the dict [o] with the parser [p]. *)
Definition read {A} (p : string -> json -> Result A) (k : string) (o : fields)
  : Result A := p k (PyVal.get k o).

Declare Scope result_scope.
Notation "x <- c ;; k" := (rbind c (fun x => k))
  (at level 100, c at next level, right associativity) : result_scope.
Local Open Scope result_scope.

Definition Corner_json (c : Corner) : json :=
  JObj [("nmos", JStr (Corner.nmos c)); ("pmos", JStr (Corner.pmos c));
        ("temperature", JStr (Corner.temperature c))].

Definition Corner_parse (o : fields) : Result Corner :=
  a <- read str_field "nmos" o ;;
  b <- read str_field "pmos" o ;;
  c <- read str_field "temperature" o ;;
  Ok (Corner.mk a b c).

Definition MinMaxCap_json (c : MinMaxCap) : json :=
  JObj [("max_cap", JStr (MinMaxCap.max_cap c));
        ("min_cap", JStr (MinMaxCap.min_cap c))].

Definition MinMaxCap_parse (o : fields) : Result MinMaxCap :=
  a <- read str_field "max_cap" o ;;
  b <- read str_field "min_cap" o ;;
  Ok (MinMaxCap.mk a b).

Definition Provide_json (p : Provide) : json :=
  JObj [("lib_type", JStr (Provide.lib_type p));
        ("vt", of_opt JStr (Provide.vt p))].

Definition Provide_parse (o : fields) : Result Provide :=
  a <- read str_field "lib_type" o ;;
  b <- read (opt_field str_field) "vt" o ;;
  Ok (Provide.mk a b).

Definition Supplies_json (s : Supplies) : json :=
  JObj [("GND", JStr (Supplies.GND s)); ("VDD", JStr (Supplies.VDD s))].

Definition Supplies_parse (o : fields) : Result Supplies :=
  a <- read str_field "GND" o ;;
  b <- read str_field "VDD" o ;;
  Ok (Supplies.mk a b).

Definition SpiceModelFile_json (s : SpiceModelFile) : json :=
  JObj [("path", JStr (SpiceModelFile.path s));
        ("lib_corner", JStr (SpiceModelFile.lib_corner s))].

Definition SpiceModelFile_parse (o : fields) : Result SpiceModelFile :=
  a <- read str_field "path" o ;;
  b <- read str_field "lib_corner" o ;;
  Ok (SpiceModelFile.mk a b).

Definition PathPrefix_json (p : PathPrefix) : json :=
  JObj [("id", JStr (PathPrefix.id p)); ("path", JStr (PathPrefix.path p))].

Definition PathPrefix_parse (o : fields) : Result PathPrefix :=
  a <- read str_field "id" o ;;
  b <- read str_field "path" o ;;
  Ok (PathPrefix.mk a b).

(** [PathPrefix(id=i, path=v)] where [v] comes from the settings. *)
Definition PathPrefix_init (i : string) (v : json) : Result PathPrefix :=
  b <- str_field "path" v ;;
  Ok (PathPrefix.mk i b).

(** [lib.json()], as the document it denotes. *)
Definition Library_json (l : Library) : json :=
  JObj [
    ("name", of_opt JStr (Library.name l));
    ("ccs_liberty_file", of_opt JStr (Library.ccs_liberty_file l));
    ("ccs_library_file", of_opt JStr (Library.ccs_library_file l));
    ("ecsm_liberty_file", of_opt JStr (Library.ecsm_liberty_file l));
    ("ecsm_library_file", of_opt JStr (Library.ecsm_library_file l));
    ("corner", of_opt Corner_json (Library.corner l));
    ("itf_files", of_opt MinMaxCap_json (Library.itf_files l));
    ("lef_file", of_opt JStr (Library.lef_file l));
    ("klayout_techfile", of_opt JStr (Library.klayout_techfile l));
    ("spice_file", of_opt JStr (Library.spice_file l));
    ("gds_file", of_opt JStr (Library.gds_file l));
    ("milkyway_lib_in_dir", of_opt JStr (Library.milkyway_lib_in_dir l));
    ("milkyway_techfile", of_opt JStr (Library.milkyway_techfile l));
    ("nldm_liberty_file", of_opt JStr (Library.nldm_liberty_file l));
    ("nldm_library_file", of_opt JStr (Library.nldm_library_file l));
    ("openaccess_techfile", of_opt JStr (Library.openaccess_techfile l));
    ("provides", of_opt (of_list Provide_json) (Library.provides l));
    ("qrc_techfile", of_opt JStr (Library.qrc_techfile l));
    ("supplies", of_opt Supplies_json (Library.supplies l));
    ("tluplus_files", of_opt MinMaxCap_json (Library.tluplus_files l));
    ("tluplus_map_file", of_opt JStr (Library.tluplus_map_file l));
    ("verilog_sim", of_opt JStr (Library.verilog_sim l));
    ("verilog_synth", of_opt JStr (Library.verilog_synth l));
    ("spice_model_file", of_opt SpiceModelFile_json (Library.spice_model_file l));
    ("power_grid_library", of_opt JStr (Library.power_grid_library l));
    ("extra_prefixes", of_opt (of_list PathPrefix_json) (Library.extra_prefixes l))
  ].

Definition Library_parse (o : fields) : Result Library :=
  f1 <- read (opt_field str_field) "name" o ;;
  f2 <- read (opt_field str_field) "ccs_liberty_file" o ;;
  f3 <- read (opt_field str_field) "ccs_library_file" o ;;
  f4 <- read (opt_field str_field) "ecsm_liberty_file" o ;;
  f5 <- read (opt_field str_field) "ecsm_library_file" o ;;
  f6 <- read (opt_field (obj_field Corner_parse)) "corner" o ;;
  f7 <- read (opt_field (obj_field MinMaxCap_parse)) "itf_files" o ;;
  f8 <- read (opt_field str_field) "lef_file" o ;;
  f9 <- read (opt_field str_field) "klayout_techfile" o ;;
  f10 <- read (opt_field str_field) "spice_file" o ;;
  f11 <- read (opt_field str_field) "gds_file" o ;;
  f12 <- read (opt_field str_field) "milkyway_lib_in_dir" o ;;
  f13 <- read (opt_field str_field) "milkyway_techfile" o ;;
  f14 <- read (opt_field str_field) "nldm_liberty_file" o ;;
  f15 <- read (opt_field str_field) "nldm_library_file" o ;;
  f16 <- read (opt_field str_field) "openaccess_techfile" o ;;
  f17 <- read (opt_field (list_field (obj_field Provide_parse))) "provides" o ;;
  f18 <- read (opt_field str_field) "qrc_techfile" o ;;
  f19 <- read (opt_field (obj_field Supplies_parse)) "supplies" o ;;
  f20 <- read (opt_field (obj_field MinMaxCap_parse)) "tluplus_files" o ;;
  f21 <- read (opt_field str_field) "tluplus_map_file" o ;;
  f22 <- read (opt_field str_field) "verilog_sim" o ;;
  f23 <- read (opt_field str_field) "verilog_synth" o ;;
  f24 <- read (opt_field (obj_field SpiceModelFile_parse)) "spice_model_file" o ;;
  f25 <- read (opt_field str_field) "power_grid_library" o ;;
  f26 <- read (opt_field (list_field (obj_field PathPrefix_parse))) "extra_prefixes" o ;;
  Ok (Library.mk f1 f2 f3 f4 f5 f6 f7 f8 f9 f10 f11 f12 f13 f14 f15 f16 f17
        f18 f19 f20 f21 f22 f23 f24 f25 f26).

(** [Library.parse_raw(text)] on the document [text] denotes. *)
Definition Library_parse_raw (doc : json) : Result Library :=
  parse_obj Library_parse "Library" doc.

End Pydantic.

(** ** The state the methods run in *)

Inductive fkind : Type := File | Dir.

Inductive LogLevel : Type := DEBUG | INFO | WARNING | ERROR.

Inductive LogArg : Type :=
| AStr (s : string)
| ADoc (doc : json).

(** A logged line: the format string and the values substituted into it. *)
Record LogRecord := mkLog {
  level : LogLevel;
  format : string;
  args : list LogArg
}.

(** The address of a [Library] object that an [ExtraLibrary] refers to. *)
Definition loc := nat.

Module ExtraLibrary.
Record t := mk { prefix : option PathPrefix; library : loc }.
End ExtraLibrary.
Abbreviation ExtraLibrary := ExtraLibrary.t.

Module HammerTechnology.
(** The attributes of a [HammerTechnology] object.  [_cachedir] and
    [_database] are [None] while the attribute is not set;
    [has_logger] says whether [_logger] is. *)
Record t := mk {
  name : string;
  package : string;
  config : TechJSON;
  _cachedir : option string;
  has_logger : bool;
  _database : option (gmap string json)
}.

Definition set_config (c : TechJSON) (s : t) : t :=
  mk (name s) (package s) c (_cachedir s) (has_logger s) (_database s).
End HammerTechnology.
Abbreviation HammerTechnology := HammerTechnology.t.

Definition FS := gmap string fkind.

(** What lies outside the module: [os.makedirs], and [tarfile] extraction
    followed by the walk over the extracted tree (lines 755-767).  Either
    may fail part-way, so each gives its outcome together with the file
    system it leaves behind; the walk also gives the nested archives it
    came to, each of which is logged before it is unpacked. *)
Record OS := mkOS {
  makedirs : string -> FS -> Result unit * FS;
  extract_tree : string -> string -> FS -> Result unit * FS * list string
}.

Record World := mkWorld {
  self : HammerTechnology;
  heap : gmap loc Library;
  fs : FS;
  os : OS;
  (** where [importlib.resources.files(package)] lives, per package *)
  packages : gmap string string;
  log : list LogRecord;
  stdout : list string
}.

Definition set_self (s : HammerTechnology) (w : World) : World :=
  mkWorld s (heap w) (fs w) (os w) (packages w) (log w) (stdout w).
Definition set_heap (h : gmap loc Library) (w : World) : World :=
  mkWorld (self w) h (fs w) (os w) (packages w) (log w) (stdout w).
Definition set_fs (f : FS) (w : World) : World :=
  mkWorld (self w) (heap w) f (os w) (packages w) (log w) (stdout w).
Definition add_log (r : LogRecord) (w : World) : World :=
  mkWorld (self w) (heap w) (fs w) (os w) (packages w) (log w ++ [r]) (stdout w).
Definition add_stdout (s : string) (w : World) : World :=
  mkWorld (self w) (heap w) (fs w) (os w) (packages w) (log w) (stdout w ++ [s]).

Definition config (w : World) : TechJSON := HammerTechnology.config (self w).

(** [os.path.isfile], [os.path.isdir], [os.path.exists] *)
Definition isfile (f : FS) (p : string) : bool :=
  match f !! p with Some File => true | _ => false end.
Definition isdir (f : FS) (p : string) : bool :=
  match f !! p with Some Dir => true | _ => false end.
Definition exists_ (f : FS) (p : string) : bool :=
  match f !! p with Some _ => true | None => false end.

(** ** Computations: state passing with exceptions *)

Definition M (A : Type) : Type := World -> Result A * World.

Definition ret {A} (a : A) : M A := fun w => (Ok a, w).
Definition raise {A} (e : exn) : M A := fun w => (Raise e, w).
Definition bind {A B} (m : M A) (k : A -> M B) : M B :=
  fun w => match m w with
           | (Ok a, w') => k a w'
           | (Raise e, w') => (Raise e, w')
           end.
Definition lift {A} (r : Result A) : M A := fun w => (r, w).
Definition gets {A} (f : World -> A) : M A := fun w => (Ok (f w), w).
Definition modify (f : World -> World) : M unit := fun w => (Ok tt, f w).

Declare Scope hammer_scope.
Delimit Scope hammer_scope with hammer.
Notation "x <- c ;; k" := (bind c (fun x => k))
  (at level 100, c at next level, right associativity) : hammer_scope.
Notation "c ;;; k" := (bind c (fun _ => k))
  (at level 100, right associativity) : hammer_scope.
Local Open Scope hammer_scope.

(** [list(map(f, l))] for an effectful [f] *)
Fixpoint mapM {A B} (f : A -> M B) (l : list A) : M (list B) :=
  match l with
  | [] => ret []
  | x :: r => y <- f x ;; ys <- mapM f r ;; ret (y :: ys)
  end.

(** [for x in l: f(x)] *)
Fixpoint forM {A} (f : A -> M unit) (l : list A) : M unit :=
  match l with
  | [] => ret tt
  | x :: r => f x ;;; forM f r
  end.

(** A list in a condition: [None] and [[]] are both false. *)
Definition truthy_list {A} (o : option (list A)) : bool :=
  match o with Some (_ :: _) => true | _ => false end.

Definition or_nil {A} (o : option (list A)) : list A :=
  match o with Some l => l | None => [] end.

(** ** [copy_library] and [ExtraLibrary.store_into_library] *)

(** [Library.parse_raw(lib.json())]: a new object built from the document
    of the old one. *)
Definition copy_library (lib : loc) : M loc :=
  h <- gets heap ;;
  match h !! lib with
  | None => raise (AttributeError "no such object")
  | Some v =>
      v' <- lift (Pydantic.Library_parse_raw (Pydantic.Library_json v)) ;;
      let l' := fresh (dom h) in
      modify (set_heap (<[l' := v']> h)) ;;;
      ret l'
  end.

Definition store_into_library (el : ExtraLibrary) : M loc :=
  lib_copied <- copy_library (ExtraLibrary.library el) ;;
  let extra_prefixes : list PathPrefix :=
    match ExtraLibrary.prefix el with
    | Some p => [] ++ [p]
    | None => []
    end in
  modify (fun w =>
    set_heap (alter (Library.set_extra_prefixes (Some extra_prefixes))
                    lib_copied (heap w)) w) ;;;
  ret lib_copied.

(** ** Properties and settings of [HammerTechnology] *)

Definition cache_dir : M string :=
  c <- gets (fun w => HammerTechnology._cachedir (self w)) ;;
  match c with
  | Some d => ret d
  | None => raise (ValueError "Internal error: cache dir location not set by hammer-vlsi")
  end.

Definition logger : M unit :=
  b <- gets (fun w => HammerTechnology.has_logger (self w)) ;;
  if b then ret tt
  else raise (ValueError "Internal error: logger not set by hammer-vlsi").

(** [self.logger.<level>(format % args)] *)
Definition log_msg (lv : LogLevel) (fmt : string) (a : list LogArg) : M unit :=
  logger ;;; modify (add_log (mkLog lv fmt a)).

(** [get_setting]: a missing key is printed and read as [None]. *)
Definition get_setting (key : string) : M json :=
  d <- gets (fun w => HammerTechnology._database (self w)) ;;
  match d with
  | None => raise (ValueError "Internal error: no database set by hammer-vlsi")
  | Some db =>
      match db !! key with
      | Some v => ret v
      | None => modify (add_stdout key) ;;; ret JNull
      end
  end.

Definition has_setting (key : string) : M bool :=
  d <- gets (fun w => HammerTechnology._database (self w)) ;;
  match d with
  | None => raise (AttributeError "_database")
  | Some db => ret (match db !! key with Some _ => true | None => false end)
  end.

(** [os.path.join(v, *p)] for a value [v] read from the settings. *)
Definition join_setting (v : json) (p : list string) : M string :=
  a <- lift (PyVal.as_path v) ;; ret (Py.join a p).

Definition extracted_tarballs_dir : M json :=
  name <- gets (fun w => HammerTechnology.name (self w)) ;;
  let tech_setting_key := "technology." +:+ name +:+ ".extracted_tarballs_dir" in
  let no_tech_setting : M json :=
    extracted_tarballs_dir_setting <- get_setting "vlsi.technology.extracted_tarballs_dir" ;;
    if PyVal.is_none extracted_tarballs_dir_setting
    then c <- cache_dir ;; ret (JStr (Py.join2 c "extracted"))
    else ret extracted_tarballs_dir_setting in
  has <- has_setting tech_setting_key ;;
  if has then
    tech_setting <- get_setting tech_setting_key ;;
    if negb (PyVal.is_none tech_setting) then ret tech_setting
    else no_tech_setting
  else no_tech_setting.

(** ** [prepend_dir_path] *)

(** [repr] of a list of [PathPrefix], for the error message. *)
Definition PathPrefix_repr (p : PathPrefix) : string :=
  "PathPrefix(id='" +:+ PathPrefix.id p +:+ "', path='" +:+ PathPrefix.path p +:+ "')".

Definition install_prefixes (id : string) : M (list PathPrefix) :=
  installs <- gets (fun w => TechJSON.installs (config w)) ;;
  if truthy_list installs then
    mapM (fun pp : PathPrefix =>
            v <- get_setting (PathPrefix.path pp) ;;
            lift (Pydantic.PathPrefix_init id v))
         (filter (fun pp : PathPrefix => PathPrefix.id pp = id) (or_nil installs))
  else ret [].

Definition tarball_prefixes (id : string) : M (list PathPrefix) :=
  tarballs <- gets (fun w => TechJSON.tarballs (config w)) ;;
  if truthy_list tarballs then
    mapM (fun pp : Tarball =>
            d <- extracted_tarballs_dir ;;
            p <- join_setting d [PathPrefix.id (Tarball.root pp)] ;;
            ret (PathPrefix.mk id p))
         (filter (fun pp : Tarball => PathPrefix.id (Tarball.root pp) = id)
                 (or_nil tarballs))
  else ret [].

Definition library_prefixes (id : string) (lib : option Library) : list PathPrefix :=
  match lib with
  | Some l =>
      if truthy_list (Library.extra_prefixes l)
      then filter (fun pp : PathPrefix => PathPrefix.id pp = id)
                  (or_nil (Library.extra_prefixes l))
      else []
  | None => []
  end.

(** [os.path.join] applied to the unpacked list [rest_of_path] *)
Definition join_rest (rest_of_path : list string) : Result string :=
  match rest_of_path with
  | a :: p => Ok (Py.join a p)
  | [] => Raise (TypeError "join() missing 1 required positional argument: 'a'")
  end.

Definition prepend_dir_path (path : string) (lib : option Library) : M string :=
  if negb (Py.nonempty path) then raise (AssertionError "path must not be empty")
  (* 1. an absolute path is returned as it is *)
  else if Py.isabs path then ret path
  (* 2. no separator: relative to the tech plugin package *)
  else if negb (Py.contains_sep path) then
    package <- gets (fun w => HammerTechnology.package (self w)) ;;
    pk <- gets packages ;;
    match pk !! package with
    | None => raise (ModuleNotFoundError ("No module named '" +:+ package +:+ "'"))
    | Some d =>
        let resource_path := Py.join2 d path in
        f <- gets fs ;;
        if isfile f resource_path then ret resource_path
        else raise (AssertionError
               (path +:+ " wasn't found in HammerTechnology Python package " +:+ package))
    end
  else
    (* 3-5. an identifier and the rest of the path *)
    let id := hd "" (Py.split path) in
    let rest_of_path := tl (Py.split path) in
    (* 3. relative to the cache dir *)
    if String.eqb id "cache" then
      c <- cache_dir ;; ret (Py.join c rest_of_path)
    else
      (* 4-5. installs, tarballs and the library's extra_prefixes *)
      p1 <- install_prefixes id ;;
      p2 <- tarball_prefixes id ;;
      let prefixes := p1 ++ p2 ++ library_prefixes id lib in
      match prefixes with
      | [] => raise (ValueError ("Path " +:+ path +:+ " with prefix id " +:+ id
                                  +:+ " did not match any tarballs or installs"))
      | [p] => r <- lift (join_rest rest_of_path) ;; ret (PathPrefix.prepend p r)
      | _ => raise (ValueError ("Path " +:+ path +:+ " with prefix id " +:+ id
                                  +:+ " matched more than one tarball or install: ["
                                  +:+ PyVal.commas (map PathPrefix_repr prefixes) +:+ "]"))
      end.

(** ** Deck accessors *)

Definition write_lvs_decks (v : list LVSDeck) : M unit :=
  modify (fun w =>
    set_self (HammerTechnology.set_config
                (TechJSON.set_lvs_decks (Some v) (config w)) (self w)) w).

Definition write_drc_decks (v : list DRCDeck) : M unit :=
  modify (fun w =>
    set_self (HammerTechnology.set_config
                (TechJSON.set_drc_decks (Some v) (config w)) (self w)) w).

(** [for deck in self.config.lvs_decks: deck.path = self.prepend_dir_path(deck.path)];
    the [i]-th deck object is updated in place. *)
Fixpoint resolve_lvs_decks (i : nat) (decks : list LVSDeck) : M unit :=
  match decks with
  | [] => ret tt
  | deck :: rest =>
      p <- prepend_dir_path (LVSDeck.path deck) None ;;
      cur <- gets (fun w => or_nil (TechJSON.lvs_decks (config w))) ;;
      write_lvs_decks (<[i := LVSDeck.set_path p deck]> cur) ;;;
      resolve_lvs_decks (S i) rest
  end.

Definition get_lvs_decks_for_tool (tool_name : string) : M (list LVSDeck) :=
  decks <- gets (fun w => TechJSON.lvs_decks (config w)) ;;
  match decks with
  | Some l =>
      resolve_lvs_decks 0 l ;;;
      now <- gets (fun w => or_nil (TechJSON.lvs_decks (config w))) ;;
      ret (filter (fun x : LVSDeck => LVSDeck.tool_name x = tool_name) now)
  | None => raise (ValueError "Tech JSON does not specify any LVS decks")
  end.

Fixpoint resolve_drc_decks (i : nat) (decks : list DRCDeck) : M unit :=
  match decks with
  | [] => ret tt
  | deck :: rest =>
      p <- prepend_dir_path (DRCDeck.path deck) None ;;
      cur <- gets (fun w => or_nil (TechJSON.drc_decks (config w))) ;;
      write_drc_decks (<[i := DRCDeck.set_path p deck]> cur) ;;;
      resolve_drc_decks (S i) rest
  end.

Definition get_drc_decks_for_tool (tool_name : string) : M (list DRCDeck) :=
  decks <- gets (fun w => TechJSON.drc_decks (config w)) ;;
  match decks with
  | Some l =>
      resolve_drc_decks 0 l ;;;
      now <- gets (fun w => or_nil (TechJSON.drc_decks (config w))) ;;
      ret (filter (fun x : DRCDeck => DRCDeck.tool_name x = tool_name) now)
  | None => raise (ValueError "Tech JSON does not specify any DRC decks")
  end.

(** ** Installs and tarballs *)

(** The loop of [check_installs]. *)
Fixpoint check_installs_loop (installs : list PathPrefix) : M bool :=
  match installs with
  | [] => ret true
  | install :: rest =>
      let path_key := PathPrefix.path install in
      v <- get_setting path_key ;;
      let install_path := PyVal.str v in
      f <- gets fs ;;
      if negb (exists_ f install_path) then
        log_msg ERROR "The install path: {install_path} does not exist, looked at key {path_key}"
                [AStr install_path; AStr path_key] ;;;
        ret false
      else check_installs_loop rest
  end.

Definition check_installs : M bool :=
  installs <- gets (fun w => TechJSON.installs (config w)) ;;
  if negb (truthy_list installs) then ret false
  else check_installs_loop (or_nil installs).

(** One round of the loop of [extract_tarballs]. *)
Definition extract_tarball (tarball : Tarball) : M unit :=
  let root := Tarball.root tarball in
  d <- extracted_tarballs_dir ;;
  target_path <- join_setting d [PathPrefix.id root] ;;
  v <- get_setting (PathPrefix.path root) ;;
  tarball_path <- join_setting v [PathPrefix.id root] ;;
  f <- gets fs ;;
  if negb (isfile f tarball_path) then
    if Tarball.optional tarball then ret tt
    else raise (ValueError ("Path " +:+ tarball_path +:+ " does not point to a valid tarball!"))
  else if isdir f target_path then
    (* If the folder already seems to exist, continue *)
    ret tt
  else
    (* Else, extract the tarballs. *)
    o <- gets os ;;
    let '(made, f1) := makedirs o target_path f in
    modify (set_fs f1) ;;;
    lift made ;;;
    log_msg DEBUG "Extracting/verifying tarball %s" [AStr tarball_path] ;;;
    let '(extracted, f2, nested) := extract_tree o tarball_path target_path f1 in
    modify (set_fs f2) ;;;
    forM (fun file => log_msg DEBUG "Extracting/verifying tarball %s" [AStr file])
         nested ;;;
    lift extracted.

Definition extract_tarballs : M unit :=
  tarballs <- gets (fun w => TechJSON.tarballs (config w)) ;;
  if negb (truthy_list tarballs) then ret tt
  else forM extract_tarball (or_nil tarballs).

Definition post_install_script : M unit := ret tt.

Definition extract_technology_files : M unit :=
  installs <- gets (fun w => TechJSON.installs (config w)) ;;
  tarballs <- gets (fun w => TechJSON.tarballs (config w)) ;;
  match installs, tarballs with
  | None, None => raise (ValueError "Technology specified neither tarballs nor installs")
  | _, _ =>
      (match installs with Some _ => check_installs ;;; ret tt | None => ret tt end) ;;;
      (match tarballs with Some _ => extract_tarballs | None => ret tt end) ;;;
      post_install_script
  end.

(** ** Python [str] methods *)

Module PyStr.

(** [c.upper()] for one character of ASCII text *)
Definition upper_ascii (c : ascii) : ascii :=
  let n := nat_of_ascii c in
  if (Nat.leb 97 n && Nat.leb n 122)%bool then ascii_of_nat (n - 32) else c.

(** [s.upper()] for ASCII text *)
Fixpoint upper (s : string) : string :=
  match s with
  | EmptyString => EmptyString
  | String c r => String (upper_ascii c) (upper r)
  end.

(** Every character is below 128. *)
Fixpoint isascii (s : string) : bool :=
  match s with
  | EmptyString => true
  | String c r => Nat.ltb (nat_of_ascii c) 128 && isascii r
  end.

(** [old in s] *)
Fixpoint contains (old s : string) : bool :=
  match s with
  | EmptyString => String.prefix old s
  | String _ r => String.prefix old s || contains old r
  end.

(** [s.replace(old, new)] for a non-empty [old]: the text is read from the
    left; where [old] starts, [new] is written and the rest of that
    occurrence ([skip] characters) is passed over. *)
Fixpoint replace_from (old new : string) (skip : nat) (s : string) : string :=
  match s with
  | EmptyString => EmptyString
  | String c r =>
      match skip with
      | S k => replace_from old new k r
      | O =>
          if String.prefix old s
          then new +:+ replace_from old new (String.length old - 1) r
          else String c (replace_from old new 0 r)
      end
  end.

(** [s.replace("", new)]: [new] before every character and at the end. *)
Fixpoint between (new s : string) : string :=
  match s with
  | EmptyString => new
  | String c r => new +:+ String c (between new r)
  end.

Definition replace (old new s : string) : string :=
  match old with
  | EmptyString => between new s
  | _ => replace_from old new 0 s
  end.

(** [l.index(x)]: [None] stands for the [ValueError] of a missing item. *)
Fixpoint index (x : string) (l : list string) : option nat :=
  match l with
  | [] => None
  | y :: r => if String.eqb y x then Some 0 else option_map S (index x r)
  end.

(** [d[k]] on the fields of a dict: [None] stands for [KeyError]. *)
Fixpoint getitem (k : string) (o : list (string * json)) : option json :=
  match o with
  | [] => None
  | (k', v) :: r => if String.eqb k' k then Some v else getitem k r
  end.

End PyStr.

(** ** [SpiceModelFile] as a setting *)

(** What [from_setting] gives: the object, the [KeyError] of a missing key,
    or the error of the constructor. *)
Inductive Loaded (A : Type) : Type :=
| Built (a : A)
| KeyError (key : string)
| Rejected (e : exn).
Arguments Built {A} a.
Arguments KeyError {A} key.
Arguments Rejected {A} e.

(** [lib_corner] is a [str], so the test [self.lib_corner is not None]
    holds. *)
Definition SpiceModelFile_to_setting (self : SpiceModelFile) : list (string * json) :=
  let output := [("path", JStr (SpiceModelFile.path self))] in
  output ++ [("lib corner", JStr (SpiceModelFile.lib_corner self))].

Definition SpiceModelFile_from_setting (d : list (string * json)) : Loaded SpiceModelFile :=
  match PyStr.getitem "lib corner" d with
  | None => KeyError "lib corner"
  | Some lib_corner =>
      let lib_corner :=
        if negb (PyVal.is_none lib_corner) then JStr (PyVal.str lib_corner)
        else lib_corner in
      match PyStr.getitem "path" d with
      | None => KeyError "path"
      | Some path =>
          match Pydantic.str_field "lib_corner" lib_corner with
          | Ok c => Built (SpiceModelFile.mk (PyVal.str path) c)
          | Raise e => Rejected e
          end
      end
  end.

(** ** Libraries from JSON *)

Definition library_from_json (doc : json) : Result Library :=
  Pydantic.Library_parse_raw doc.

(** [parse_library]: [json.dumps] of a dict of JSON values denotes the
    dict itself. *)
Definition parse_library (lib : json) : Result Library :=
  match lib with
  | JObj _ => Pydantic.Library_parse_raw lib
  | _ => Raise (TypeError "lib must be a dict")
  end.

(** ** The cache directory and sites *)

Definition set_cachedir (value : string) (s : HammerTechnology) : HammerTechnology :=
  HammerTechnology.mk (HammerTechnology.name s) (HammerTechnology.package s)
    (HammerTechnology.config s) (Some value) (HammerTechnology.has_logger s)
    (HammerTechnology._database s).

(** The setter of [cache_dir]: the attribute is assigned, then the
    directory is made. *)
Definition set_cache_dir (value : string) : M unit :=
  modify (fun w => set_self (set_cachedir value (self w)) w) ;;;
  o <- gets os ;;
  f <- gets fs ;;
  let '(made, f1) := makedirs o value f in
  modify (set_fs f1) ;;;
  lift made.

Definition expand_tech_cache_path (path : string) : M string :=
  c <- cache_dir ;; ret (PyStr.replace "cache" c path).

(** The loop of [get_site_by_name]; [name] is whatever the caller passes,
    a string or another settings value. *)
Fixpoint get_site_by_name_loop (name : json) (sites : list Site) : option Site :=
  match sites with
  | [] => None
  | item :: rest =>
      if PyVal.eq_str name (Site.name item) then Some item
      else get_site_by_name_loop name rest
  end.

Definition get_site_by_name (name : json) : M Site :=
  sites <- gets (fun w => TechJSON.sites (config w)) ;;
  match sites with
  | Some l =>
      match get_site_by_name_loop name l with
      | Some item => ret item
      | None => raise (ValueError ("Site named " +:+ PyVal.str name
                                    +:+ " is not defined in tech JSON"))
      end
  | None => raise (ValueError "Tech JSON does not specify any sites")
  end.

Definition get_placement_site : M Site :=
  name <- get_setting "vlsi.technology.placement_site" ;;
  get_site_by_name name.

(** ** The supply pre-filter *)

(** [for provided in provides: if provided.lib_type == "technology": ...] *)
Fixpoint provides_technology (provides : list Provide) : bool :=
  match provides with
  | [] => false
  | provided :: rest =>
      if String.eqb (Provide.lib_type provided) "technology" then true
      else provides_technology rest
  end.

Definition filter_for_supplies (lib : Library) : M bool :=
  mmmc <- get_setting "vlsi.inputs.mmmc_corners" ;;
  if PyVal.truthy mmmc then ret true
  else
    match Library.supplies lib with
    | None =>
        if match Library.provides lib with
           | Some provides => provides_technology provides
           | None => false
           end
        then ret true
        else
          log_msg WARNING "Lib %s has no supplies annotation! Using anyway."
                  [ADoc (Pydantic.Library_json lib)] ;;;
          ret true
    | Some supplies =>
        vdd <- get_setting "vlsi.inputs.supplies.VDD" ;;
        if PyVal.eq_str vdd (Supplies.VDD supplies) then
          gnd <- get_setting "vlsi.inputs.supplies.GND" ;;
          ret (PyVal.eq_str gnd (Supplies.GND supplies))
        else ret false
    end.

Definition default_pre_filters : list (Library -> M bool) := [filter_for_supplies].

Definition make_check_isdir (description : string) (path : string) : M string :=
  f <- gets fs ;;
  if negb (isdir f path)
  then raise (ValueError (description +:+ " " +:+ path +:+ " is not a directory or does not exist"))
  else ret path.

Definition make_check_isfile (description : string) (path : string) : M string :=
  f <- gets fs ;;
  if negb (isfile f path)
  then raise (ValueError (description +:+ " " +:+ path +:+ " is not a file or does not exist"))
  else ret path.

(** ** Library filters *)

Module LibraryFilter.
Record t := mk {
  tag : string;
  description : string;
  is_file : bool;
  paths_func : Library -> Result (list string);
  extraction_func : option (Library -> list string -> Result (list string));
  filter_func : option (Library -> bool);
  sort_func : option (Library -> Z);
  extra_post_filter_funcs : list (list string -> Result (list string))
}.
End LibraryFilter.
Abbreviation LibraryFilter := LibraryFilter.t.

Module HammerTechnologyUtils.
Definition to_command_line_args (lib_item : string) (filt : LibraryFilter)
  : list string := ["--" +:+ LibraryFilter.tag filt; lib_item].

Definition to_plain_item (lib_item : string) (filt : LibraryFilter)
  : list string := [lib_item].
End HammerTechnologyUtils.

(** *** Helpers of [hammer.utils] *)

(** Modelled from the spec: [hammer.utils.get_or_else] is not among the
    sources; "default: identity" (4.3, step 5) is read as: the value when
    there is one, the default otherwise. *)
Definition get_or_else {A} (optional : option A) (default : A) : A :=
  match optional with Some a => a | None => default end.

(** Modelled from the spec: [hammer.utils.optional_map] is not among the
    sources; "the filter's own [filter_func] (if present)" (4.3, step 1). *)
Definition optional_map {A B} (optional : option A) (func : A -> B) : option B :=
  match optional with Some a => Some (func a) | None => None end.

(** Modelled from the spec: [hammer.utils.add_lists] and
    [hammer.utils.reduce_list_str] are not among the sources; "concatenate
    across all libraries, in library order" (4.3, step 5) and "then
    flatten" (step 9). *)
Definition add_lists (a b : list string) : list string := a ++ b.

Definition reduce_list_str (function : list string -> list string -> list string)
    (sequence : list (list string)) (initial : list string) : list string :=
  fold_left function sequence initial.

(** Modelled from the spec: [hammer.utils.in_place_unique] is not among the
    sources; "remove later duplicates, preserving first-occurrence order"
    (4.3, step 7).  [seen] holds the items met so far. *)
Fixpoint unique_from (seen : list string) (items : list string) : list string :=
  match items with
  | [] => []
  | item :: rest =>
      if bool_decide (item ∈ seen) then unique_from seen rest
      else item :: unique_from (item :: seen) rest
  end.

Definition in_place_unique (items : list string) : list string :=
  unique_from [] items.

(** Modelled from the spec: [hammer.utils.reduce_named] is not among the
    sources.  With [filter] as the function it is the selection of 4.3,
    step 1: "short-circuit AND semantics - a library survives only if every
    predicate returns true"; the predicates run on one library after the
    other, each library stopping at its first false predicate. *)
Fixpoint all_pass (lib_filters : list (Library -> M bool)) (lib : Library) : M bool :=
  match lib_filters with
  | [] => ret true
  | func :: rest =>
      b <- func lib ;;
      if b then all_pass rest lib else ret false
  end.

Fixpoint reduce_named_filter (lib_filters : list (Library -> M bool))
    (libs : list Library) : M (list Library) :=
  match libs with
  | [] => ret []
  | lib :: rest =>
      b <- all_pass lib_filters lib ;;
      r <- reduce_named_filter lib_filters rest ;;
      ret (if b then lib :: r else r)
  end.

(** Modelled from the spec: with a post-filter application as the function,
    [reduce_named] is "apply each function in [extra_post_filter_funcs] in
    declared order" (4.3, step 8). *)
Fixpoint reduce_named_post (funcs : list (list string -> Result (list string)))
    (initial : list string) : Result (list string) :=
  match funcs with
  | [] => Ok initial
  | func :: rest => rbind (func initial) (reduce_named_post rest)
  end.

(** [sorted(l, key=key)]: a stable sort. *)
Fixpoint insert_by {A} (key : A -> Z) (x : A) (l : list A) : list A :=
  match l with
  | [] => [x]
  | y :: r => if Z.leb (key x) (key y) then x :: y :: r else y :: insert_by key x r
  end.

Definition sorted {A} (l : list A) (key : A -> Z) : list A :=
  fold_right (insert_by key) [] l.

(** *** Extra libraries from the settings *)

(** The fields of an [ExtraLibrary]: an optional prefix and a library. *)
Definition ExtraLibrary_parse (o : Pydantic.fields)
  : Result (option PathPrefix * Library) :=
  rbind (Pydantic.read
           (Pydantic.opt_field (Pydantic.obj_field Pydantic.PathPrefix_parse))
           "prefix" o)
    (fun prefix =>
       rbind (Pydantic.read (Pydantic.obj_field Pydantic.Library_parse) "library" o)
         (fun lib => Ok (prefix, lib))).

(** [ExtraLibrary.parse_obj(d)]: the library it holds is a new object. *)
Definition ExtraLibrary_parse_obj (d : json) : M ExtraLibrary :=
  parsed <- lift (Pydantic.parse_obj ExtraLibrary_parse "ExtraLibrary" d) ;;
  h <- gets heap ;;
  let l := fresh (dom h) in
  modify (set_heap (<[l := snd parsed]> h)) ;;;
  ret (ExtraLibrary.mk (fst parsed) l).

Definition get_extra_libraries : M (list ExtraLibrary) :=
  has <- has_setting "vlsi.technology.extra_libraries" ;;
  if negb has then ret []
  else
    extra_libs <- get_setting "vlsi.technology.extra_libraries" ;;
    match extra_libs with
    | JArr l => mapM ExtraLibrary_parse_obj l
    | _ => raise (ValueError "extra_libraries was not a list")
    end.

Definition tech_defined_libraries : M (list Library) :=
  libraries <- gets (fun w => TechJSON.libraries (config w)) ;;
  if truthy_list libraries then ret (or_nil libraries) else ret [].

(** The object at an address. *)
Definition deref (l : loc) : M Library :=
  h <- gets heap ;;
  match h !! l with
  | Some v => ret v
  | None => raise (AttributeError "no such object")
  end.

Definition get_available_libraries : M (list Library) :=
  tech <- tech_defined_libraries ;;
  els <- get_extra_libraries ;;
  extra <- mapM (fun el => l <- store_into_library el ;; deref l) els ;;
  ret (tech ++ extra).

(** *** [process_library_filter] *)

Definition get_and_prepend_path (filt : LibraryFilter) (lib : Library)
  : M (Library * list string) :=
  paths <- lift (LibraryFilter.paths_func filt lib) ;;
  full_paths <- mapM (fun path => prepend_dir_path path (Some lib)) paths ;;
  ret (lib, full_paths).

Definition check_lib_and_paths (filt : LibraryFilter) (inp : Library * list string)
  : M (Library * list string) :=
  let lib := fst inp in
  let paths := snd inp in
  let existence_check_func :=
    if LibraryFilter.is_file filt
    then make_check_isfile (LibraryFilter.description filt)
    else make_check_isdir (LibraryFilter.description filt) in
  paths <- mapM existence_check_func paths ;;
  ret (lib, paths).

Definition identity_extraction_func (lib : Library) (paths : list string)
  : Result (list string) := Ok paths.

(** The check that the extracted list is a list of strings holds by
    typing and is not repeated here. *)
Definition process_library_filter (filt : LibraryFilter)
    (pre_filts : list (Library -> M bool))
    (output_func : string -> LibraryFilter -> list string)
    (must_exist : bool) (uniquify : bool) : M (list string) :=
  (* First, filter the list of available libraries. *)
  let lib_filters :=
    pre_filts ++
    get_or_else (optional_map (LibraryFilter.filter_func filt)
                   (fun x => [fun lib => ret (x lib)])) [] in
  available <- get_available_libraries ;;
  filtered_libs <- reduce_named_filter lib_filters available ;;
  (* Next, sort the list of libraries if a sort function exists. *)
  let filtered_libs :=
    match LibraryFilter.sort_func filt with
    | Some key => sorted filtered_libs key
    | None => filtered_libs
    end in
  (* Next, extract paths and prepend them to get the real paths. *)
  libs_and_paths <- mapM (get_and_prepend_path filt) filtered_libs ;;
  (* Existence checks for paths. *)
  libs_and_paths <-
    (if must_exist then mapM (check_lib_and_paths filt) libs_and_paths
     else ret libs_and_paths) ;;
  (* Now call the extraction function to get a final list of strings. *)
  let extraction_func :=
    get_or_else (LibraryFilter.extraction_func filt) identity_extraction_func in
  extracted <- lift (rmap_list (fun t => extraction_func (fst t) (snd t)) libs_and_paths) ;;
  let output_list := reduce_list_str add_lists extracted [] in
  (* Uniquify results. *)
  let output_list := if uniquify then in_place_unique output_list else output_list in
  (* Apply any list-level functions. *)
  after_post_filter <-
    lift (reduce_named_post (LibraryFilter.extra_post_filter_funcs filt) output_list) ;;
  (* Finally, apply any output functions. *)
  let after_output_functions :=
    map (fun item => output_func item filt) after_post_filter in
  ret (reduce_list_str add_lists after_output_functions []).

(** ** [LibraryFilterHolder]: the timing and layout filters *)

Module LibraryFilterHolder.

Definition timing_db_filter_paths_func (lib : Library) : Result (list string) :=
  match Library.ccs_library_file lib with
  | Some ccs => Ok [ccs]
  | None =>
      match Library.nldm_library_file lib with
      | Some nldm => Ok [nldm]
      | None => Ok []
      end
  end.

Definition timing_db_filter : LibraryFilter :=
  LibraryFilter.mk "timing_db" "CCS/NLDM timing lib (Synopsys .db)" true
    timing_db_filter_paths_func None None None [].

Definition timing_lib_filter_paths_func (lib : Library) : Result (list string) :=
  match Library.ccs_liberty_file lib with
  | Some ccs => Ok [ccs]
  | None =>
      match Library.nldm_liberty_file lib with
      | Some nldm => Ok [nldm]
      | None => Ok []
      end
  end.

Definition timing_lib_filter : LibraryFilter :=
  LibraryFilter.mk "timing_lib" "CCS/NLDM timing lib (ASCII .lib)" true
    timing_lib_filter_paths_func None None None [].

Definition lef_filter_filter_func (lib : Library) : bool :=
  match Library.lef_file lib with Some _ => true | None => false end.

Definition lef_filter_paths_func (lib : Library) : Result (list string) :=
  match Library.lef_file lib with
  | Some f => Ok [f]
  | None => Raise (AssertionError "")
  end.

Definition lef_filter_sort_func (lib : Library) : Z :=
  if match Library.provides lib with
     | Some provides => provides_technology provides
     | None => false
     end
  then 0%Z else 100%Z.

Definition lef_filter : LibraryFilter :=
  LibraryFilter.mk "lef" "LEF physical design layout library" true
    lef_filter_paths_func None (Some lef_filter_filter_func)
    (Some lef_filter_sort_func) [].

End LibraryFilterHolder.

(** ** [read_libs] *)

(** Modelled from the spec: [hammer.utils.reduce_list_str] is not among the
    sources.  Called without an initial value it is the reduction of
    [functools]: "concatenates results in filter order" (4.3), from the
    first list on; an empty sequence has no first list and raises
    [TypeError]. *)
Definition reduce_list_str_no_initial
    (function : list string -> list string -> list string)
    (sequence : list (list string)) : Result (list string) :=
  match sequence with
  | [] => Raise (TypeError "reduce() of empty iterable with no initial value")
  | first :: rest => Ok (fold_left function rest first)
  end.

(** The filters are processed one after the other, as the reduction asks
    for their results. *)
Definition read_libs (library_types : list LibraryFilter)
    (output_func : string -> LibraryFilter -> list string)
    (extra_pre_filters : option (list (Library -> M bool)))
    (must_exist : bool) : M (list string) :=
  let pre_filts := default_pre_filters in
  let pre_filts :=
    match extra_pre_filters with
    | Some extra => pre_filts ++ extra
    | None => pre_filts
    end in
  results <- mapM (fun lib => process_library_filter lib pre_filts output_func
                                must_exist true) library_types ;;
  lift (reduce_list_str_no_initial add_lists results).

(** ** [LibraryFilterHolder]: the other filters *)

Module Filters.

Definition create_nonempty_check (description : string) (l : list string)
  : Result (list string) :=
  if Nat.eqb (length l) 0
  then Raise (ValueError ("Must have at least one " +:+ description))
  else Ok l.

Definition timing_lib_with_ecsm_filter_paths_func (lib : Library) : Result (list string) :=
  match Library.ecsm_liberty_file lib with
  | Some ecsm => Ok [ecsm]
  | None =>
      match Library.ccs_liberty_file lib with
      | Some ccs => Ok [ccs]
      | None =>
          match Library.nldm_liberty_file lib with
          | Some nldm => Ok [nldm]
          | None => Ok []
          end
      end
  end.

Definition timing_lib_with_ecsm_filter : LibraryFilter :=
  LibraryFilter.mk "timing_lib_with_ecsm" "ECSM/CCS/NLDM timing lib (liberty ASCII .lib)"
    true timing_lib_with_ecsm_filter_paths_func None None None [].

(** [pref_list.insert(0, pref_list.pop(index))] *)
Definition move_to_front (index : nat) (pref_list : list string) : list string :=
  match pref_list !! index with
  | Some elem => elem :: delete index pref_list
  | None => pref_list
  end.

(** The loop over [pref_list] in [get_timing_lib_with_preference]. *)
Fixpoint first_preferred (lib : Library) (pref_list : list string) : list string :=
  match pref_list with
  | [] => []
  | elem :: rest =>
      if String.eqb elem "NLDM" then
        match Library.nldm_liberty_file lib with
        | Some f => [f]
        | None => first_preferred lib rest
        end
      else if String.eqb elem "ECSM" then
        match Library.ecsm_liberty_file lib with
        | Some f => [f]
        | None => first_preferred lib rest
        end
      else if String.eqb elem "CCS" then
        match Library.ccs_liberty_file lib with
        | Some f => [f]
        | None => first_preferred lib rest
        end
      else first_preferred lib rest
  end.

Definition get_timing_lib_with_preference_paths_func (lib_pref : string) (lib : Library)
  : Result (list string) :=
  let pref_list := ["NLDM"; "ECSM"; "CCS"] in
  match PyStr.index lib_pref pref_list with
  | None => Raise (ValueError "Library preference must be one of NLDM, ECSM, or CCS.")
  | Some index => Ok (first_preferred lib (move_to_front index pref_list))
  end.

Definition get_timing_lib_with_preference (lib_pref : string) : LibraryFilter :=
  let lib_pref := PyStr.upper lib_pref in
  LibraryFilter.mk "timing_lib_with_nldm" "ECSM/CCS/NLDM timing lib (liberty ASCII .lib)"
    true (get_timing_lib_with_preference_paths_func lib_pref) None None None [].

Definition verilog_sim_filter : LibraryFilter :=
  LibraryFilter.mk "verilog_sim" "Gate-level verilog sources" true
    (fun lib => match Library.verilog_sim lib with
                | Some f => Ok [f]
                | None => Raise (AssertionError "")
                end)
    None
    (Some (fun lib => match Library.verilog_sim lib with Some _ => true | None => false end))
    None [].

Definition gds_filter : LibraryFilter :=
  LibraryFilter.mk "gds" "GDS opaque physical design layout" true
    (fun lib => match Library.gds_file lib with
                | Some f => Ok [f]
                | None => Raise (AssertionError "")
                end)
    None
    (Some (fun lib => match Library.gds_file lib with Some _ => true | None => false end))
    None [].

Definition spice_filter : LibraryFilter :=
  LibraryFilter.mk "spice" "SPICE files" true
    (fun lib => match Library.spice_file lib with
                | Some f => Ok [f]
                | None => Raise (AssertionError "")
                end)
    None
    (Some (fun lib => match Library.spice_file lib with Some _ => true | None => false end))
    None [].

Definition milkyway_techfile_filter : LibraryFilter :=
  LibraryFilter.mk "milkyway_tf" "Milkyway techfile" true
    (fun lib => match Library.milkyway_techfile lib with
                | Some f => Ok [f]
                | None => Ok []
                end)
    None None None [create_nonempty_check "Milkyway techfile"].

(** The corner is a name, yet it is returned as the filter's path. *)
Definition spice_model_lib_corner_filter : LibraryFilter :=
  LibraryFilter.mk "spice_model_lib_corner" "Spice model lib corner" false
    (fun lib => match Library.spice_model_file lib with
                | Some f => Ok [SpiceModelFile.lib_corner f]
                | None => Ok []
                end)
    None None None [].

Definition power_grid_library_filter : LibraryFilter :=
  LibraryFilter.mk "power_grid_library" "Power grid library" false
    (fun lib => match Library.power_grid_library lib with
                | Some f => Ok [f]
                | None => Raise (AssertionError "")
                end)
    None
    (Some (fun lib => match Library.power_grid_library lib with
                      | Some _ => true
                      | None => false
                      end))
    (Some (fun lib => if match Library.provides lib with
                         | Some provides => provides_technology provides
                         | None => false
                         end
                      then 0%Z else 100%Z))
    [].

Definition klayout_techfile_filter : LibraryFilter :=
  LibraryFilter.mk "klayout" "GDS streaming" true
    (fun lib => match Library.klayout_techfile lib with
                | Some f => Ok [f]
                | None => Raise (AssertionError "")
                end)
    None
    (Some (fun lib => match Library.klayout_techfile lib with
                      | Some _ => true
                      | None => false
                      end))
    None [].

End Filters.

(** ** Vocabulary of the properties *)

(** The value [get_setting] returns for [key] on the database [db], and
    the world it leaves (a missing key is printed). *)
Definition setting (db : gmap string json) (key : string) : json :=
  match db !! key with Some v => v | None => JNull end.

Definition after_get (db : gmap string json) (key : string) (w : World) : World :=
  match db !! key with Some _ => w | None => add_stdout key w end.

Definition database_is (db : gmap string json) (w : World) : Prop :=
  HammerTechnology._database (self w) = Some db.

(** A library with a [provides] entry whose [lib_type] is "technology". *)
Definition marked_technology (lib : Library) : Prop :=
  exists provides provided,
    Library.provides lib = Some provides /\ provided ∈ provides /\
    Provide.lib_type provided = "technology".

(** What path resolution and the settings accessors read. *)
Record Reads := mkReads {
  r_name : string;
  r_package : string;
  r_cachedir : option string;
  r_has_logger : bool;
  r_database : option (gmap string json);
  r_installs : option (list PathPrefix);
  r_tarballs : option (list Tarball);
  r_fs : FS;
  r_packages : gmap string string
}.

Definition reads (w : World) : Reads :=
  mkReads (HammerTechnology.name (self w)) (HammerTechnology.package (self w))
          (HammerTechnology._cachedir (self w)) (HammerTechnology.has_logger (self w))
          (HammerTechnology._database (self w))
          (TechJSON.installs (config w)) (TechJSON.tarballs (config w))
          (fs w) (packages w).

(** Two worlds that differ at most in what was logged and printed. *)
Definition same_but_output (w w' : World) : Prop :=
  self w = self w' /\ heap w = heap w' /\ fs w = fs w' /\ os w = os w' /\
  packages w = packages w'.

(** Two worlds that differ at most in what was printed. *)
Definition same_but_stdout (w w' : World) : Prop :=
  self w = self w' /\ heap w = heap w' /\ fs w = fs w' /\ os w = os w' /\
  packages w = packages w' /\ log w = log w'.

(** Two worlds in which path resolution reads the same. *)
Definition same_reads (w w' : World) : Prop := reads w = reads w'.

(** [m] leaves the technology object as it found it. *)
Definition keeps_self {A} (m : M A) : Prop :=
  forall w, self (snd (m w)) = self w.

(** The path a deck's [path] resolves to, or the path itself when
    resolution raises. *)
Definition resolved_path (w : World) (path : string) : string :=
  match fst (prepend_dir_path path None w) with
  | Ok p => p
  | Raise _ => path
  end.

Definition resolves (w : World) (path : string) : Prop :=
  exists p, fst (prepend_dir_path path None w) = Ok p.

(** [w'] is [w] except for the LVS decks of the descriptor (resp. the DRC
    decks) and the printed output. *)
Definition same_but_lvs_decks (w' w : World) : Prop :=
  self w' = HammerTechnology.set_config
              (TechJSON.set_lvs_decks (TechJSON.lvs_decks (config w')) (config w))
              (self w) /\
  heap w' = heap w /\ fs w' = fs w /\ os w' = os w /\ packages w' = packages w /\
  log w' = log w.

Definition same_but_drc_decks (w' w : World) : Prop :=
  self w' = HammerTechnology.set_config
              (TechJSON.set_drc_decks (TechJSON.drc_decks (config w')) (config w))
              (self w) /\
  heap w' = heap w /\ fs w' = fs w /\ os w' = os w /\ packages w' = packages w /\
  log w' = log w.

(** The prefix identifier of a path and the segments after it. *)
Definition prefix_id (path : string) : string := hd "" (Py.split path).
Definition rest_of (path : string) : list string := tl (Py.split path).

(** The segments joined back with separators: the text they were split
    from. *)
Fixpoint unsplit (segments : list string) : string :=
  match segments with
  | [] => ""
  | [s] => s
  | s :: r => s +:+ "/" +:+ unsplit r
  end.

(** No empty segment before the last one: the text neither starts with a
    separator nor has two in a row. *)
Fixpoint no_empty_inner (segments : list string) : bool :=
  match segments with
  | [] => true
  | [_] => true
  | s :: r => Py.nonempty s && no_empty_inner r
  end.

(** The candidates of a prefix identifier, in the order the code collects
    them, each with the root path it stands for when that resolves. *)
Definition matching_installs (w : World) (id : string) : list PathPrefix :=
  filter (fun pp : PathPrefix => PathPrefix.id pp = id)
         (or_nil (TechJSON.installs (config w))).

Definition matching_tarballs (w : World) (id : string) : list Tarball :=
  filter (fun pp : Tarball => PathPrefix.id (Tarball.root pp) = id)
         (or_nil (TechJSON.tarballs (config w))).

Definition install_root (w : World) (pp : PathPrefix) : option string :=
  match HammerTechnology._database (self w) with
  | Some db =>
      match db !! PathPrefix.path pp with
      | Some (JStr d) => Some d
      | _ => None
      end
  | None => None
  end.

Definition tarball_root (w : World) (t : Tarball) : option string :=
  match fst (extracted_tarballs_dir w) with
  | Ok (JStr d) => Some (Py.join d [PathPrefix.id (Tarball.root t)])
  | _ => None
  end.

Definition candidate_roots (w : World) (id : string) (lib : option Library)
  : list (option string) :=
  map (install_root w) (matching_installs w id) ++
  map (tarball_root w) (matching_tarballs w id) ++
  map (fun pp => Some (PathPrefix.path pp)) (library_prefixes id lib).

(** The remainder of a path as [prepend_dir_path] uses it: its segments
    after the prefix identifier, joined again. *)
Definition remainder (path : string) : string :=
  Py.join (hd "" (rest_of path)) (tl (rest_of path)).

(** The path an install stands for, as [check_installs] reads it. *)
Definition install_path (db : gmap string json) (install : PathPrefix) : string :=
  PyVal.str (setting db (PathPrefix.path install)).

Definition install_missing (db : gmap string json) (f : FS) (install : PathPrefix) : bool :=
  negb (exists_ f (install_path db install)).

Definition install_error (db : gmap string json) (install : PathPrefix) : LogRecord :=
  mkLog ERROR "The install path: {install_path} does not exist, looked at key {path_key}"
        [AStr (install_path db install); AStr (PathPrefix.path install)].

(** The source archive and the target directory of a declared archive,
    when the settings give them. *)
Definition tarball_source (w : World) (t : Tarball) : option string :=
  match HammerTechnology._database (self w) with
  | Some db =>
      match setting db (PathPrefix.path (Tarball.root t)) with
      | JStr d => Some (Py.join d [PathPrefix.id (Tarball.root t)])
      | _ => None
      end
  | None => None
  end.

(** An archive that needs no work: its source is there and its target
    directory exists, or it is optional and its source is absent. *)
Definition materialized (w : World) (t : Tarball) : Prop :=
  exists src tgt,
    tarball_source w t = Some src /\ tarball_root w t = Some tgt /\
    ((isfile (fs w) src = true /\ isdir (fs w) tgt = true) \/
     (isfile (fs w) src = false /\ Tarball.optional t = true)).

(** [g] applied to what a computation returns. *)
Definition rmap {A B} (g : A -> B) (r : Result A) : Result B :=
  match r with Ok a => Ok (g a) | Raise e => Raise e end.

(** Two worlds that differ at most in the objects allocated, the log and
    the printed output. *)
Definition same_but_heap (w w' : World) : Prop :=
  self w = self w' /\ fs w = fs w' /\ os w = os w' /\ packages w = packages w'.

(** [w'] is [w] with more objects allocated, and nothing else changed. *)
Definition allocated_more (w' w : World) : Prop :=
  self w' = self w /\ heap w ⊆ heap w' /\ fs w' = fs w /\ os w' = os w /\
  packages w' = packages w /\ log w' = log w /\ stdout w' = stdout w.

(** The prefix and the library that an entry of
    [vlsi.technology.extra_libraries] declares. *)
Definition declared_extra (d : json) : Result (option PathPrefix * Library) :=
  Pydantic.parse_obj ExtraLibrary_parse "ExtraLibrary" d.

(** A declared library with its declared prefix as its only extra
    prefix. *)
Definition with_prefix (p : option PathPrefix * Library) : Library :=
  Library.set_extra_prefixes
    (Some (match fst p with Some x => [x] | None => [] end)) (snd p).

(** The libraries of the descriptor followed by those of the settings. *)
Definition available (c : TechJSON) (db : gmap string json) : Result (list Library) :=
  match db !! "vlsi.technology.extra_libraries" with
  | None => Ok (or_nil (TechJSON.libraries c))
  | Some (JArr l) =>
      rmap (fun ps => or_nil (TechJSON.libraries c) ++ map with_prefix ps)
           (rmap_list declared_extra l)
  | Some _ => Raise (ValueError "extra_libraries was not a list")
  end.

(** A library that provides the technology, as the sort keys test it. *)
Definition is_technology (lib : Library) : bool :=
  match Library.provides lib with
  | Some provides => provides_technology provides
  | None => false
  end.

(** The first view that is declared, as a list of at most one path. *)
Fixpoint first_declared (views : list (option string)) : list string :=
  match views with
  | [] => []
  | Some f :: _ => [f]
  | None :: rest => first_declared rest
  end.

(** The concatenation of the lists a list of computations results in. *)
Definition concat_results (rs : list (Result (list string))) : Result (list string) :=
  rmap (@concat string) (rmap_list (fun r => r) rs).

(** What the existence check of a filter asks of a path. *)
Definition present (filt : LibraryFilter) (f : FS) (path : string) : Prop :=
  (if LibraryFilter.is_file filt then isfile f path else isdir f path) = true.

(** The layout files of a list of libraries, in the order of the list. *)
Definition lef_files (libs : list Library) : list string :=
  flat_map (fun lib => match Library.lef_file lib with Some f => [f] | None => [] end)
           libs.

(** A filter with another [paths_func]. *)
Definition with_paths_func (paths_func : Library -> Result (list string))
    (filt : LibraryFilter) : LibraryFilter :=
  LibraryFilter.mk (LibraryFilter.tag filt) (LibraryFilter.description filt)
    (LibraryFilter.is_file filt) paths_func (LibraryFilter.extraction_func filt)
    (LibraryFilter.filter_func filt) (LibraryFilter.sort_func filt)
    (LibraryFilter.extra_post_filter_funcs filt).

(** ** Example technologies *)

Module Demo.

Definition db : gmap string json :=
  list_to_map [
    ("vlsi.inputs.mmmc_corners", JArr []);
    ("vlsi.inputs.supplies.VDD", JStr "0.7 V");
    ("vlsi.inputs.supplies.GND", JStr "0 V");
    ("technology.demo.install_dir", JStr "/pdk");
    ("technology.demo.other_dir", JStr "/pdk2");
    ("technology.demo.tarball_dir", JStr "/tarballs")
  ].

(** An operating system on which [makedirs] creates the directory and
    archives are empty. *)
Definition os : OS :=
  mkOS (fun p f => (Ok tt, <[p := Dir]> f)) (fun _ _ f => (Ok tt, f, [])).

Definition config (installs : option (list PathPrefix))
    (libraries : option (list Library)) (lvs_decks : option (list LVSDeck))
    (tarballs : option (list Tarball)) : TechJSON :=
  TechJSON.mk "demo" None None installs libraries None None None None
              lvs_decks tarballs None None None None None None.

Definition world (c : TechJSON) (f : FS) : World :=
  mkWorld (HammerTechnology.mk "demo" "hammer.technology.demo" c
             (Some "/cache") true (Some db))
          ∅ f os ∅ [] [].

(** A library that provides the core technology and declares a 0.9 V
    supply, while the run is configured for 0.7 V. *)
Definition tech_lib : Library :=
  Library.mk (Some "tech") None None None None None None (Some "/pdk/tech.lef")
    None None None None None None None None
    (Some [Provide.mk "technology" None]) None
    (Some (Supplies.mk "0 V" "0.9 V")) None None None None None None None.

(** A library with the given CCS and NLDM liberty files and nothing else. *)
Definition timing_lib (ccs nldm : option string) : Library :=
  Library.mk None ccs None None None None None None None None None None None
    nldm None None None None None None None None None None None None.

(** One install, present in the file system. *)
Definition installed : World :=
  world (config (Some [PathPrefix.mk "pdkroot" "technology.demo.install_dir"])
                None None None)
        {[ "/pdk" := Dir ]}.

(** Two installs, neither present. *)
Definition pdk_a : PathPrefix := PathPrefix.mk "pdk_a" "technology.demo.install_dir".
Definition pdk_b : PathPrefix := PathPrefix.mk "pdk_b" "technology.demo.other_dir".
Definition not_installed : World :=
  world (config (Some [pdk_a; pdk_b]) None None None) ∅.

(** No installs, libraries, decks or tarballs, and an empty file system. *)
Definition bare : World := world (config None None None None) ∅.

(** A required archive whose target directory exists; its source is
    absent in the first world and present in the second. *)
Definition archive : Tarball :=
  Tarball.mk (PathPrefix.mk "pdk.tar" "technology.demo.tarball_dir")
             "https://example.org/pdk" false.
Definition extracted_without_source : World :=
  world (config None None None (Some [archive]))
        {[ "/cache/extracted/pdk.tar" := Dir ]}.
Definition extracted_with_source : World :=
  world (config None None None (Some [archive]))
        (<[ "/tarballs/pdk.tar" := File ]> {[ "/cache/extracted/pdk.tar" := Dir ]}).

(** A library whose extra prefix [lib1] stands for [/design]. *)
Definition lib1 : Library :=
  Library.set_extra_prefixes (Some [PathPrefix.mk "lib1" "/design"])
    (timing_lib None None).

(** An install and an archive that share the identifier [pdk]. *)
Definition shared_id : World :=
  world (config (Some [PathPrefix.mk "pdk" "technology.demo.install_dir"]) None None
                (Some [Tarball.mk (PathPrefix.mk "pdk" "technology.demo.tarball_dir")
                                  "https://example.org/pdk" false]))
        ∅.

(** One install whose settings key is not configured. *)
Definition unset_install : World :=
  world (config (Some [PathPrefix.mk "pdk" "technology.demo.unset_dir"]) None None None)
        ∅.

(** One LVS deck whose path is relative to the cache directory, and one
    whose prefix identifier nothing declares. *)
Definition cache_deck : LVSDeck := LVSDeck.mk "calibre" "all_lvs" "cache/lvs.rul".
Definition with_deck : World :=
  world (config None None (Some [cache_deck]) None) ∅.
Definition stray_deck : LVSDeck := LVSDeck.mk "calibre" "all_lvs" "nosuch/lvs.rul".
Definition with_stray_deck : World :=
  world (config None None (Some [stray_deck]) None) ∅.

(** Two required archives: the first is extracted and has its source, the
    second has neither source nor target. *)
Definition io_archive : Tarball :=
  Tarball.mk (PathPrefix.mk "io.tar" "technology.demo.tarball_dir")
             "https://example.org/io" false.
Definition half_extracted : World :=
  world (config None None None (Some [archive; io_archive]))
        (<[ "/tarballs/pdk.tar" := File ]> {[ "/cache/extracted/pdk.tar" := Dir ]}).

(** A technology without a cache directory whose settings name the
    directory of extracted archives. *)
Definition extracted_dir_set : World :=
  mkWorld (HammerTechnology.mk "demo" "hammer.technology.demo"
             (config None None None None) None true
             (Some (<[ "technology.demo.extracted_tarballs_dir" := JStr "/x" ]> db)))
          ∅ ∅ os ∅ [] [].

(** Settings that declare one extra library under the prefix [extra]. *)
Definition extra_lib : Library := timing_lib (Some "extra/ccs.lib") None.
Definition extra_prefix : PathPrefix := PathPrefix.mk "extra" "/ip".
Definition db_extra : gmap string json :=
  <[ "vlsi.technology.extra_libraries" :=
       JArr [JObj [("prefix", Pydantic.PathPrefix_json extra_prefix);
                   ("library", Pydantic.Library_json extra_lib)]] ]> db.
Definition with_extra : World :=
  mkWorld (HammerTechnology.mk "demo" "hammer.technology.demo"
             (config None (Some [timing_lib (Some "/pdk/ccs.lib") None]) None None)
             (Some "/cache") true (Some db_extra))
          ∅ {[ "/pdk/ccs.lib" := File; "/ip/ccs.lib" := File ]} os ∅ [] [].

(** A macro library listed before the technology library. *)
Definition macro_lib : Library :=
  Library.mk (Some "sram") None None None None None None (Some "/ip/sram.lef")
    None None None None None None None None None None None None None None None None
    None None.
Definition macro_first : World :=
  mkWorld (HammerTechnology.mk "demo" "hammer.technology.demo"
             (config None (Some [macro_lib; tech_lib]) None None)
             (Some "/cache") true
             (Some (<[ "vlsi.inputs.mmmc_corners" := JArr [JStr "tt"] ]> db)))
          ∅ ∅ os ∅ [] [].

(** Three sites, two of them named [core]. *)
Definition core_site : Site := Site.mk "core" "0.216" "1.08".
Definition with_sites : World :=
  world (TechJSON.mk "demo" None None None None None None None None None None
           (Some [Site.mk "io" "1" "10"; core_site; Site.mk "core" "0.5" "2"])
           None None None None None)
        ∅.

(** A library whose SPICE models are read at the corner [tt]. *)
Definition spice_lib : Library :=
  Library.mk None None None None None None None None None None None None None None
    None None None None None None None None None
    (Some (SpiceModelFile.mk "/pdk/models.sp" "tt")) None None.
Definition with_package : World :=
  mkWorld (HammerTechnology.mk "demo" "hammer.technology.demo"
             (config None (Some [spice_lib]) None None) (Some "/cache") true (Some db))
          ∅ ∅ os {[ "hammer.technology.demo" := "/site-packages/demo" ]} [] [].

(** A required archive whose source is present and whose target directory
    is not there yet. *)
Definition not_extracted : World :=
  world (config None None None (Some [archive])) {[ "/tarballs/pdk.tar" := File ]}.

(** A library that provides the technology and has no supplies
    annotation, and a library annotated with the configured supplies. *)
Definition plain_tech_lib : Library :=
  Library.mk (Some "tech") None None None None None None (Some "/pdk/tech.lef")
    None None None None None None None None
    (Some [Provide.mk "technology" None]) None None None None None None None None None.
Definition supplied_lib : Library :=
  Library.mk (Some "cells") None None None None None None None None None None None
    None None None None None None (Some (Supplies.mk "0 V" "0.7 V")) None None None
    None None None None.

End Demo.

(** * Properties *)

(** ** Running computations *)

Lemma after_get_self db key w : self (after_get db key w) = self w.
Proof. unfold after_get. destruct (db !! key); reflexivity. Qed.

Lemma after_get_log db key w : log (after_get db key w) = log w.
Proof. unfold after_get. destruct (db !! key); reflexivity. Qed.

Lemma after_get_fs db key w : fs (after_get db key w) = fs w.
Proof. unfold after_get. destruct (db !! key); reflexivity. Qed.

Lemma after_get_database db db' key w :
  database_is db w -> database_is db (after_get db' key w).
Proof. unfold database_is. now rewrite after_get_self. Qed.

Lemma get_setting_run (w : World) (db : gmap string json) (key : string) :
  database_is db w ->
  get_setting key w = (Ok (setting db key), after_get db key w).
Proof.
  intros Hdb. unfold get_setting, setting, after_get, bind, gets. rewrite Hdb.
  destruct (db !! key); reflexivity.
Qed.

Lemma bind_get_setting {B} (k : json -> M B) w db key :
  database_is db w ->
  bind (get_setting key) k w = k (setting db key) (after_get db key w).
Proof. intros H. unfold bind. now rewrite (get_setting_run w db key H). Qed.

Lemma provides_technology_iff (provides : list Provide) :
  provides_technology provides = true <->
  exists provided, provided ∈ provides /\ Provide.lib_type provided = "technology".
Proof.
  induction provides as [|p l IH]; simpl.
  - split; [discriminate | intros (x & Hx & _); inversion Hx].
  - destruct (String.eqb_spec (Provide.lib_type p) "technology") as [E|E].
    + split; [intros _; exists p; split; [left | exact E] | reflexivity].
    + rewrite IH. split.
      * intros (x & Hx & Ex). exists x. split; [now right | exact Ex].
      * intros (x & Hx & Ex). inversion Hx; subst; [contradiction|].
        exists x. now split.
Qed.

Lemma marked_technology_iff (lib : Library) :
  marked_technology lib <->
  match Library.provides lib with
  | Some provides => provides_technology provides
  | None => false
  end = true.
Proof.
  unfold marked_technology. destruct (Library.provides lib) as [l|].
  - rewrite provides_technology_iff. split.
    + intros (l' & p & E & Hp & Ht). inversion E; subst. now exists p.
    + intros (p & Hp & Ht). now exists l, p.
  - split; [intros (l' & p & E & _); discriminate | discriminate].
Qed.

(** ** Computations that only read, log and print *)

Section Observers.
Variable R : World -> World -> Prop.
Hypothesis R_equiv : Equivalence R.
Hypothesis R_reads : forall w w', R w w' -> reads w = reads w'.
Hypothesis R_stdout : forall s w, R (add_stdout s w) w.
Hypothesis R_log : forall r w, R (add_log r w) w.

(** [m] returns the same in related worlds and leaves a world related
    to the one it started in. *)
Definition observer {A} (m : M A) : Prop :=
  forall w w', R w w' -> fst (m w) = fst (m w') /\ R (snd (m w)) w.

Lemma observer_ret {A} (a : A) : observer (ret a).
Proof. intros w w' H. split; [reflexivity | simpl; reflexivity]. Qed.

Lemma observer_raise {A} (e : exn) : observer (@raise A e).
Proof. intros w w' H. split; [reflexivity | simpl; reflexivity]. Qed.

Lemma observer_lift {A} (r : Result A) : observer (lift r).
Proof. intros w w' H. split; [reflexivity | simpl; reflexivity]. Qed.

Lemma observer_gets {A} (f : Reads -> A) : observer (gets (fun w => f (reads w))).
Proof.
  intros w w' H. split; [|simpl; reflexivity].
  simpl. now rewrite (R_reads w w' H).
Qed.

Lemma observer_bind {A B} (m : M A) (k : A -> M B) :
  observer m -> (forall a, observer (k a)) -> observer (bind m k).
Proof.
  intros Hm Hk w w' H. unfold bind.
  destruct (Hm w w' H) as [E1 E2].
  destruct (Hm w' w' ltac:(reflexivity)) as [_ E3].
  destruct (m w) as [r w1], (m w') as [r' w1']. simpl in *. subst r'.
  destruct r as [a|e]; simpl.
  - assert (R w1 w1') as H1
      by (etransitivity; [exact E2|]; etransitivity; [exact H|]; now symmetry).
    destruct (Hk a w1 w1' H1) as [F1 F2]. split; [exact F1|].
    etransitivity; eassumption.
  - split; [reflexivity | exact E2].
Qed.

Lemma observer_mapM {A B} (f : A -> M B) (l : list A) :
  (forall a, observer (f a)) -> observer (mapM f l).
Proof.
  intros Hf. induction l as [|x l IH]; simpl.
  - apply observer_ret.
  - apply observer_bind; [apply Hf|]. intros y.
    apply observer_bind; [apply IH|]. intros ys. apply observer_ret.
Qed.

Lemma observer_add_stdout s : observer (modify (add_stdout s)).
Proof. intros w w' H. split; [reflexivity | simpl; apply R_stdout]. Qed.

Lemma observer_add_log r : observer (modify (add_log r)).
Proof. intros w w' H. split; [reflexivity | simpl; apply R_log]. Qed.

Ltac obs :=
  repeat first
    [ apply observer_ret | apply observer_raise | apply observer_lift
    | apply observer_add_stdout | apply observer_add_log
    | apply (observer_gets (fun r => r_cachedir r))
    | apply (observer_gets (fun r => r_has_logger r))
    | apply (observer_gets (fun r => r_database r))
    | apply (observer_gets (fun r => r_name r))
    | apply (observer_gets (fun r => r_package r))
    | apply (observer_gets (fun r => r_installs r))
    | apply (observer_gets (fun r => r_tarballs r))
    | apply (observer_gets (fun r => r_fs r))
    | apply (observer_gets (fun r => r_packages r))
    | apply observer_mapM; intros
    | apply observer_bind; [|intros]
    | match goal with
      | |- observer (if ?b then _ else _) => destruct b
      | |- observer (match ?x with _ => _ end) => destruct x
      end ].

Lemma observer_cache_dir : observer cache_dir.
Proof. unfold cache_dir. obs. Qed.

Lemma observer_logger : observer logger.
Proof. unfold logger. obs. Qed.

Lemma observer_log_msg lv fmt a : observer (log_msg lv fmt a).
Proof. unfold log_msg. pose proof observer_logger. obs; auto. Qed.

Lemma observer_get_setting key : observer (get_setting key).
Proof. unfold get_setting. obs. Qed.

Lemma observer_has_setting key : observer (has_setting key).
Proof. unfold has_setting. obs. Qed.

Lemma observer_join_setting v p : observer (join_setting v p).
Proof. unfold join_setting. obs. Qed.

Lemma observer_extracted_tarballs_dir : observer extracted_tarballs_dir.
Proof.
  unfold extracted_tarballs_dir.
  pose proof observer_get_setting. pose proof observer_has_setting.
  pose proof observer_cache_dir.
  obs; auto; obs; auto; obs.
Qed.

Lemma observer_install_prefixes id : observer (install_prefixes id).
Proof. unfold install_prefixes. pose proof observer_get_setting. obs; auto. Qed.

Lemma observer_tarball_prefixes id : observer (tarball_prefixes id).
Proof.
  unfold tarball_prefixes. pose proof observer_extracted_tarballs_dir.
  pose proof observer_join_setting. obs; auto.
Qed.

Lemma observer_prepend_dir_path path lib : observer (prepend_dir_path path lib).
Proof.
  unfold prepend_dir_path.
  pose proof observer_cache_dir. pose proof observer_install_prefixes.
  pose proof observer_tarball_prefixes.
  obs; auto; obs.
Qed.

Lemma observer_filter_for_supplies lib : observer (filter_for_supplies lib).
Proof.
  unfold filter_for_supplies.
  pose proof observer_get_setting. pose proof observer_log_msg.
  obs; auto; obs; auto.
Qed.

Lemma observer_check_installs_loop l : observer (check_installs_loop l).
Proof.
  pose proof observer_get_setting. pose proof observer_log_msg.
  induction l as [|x l IH]; simpl; obs; auto.
Qed.

Lemma observer_check_installs : observer check_installs.
Proof. unfold check_installs. pose proof observer_check_installs_loop. obs; auto. Qed.

Lemma observer_make_check_isfile d p : observer (make_check_isfile d p).
Proof. unfold make_check_isfile. obs. Qed.

Lemma observer_make_check_isdir d p : observer (make_check_isdir d p).
Proof. unfold make_check_isdir. obs. Qed.
End Observers.

#[local] Instance same_but_output_equiv : Equivalence same_but_output.
Proof.
  split.
  - intros w. unfold same_but_output. tauto.
  - intros w w' (A & B & C & D & E). unfold same_but_output. auto.
  - intros a b c (A & B & C & D & E) (A' & B' & C' & D' & E').
    unfold same_but_output. repeat split; congruence.
Qed.

#[local] Instance same_reads_equiv : Equivalence same_reads.
Proof.
  split.
  - intros w. reflexivity.
  - intros w w' H. unfold same_reads in *. now symmetry.
  - intros a b c H H'. unfold same_reads in *. congruence.
Qed.

Lemma same_but_output_reads w w' : same_but_output w w' -> reads w = reads w'.
Proof.
  intros (A & B & C & D & E). unfold reads, config. now rewrite A, C, E.
Qed.

Lemma same_but_output_stdout s w : same_but_output (add_stdout s w) w.
Proof. unfold same_but_output. simpl. tauto. Qed.

Lemma same_but_output_log r w : same_but_output (add_log r w) w.
Proof. unfold same_but_output. simpl. tauto. Qed.

(** An observer changes nothing but the log and the printed output. *)
Lemma observer_same_but_output {A} (m : M A) (w : World) :
  observer same_but_output m -> same_but_output (snd (m w)) w.
Proof. intros H. apply (H w w). reflexivity. Qed.

(** Path resolution returns the same wherever it reads the same. *)
Lemma prepend_dir_path_same_reads path lib w w' :
  same_reads w w' ->
  fst (prepend_dir_path path lib w) = fst (prepend_dir_path path lib w') /\
  same_reads (snd (prepend_dir_path path lib w)) w.
Proof.
  apply (observer_prepend_dir_path same_reads same_reads_equiv);
    intros; try reflexivity; assumption.
Qed.

(** ** Computations that leave the technology object alone *)

Lemma keeps_self_ret {A} (a : A) : keeps_self (ret a).
Proof. intros w. reflexivity. Qed.

Lemma keeps_self_raise {A} (e : exn) : keeps_self (@raise A e).
Proof. intros w. reflexivity. Qed.

Lemma keeps_self_lift {A} (r : Result A) : keeps_self (lift r).
Proof. intros w. reflexivity. Qed.

Lemma keeps_self_gets {A} (f : World -> A) : keeps_self (gets f).
Proof. intros w. reflexivity. Qed.

Lemma keeps_self_modify (f : World -> World) :
  (forall w, self (f w) = self w) -> keeps_self (modify f).
Proof. intros H w. apply H. Qed.

Lemma keeps_self_bind {A B} (m : M A) (k : A -> M B) :
  keeps_self m -> (forall a, keeps_self (k a)) -> keeps_self (bind m k).
Proof.
  intros Hm Hk w. unfold bind. specialize (Hm w).
  destruct (m w) as [[a|e] w1]; simpl in *; [|exact Hm].
  now rewrite Hk.
Qed.

Lemma keeps_self_mapM {A B} (f : A -> M B) (l : list A) :
  (forall a, keeps_self (f a)) -> keeps_self (mapM f l).
Proof.
  intros Hf. induction l as [|x l IH]; simpl.
  - apply keeps_self_ret.
  - apply keeps_self_bind; [apply Hf|]. intros y.
    apply keeps_self_bind; [apply IH|]. intros ys. apply keeps_self_ret.
Qed.

Lemma keeps_self_forM {A} (f : A -> M unit) (l : list A) :
  (forall a, keeps_self (f a)) -> keeps_self (forM f l).
Proof.
  intros Hf. induction l as [|x l IH]; simpl.
  - apply keeps_self_ret.
  - apply keeps_self_bind; [apply Hf|]. intros _. apply IH.
Qed.

Lemma keeps_self_observer {A} (m : M A) :
  observer same_but_output m -> keeps_self m.
Proof. intros H w. apply (observer_same_but_output m w H). Qed.

Ltac use_observer lem :=
  apply keeps_self_observer;
  apply lem;
  first [ exact same_but_output_equiv | exact same_but_output_reads
        | exact same_but_output_stdout | exact same_but_output_log ].

Lemma keeps_self_prepend_dir_path path lib : keeps_self (prepend_dir_path path lib).
Proof. use_observer observer_prepend_dir_path. Qed.

Lemma keeps_self_get_setting key : keeps_self (get_setting key).
Proof. use_observer observer_get_setting. Qed.

Lemma keeps_self_has_setting key : keeps_self (has_setting key).
Proof. use_observer observer_has_setting. Qed.

Lemma keeps_self_log_msg lv fmt a : keeps_self (log_msg lv fmt a).
Proof. use_observer observer_log_msg. Qed.

Lemma keeps_self_extracted_tarballs_dir : keeps_self extracted_tarballs_dir.
Proof. use_observer observer_extracted_tarballs_dir. Qed.

Lemma keeps_self_join_setting v p : keeps_self (join_setting v p).
Proof. use_observer observer_join_setting. Qed.

Lemma keeps_self_filter_for_supplies lib : keeps_self (filter_for_supplies lib).
Proof. use_observer observer_filter_for_supplies. Qed.

Lemma keeps_self_check_installs : keeps_self check_installs.
Proof. use_observer observer_check_installs. Qed.

Lemma keeps_self_make_check_isfile d p : keeps_self (make_check_isfile d p).
Proof. use_observer observer_make_check_isfile. Qed.

Lemma keeps_self_make_check_isdir d p : keeps_self (make_check_isdir d p).
Proof. use_observer observer_make_check_isdir. Qed.

Create HintDb keeps.
#[local] Hint Resolve keeps_self_ret keeps_self_raise keeps_self_lift
  keeps_self_gets keeps_self_prepend_dir_path keeps_self_get_setting
  keeps_self_has_setting keeps_self_log_msg keeps_self_extracted_tarballs_dir
  keeps_self_join_setting keeps_self_filter_for_supplies
  keeps_self_check_installs keeps_self_make_check_isfile
  keeps_self_make_check_isdir : keeps.

Ltac keeps :=
  repeat first
    [ solve [auto with keeps]
    | progress cbv beta zeta
    | apply keeps_self_modify; intros; reflexivity
    | apply keeps_self_mapM; intros
    | apply keeps_self_forM; intros
    | apply keeps_self_bind; [|intros]
    | match goal with
      | |- keeps_self (if ?b then _ else _) => destruct b
      | |- keeps_self (match ?x with _ => _ end) => destruct x
      end ].

Lemma keeps_self_extract_tarball t : keeps_self (extract_tarball t).
Proof. unfold extract_tarball. keeps. Qed.

Lemma keeps_self_extract_tarballs : keeps_self extract_tarballs.
Proof. unfold extract_tarballs. pose proof keeps_self_extract_tarball. keeps. Qed.

Lemma keeps_self_extract_technology_files : keeps_self extract_technology_files.
Proof.
  unfold extract_technology_files, post_install_script.
  pose proof keeps_self_extract_tarballs. keeps.
Qed.

Lemma keeps_self_copy_library l : keeps_self (copy_library l).
Proof. unfold copy_library. keeps. Qed.

Lemma keeps_self_store_into_library el : keeps_self (store_into_library el).
Proof. unfold store_into_library. pose proof keeps_self_copy_library. keeps. Qed.

Lemma keeps_self_get_available_libraries : keeps_self get_available_libraries.
Proof.
  unfold get_available_libraries, tech_defined_libraries, get_extra_libraries,
    ExtraLibrary_parse_obj, deref.
  pose proof keeps_self_store_into_library. keeps.
Qed.

Lemma keeps_self_all_pass fs lib :
  (forall f l, f ∈ fs -> keeps_self (f l)) -> keeps_self (all_pass fs lib).
Proof.
  induction fs as [|f fs IH]; intros H; simpl.
  - keeps.
  - apply keeps_self_bind; [apply H; left|]. intros [|]; [|keeps].
    apply IH. intros g l Hg. apply H. now right.
Qed.

Lemma keeps_self_reduce_named_filter fs libs :
  (forall f l, f ∈ fs -> keeps_self (f l)) ->
  keeps_self (reduce_named_filter fs libs).
Proof.
  intros H. induction libs as [|lib libs IH]; simpl; [keeps|].
  apply keeps_self_bind; [now apply keeps_self_all_pass|]. intros b.
  apply keeps_self_bind; [exact IH|]. intros. keeps.
Qed.

Lemma keeps_self_process_library_filter filt pre_filts output_func must_exist uniquify :
  (forall f l, f ∈ pre_filts -> keeps_self (f l)) ->
  keeps_self (process_library_filter filt pre_filts output_func must_exist uniquify).
Proof.
  intros H. unfold process_library_filter.
  apply keeps_self_bind; [apply keeps_self_get_available_libraries|]. intros.
  apply keeps_self_bind.
  { apply keeps_self_reduce_named_filter. intros f l Hf.
    apply elem_of_app in Hf as [Hf|Hf]; [now apply H|].
    destruct (LibraryFilter.filter_func filt); simpl in Hf.
    - apply list_elem_of_singleton in Hf. subst f. keeps.
    - inversion Hf. }
  intros. unfold get_and_prepend_path, check_lib_and_paths. keeps.
  destruct (LibraryFilter.is_file filt); keeps.
Qed.

(** ** C1: the supply pre-filter *)

(** C1 (as amended).  With the database set: when multi-corner mode is on,
    every library is accepted; when it is off, a library marked as a core
    technology library that has no supplies annotation is accepted and
    nothing is logged for it, a library without supplies annotation is
    accepted in any case (with a warning when it is not so marked), and a
    library with a supplies annotation, marked as technology or not, is
    accepted exactly when its VDD and its GND equal the configured ones. *)
Theorem C1_filter_for_supplies (w : World) (db : gmap string json) (lib : Library) :
  database_is db w ->
  let r := filter_for_supplies lib w in
  let mmmc := PyVal.truthy (setting db "vlsi.inputs.mmmc_corners") in
  (mmmc = true -> fst r = Ok true) /\
  (mmmc = false -> Library.supplies lib = None -> marked_technology lib ->
   fst r = Ok true /\ log (snd r) = log w) /\
  (mmmc = false -> Library.supplies lib = None -> ~ marked_technology lib ->
   HammerTechnology.has_logger (self w) = true ->
   fst r = Ok true /\
   log (snd r) = log w ++ [mkLog WARNING "Lib %s has no supplies annotation! Using anyway."
                                 [ADoc (Pydantic.Library_json lib)]]) /\
  (mmmc = false -> forall s, Library.supplies lib = Some s ->
   fst r = Ok (PyVal.eq_str (setting db "vlsi.inputs.supplies.VDD") (Supplies.VDD s) &&
               PyVal.eq_str (setting db "vlsi.inputs.supplies.GND") (Supplies.GND s))).
Proof.
  intros Hdb r mmmc. subst r mmmc. unfold filter_for_supplies.
  rewrite (bind_get_setting _ w db _ Hdb).
  split; [|split; [|split]].
  - intros ->. reflexivity.
  - intros Hm Hs Ht. rewrite Hm, Hs. apply marked_technology_iff in Ht. rewrite Ht.
    split; [reflexivity | apply after_get_log].
  - intros Hm Hs Ht Hl. rewrite Hm, Hs.
    destruct (match Library.provides lib with
              | Some provides => provides_technology provides
              | None => false
              end) eqn:E.
    { exfalso. apply Ht. now apply marked_technology_iff. }
    unfold log_msg, logger, bind, gets, modify, ret. simpl.
    rewrite after_get_self, Hl. simpl. rewrite after_get_log. split; reflexivity.
  - intros Hm s Hs. rewrite Hm, Hs.
    rewrite (bind_get_setting _ _ db); [|now apply after_get_database].
    destruct (PyVal.eq_str (setting db "vlsi.inputs.supplies.VDD") (Supplies.VDD s));
      simpl; [|reflexivity].
    rewrite (bind_get_setting _ _ db); [reflexivity|].
    now do 2 apply after_get_database.
Qed.

(** C1 at the cases it tells apart.  With multi-corner mode off: a
    technology library without supplies annotation is accepted and nothing
    is logged; a library annotated with the configured supplies is
    accepted; the technology library annotated with 0.9 V is rejected.
    With multi-corner mode on, that library is accepted. *)
Lemma C1_filter_for_supplies_witness :
  (database_is Demo.db Demo.bare /\
   PyVal.truthy (setting Demo.db "vlsi.inputs.mmmc_corners") = false /\
   marked_technology Demo.plain_tech_lib /\
   Library.supplies Demo.plain_tech_lib = None) /\
  (fst (filter_for_supplies Demo.plain_tech_lib Demo.bare) = Ok true /\
   log (snd (filter_for_supplies Demo.plain_tech_lib Demo.bare)) = []) /\
  fst (filter_for_supplies Demo.supplied_lib Demo.bare) = Ok true /\
  fst (filter_for_supplies Demo.tech_lib Demo.bare) = Ok false /\
  fst (filter_for_supplies Demo.tech_lib Demo.macro_first) = Ok true.
Proof.
  assert (Hm : marked_technology Demo.plain_tech_lib).
  { exists [Provide.mk "technology" None], (Provide.mk "technology" None).
    repeat split. left. }
  split; [repeat split; exact Hm|].
  split; [|split; [|split]].
  - destruct (C1_filter_for_supplies Demo.bare Demo.db Demo.plain_tech_lib eq_refl)
      as (_ & H & _).
    exact (H eq_refl eq_refl Hm).
  - destruct (C1_filter_for_supplies Demo.bare Demo.db Demo.supplied_lib eq_refl)
      as (_ & _ & _ & H).
    exact (H eq_refl (Supplies.mk "0 V" "0.7 V") eq_refl).
  - destruct (C1_filter_for_supplies Demo.bare Demo.db Demo.tech_lib eq_refl)
      as (_ & _ & _ & H).
    exact (H eq_refl (Supplies.mk "0 V" "0.9 V") eq_refl).
  - destruct (C1_filter_for_supplies Demo.macro_first
                (<[ "vlsi.inputs.mmmc_corners" := JArr [JStr "tt"] ]> Demo.db)
                Demo.tech_lib eq_refl) as (H & _).
    exact (H eq_refl).
Defined.

(** C1 as stated fails: a library marked as technology whose declared VDD
    (0.9 V) differs from the configured one (0.7 V) is rejected. *)
Lemma C1_counterexample :
  marked_technology Demo.tech_lib /\
  fst (filter_for_supplies Demo.tech_lib
         (Demo.world (Demo.config None None None None) ∅)) = Ok false.
Proof.
  split.
  - exists [Provide.mk "technology" None], (Provide.mk "technology" None).
    repeat split. left.
  - vm_compute. reflexivity.
Qed.

(** ** pydantic round trips *)

Section RoundTrip.
Import Pydantic.

Lemma opt_str_round k (o : option string) :
  opt_field str_field k (of_opt JStr o) = Ok o.
Proof. destruct o; reflexivity. Qed.

Lemma opt_obj_round {A} (to : A -> json) (parse : fields -> Result A) k
    (o : option A) :
  (forall a, obj_field parse k (to a) = Ok a) ->
  (forall a, to a <> JNull) ->
  opt_field (obj_field parse) k (of_opt to o) = Ok o.
Proof.
  intros H Hn. destruct o as [a|]; [|reflexivity]. simpl.
  unfold opt_field. specialize (H a). specialize (Hn a).
  destruct (to a); try congruence; now rewrite H.
Qed.

Lemma list_round {A} (to : A -> json) (parse : fields -> Result A) k
    (l : list A) :
  (forall a, obj_field parse k (to a) = Ok a) ->
  list_field (obj_field parse) k (of_list to l) = Ok l.
Proof.
  intros H. unfold list_field, of_list.
  induction l as [|a l IH]; simpl; [reflexivity|].
  now rewrite H, IH.
Qed.

Lemma opt_list_round {A} (to : A -> json) (parse : fields -> Result A) k
    (o : option (list A)) :
  (forall a, obj_field parse k (to a) = Ok a) ->
  opt_field (list_field (obj_field parse)) k (of_opt (of_list to) o) = Ok o.
Proof.
  intros H. destruct o as [l|]; [|reflexivity].
  change (of_opt (of_list to) (Some l)) with (of_list to l).
  unfold opt_field. rewrite list_round by assumption. reflexivity.
Qed.

Lemma Corner_round k c : obj_field Corner_parse k (Corner_json c) = Ok c.
Proof. destruct c; reflexivity. Qed.

Lemma MinMaxCap_round k c : obj_field MinMaxCap_parse k (MinMaxCap_json c) = Ok c.
Proof. destruct c; reflexivity. Qed.

Lemma Supplies_round k c : obj_field Supplies_parse k (Supplies_json c) = Ok c.
Proof. destruct c; reflexivity. Qed.

Lemma SpiceModelFile_round k c :
  obj_field SpiceModelFile_parse k (SpiceModelFile_json c) = Ok c.
Proof. destruct c; reflexivity. Qed.

Lemma PathPrefix_round k c : obj_field PathPrefix_parse k (PathPrefix_json c) = Ok c.
Proof. destruct c; reflexivity. Qed.

Lemma Provide_round k c : obj_field Provide_parse k (Provide_json c) = Ok c.
Proof. destruct c as [t [v|]]; reflexivity. Qed.

(** Parsing the document of a library gives the library back. *)
Lemma Library_round (lib : Library) :
  Library_parse_raw (Library_json lib) = Ok lib.
Proof.
  destruct lib. unfold Library_parse_raw, Library_json, parse_obj. cbn [coerce].
  unfold Library_parse, read. cbn [PyVal.get String.eqb Ascii.eqb Bool.eqb]. cbn [Library.name
    Library.ccs_liberty_file Library.ccs_library_file Library.ecsm_liberty_file
    Library.ecsm_library_file Library.corner Library.itf_files Library.lef_file
    Library.klayout_techfile Library.spice_file Library.gds_file
    Library.milkyway_lib_in_dir Library.milkyway_techfile
    Library.nldm_liberty_file Library.nldm_library_file
    Library.openaccess_techfile Library.provides Library.qrc_techfile
    Library.supplies Library.tluplus_files Library.tluplus_map_file
    Library.verilog_sim Library.verilog_synth Library.spice_model_file
    Library.power_grid_library Library.extra_prefixes].
  rewrite !opt_str_round.
  rewrite (opt_obj_round Corner_json Corner_parse) by (auto using Corner_round; discriminate).
  rewrite !(opt_obj_round MinMaxCap_json MinMaxCap_parse)
    by (auto using MinMaxCap_round; discriminate).
  rewrite (opt_obj_round Supplies_json Supplies_parse)
    by (auto using Supplies_round; discriminate).
  rewrite (opt_obj_round SpiceModelFile_json SpiceModelFile_parse)
    by (auto using SpiceModelFile_round; discriminate).
  rewrite (opt_list_round Provide_json Provide_parse) by auto using Provide_round.
  rewrite (opt_list_round PathPrefix_json PathPrefix_parse) by auto using PathPrefix_round.
  reflexivity.
Qed.
End RoundTrip.

(** ** C10: [store_into_library] *)

Lemma fresh_not_in_heap (h : gmap loc Library) : h !! fresh (dom h) = None.
Proof. apply not_elem_of_dom. apply is_fresh. Qed.

Lemma set_extra_prefixes_back (v : option (list PathPrefix)) (lib : Library) :
  Library.set_extra_prefixes (Library.extra_prefixes lib)
    (Library.set_extra_prefixes v lib) = lib.
Proof. destruct lib; reflexivity. Qed.

(** C10.  For an [ExtraLibrary] whose library is the object at
    [ExtraLibrary.library el], [store_into_library] returns the address of
    a new object; that object has the fields of the original except
    [extra_prefixes], which is the one-element list of the declared prefix,
    or the empty list when none is declared, whatever the original held
    there; the original object, every other object and the rest of the
    state are as before. *)
Theorem C10_store_into_library (el : ExtraLibrary) (w : World) (lib : Library) :
  heap w !! ExtraLibrary.library el = Some lib ->
  let l' := fresh (dom (heap w)) in
  let declared :=
    match ExtraLibrary.prefix el with Some p => [p] | None => [] end in
  let copy := Library.set_extra_prefixes (Some declared) lib in
  let w' := snd (store_into_library el w) in
  store_into_library el w = (Ok l', set_heap (<[l' := copy]> (heap w)) w) /\
  heap w !! l' = None /\
  heap w' !! l' = Some copy /\
  Library.extra_prefixes copy = Some declared /\
  Library.set_extra_prefixes (Library.extra_prefixes lib) copy = lib /\
  heap w' !! ExtraLibrary.library el = Some lib /\
  (forall l, l <> l' -> heap w' !! l = heap w !! l).
Proof.
  intros Hlib l' declared copy w'.
  assert (Hnew : heap w !! l' = None) by apply fresh_not_in_heap.
  assert (Hrun : store_into_library el w
                 = (Ok l', set_heap (<[l' := copy]> (heap w)) w)).
  { unfold store_into_library, copy_library, bind, gets, lift, modify, ret.
    cbv beta iota. rewrite Hlib. cbv beta iota. rewrite Library_round.
    cbv beta iota. fold l'. f_equal. unfold set_heap. simpl. f_equal.
    rewrite alter_insert_eq. subst copy declared.
    destruct (ExtraLibrary.prefix el); reflexivity. }
  subst w'. rewrite Hrun. simpl.
  split; [reflexivity|]. split; [exact Hnew|].
  split; [apply lookup_insert_eq|].
  split; [subst copy; destruct lib; reflexivity|].
  split; [apply set_extra_prefixes_back|].
  split.
  - rewrite lookup_insert_ne; [exact Hlib|]. intros E. rewrite E in Hnew. congruence.
  - intros l Hl. now rewrite lookup_insert_ne.
Qed.

(** C10 at an extra library that declares the prefix [extra] and whose
    library already carried a prefix [old]. *)
Lemma C10_store_into_library_witness :
  let old := PathPrefix.mk "old" "/old" in
  let extra := PathPrefix.mk "extra" "/extra" in
  let lib := Library.set_extra_prefixes (Some [old]) (Demo.timing_lib None None) in
  let w := set_heap {[ 0 := lib ]} (Demo.world (Demo.config None None None None) ∅) in
  heap w !! 0 = Some lib /\
  fst (store_into_library (ExtraLibrary.mk (Some extra) 0) w) = Ok 1 /\
  heap (snd (store_into_library (ExtraLibrary.mk (Some extra) 0) w)) !! 1
    = Some (Library.set_extra_prefixes (Some [extra]) lib) /\
  heap (snd (store_into_library (ExtraLibrary.mk (Some extra) 0) w)) !! 0 = Some lib.
Proof.
  intros old extra lib w.
  assert (H : heap w !! ExtraLibrary.library (ExtraLibrary.mk (Some extra) 0) = Some lib)
    by reflexivity.
  split; [exact H|].
  destruct (C10_store_into_library (ExtraLibrary.mk (Some extra) 0) w lib H)
    as (Hrun & _ & Hcopy & _ & _ & Horig & _).
  split; [rewrite Hrun; reflexivity|].
  split; [exact Hcopy | exact Horig].
Defined.

(** ** C7: the timing filters *)

Lemma filter_for_supplies_total (w : World) (db : gmap string json) (lib : Library) :
  database_is db w -> HammerTechnology.has_logger (self w) = true ->
  exists b, fst (filter_for_supplies lib w) = Ok b.
Proof.
  intros Hdb Hl. unfold filter_for_supplies.
  rewrite (bind_get_setting _ w db _ Hdb).
  destruct (PyVal.truthy _); [now exists true|].
  destruct (Library.supplies lib) as [s|].
  - rewrite (bind_get_setting _ _ db); [|now apply after_get_database].
    destruct (PyVal.eq_str _ _); [|now exists false].
    rewrite (bind_get_setting _ _ db); [|now do 2 apply after_get_database].
    eexists; reflexivity.
  - destruct (match Library.provides lib with Some _ => _ | None => _ end);
      [now exists true|].
    unfold log_msg, logger, bind, gets, modify, ret. simpl.
    rewrite after_get_self, Hl. now exists true.
Qed.

Lemma tech_defined_libraries_run (w : World) :
  tech_defined_libraries w = (Ok (or_nil (TechJSON.libraries (config w))), w).
Proof.
  unfold tech_defined_libraries, bind, gets, ret.
  destruct (TechJSON.libraries (config w)) as [[|x l]|]; reflexivity.
Qed.

Lemma has_setting_run (w : World) (db : gmap string json) (key : string) :
  database_is db w ->
  has_setting key w = (Ok (match db !! key with Some _ => true | None => false end), w).
Proof. intros Hdb. unfold has_setting, bind, gets. rewrite Hdb. reflexivity. Qed.

Lemma get_extra_libraries_none (w : World) (db : gmap string json) :
  database_is db w -> db !! "vlsi.technology.extra_libraries" = None ->
  get_extra_libraries w = (Ok [], w).
Proof.
  intros Hdb Hno. unfold get_extra_libraries, bind.
  rewrite (has_setting_run w db _ Hdb), Hno. reflexivity.
Qed.

Lemma get_available_libraries_tech_only (w : World) (db : gmap string json) :
  database_is db w -> db !! "vlsi.technology.extra_libraries" = None ->
  get_available_libraries w = (Ok (or_nil (TechJSON.libraries (config w))), w).
Proof.
  intros Hdb Hno. unfold get_available_libraries, bind.
  rewrite tech_defined_libraries_run, (get_extra_libraries_none w db Hdb Hno).
  simpl. unfold ret. now rewrite app_nil_r.
Qed.

(** C7.  [paths_func] of the timing filters ([timing_db_filter] on the
    [.db] views, [timing_lib_filter] on the [.lib] views) yields exactly
    the CCS path when the library declares a CCS view, whatever NLDM view
    it declares beside it, exactly the NLDM path when it declares only an NLDM
    view, and the empty list when it declares neither.  A library for which
    [paths_func] is empty passes path extraction and the existence check
    with an empty entry, leaving the state and the rest of the list as
    they are; a technology whose only library declares neither view yields
    the empty list under the default pre-filters. *)
Theorem C7_timing_filters (lib : Library) :
  (forall ccs,
     Library.ccs_library_file lib = Some ccs ->
     LibraryFilter.paths_func LibraryFilterHolder.timing_db_filter lib = Ok [ccs]) /\
  (forall nldm,
     Library.ccs_library_file lib = None ->
     Library.nldm_library_file lib = Some nldm ->
     LibraryFilter.paths_func LibraryFilterHolder.timing_db_filter lib = Ok [nldm]) /\
  (Library.ccs_library_file lib = None ->
   Library.nldm_library_file lib = None ->
   LibraryFilter.paths_func LibraryFilterHolder.timing_db_filter lib = Ok []) /\
  (forall ccs,
     Library.ccs_liberty_file lib = Some ccs ->
     LibraryFilter.paths_func LibraryFilterHolder.timing_lib_filter lib = Ok [ccs]) /\
  (forall nldm,
     Library.ccs_liberty_file lib = None ->
     Library.nldm_liberty_file lib = Some nldm ->
     LibraryFilter.paths_func LibraryFilterHolder.timing_lib_filter lib = Ok [nldm]) /\
  (Library.ccs_liberty_file lib = None ->
   Library.nldm_liberty_file lib = None ->
   LibraryFilter.paths_func LibraryFilterHolder.timing_lib_filter lib = Ok []) /\
  (forall (filt : LibraryFilter) (rest : list Library) (w : World),
     LibraryFilter.paths_func filt lib = Ok [] ->
     get_and_prepend_path filt lib w = (Ok (lib, []), w) /\
     check_lib_and_paths filt (lib, []) w = (Ok (lib, []), w) /\
     mapM (get_and_prepend_path filt) (lib :: rest) w =
       (match fst (mapM (get_and_prepend_path filt) rest w) with
        | Ok r => Ok ((lib, []) :: r)
        | Raise e => Raise e
        end,
        snd (mapM (get_and_prepend_path filt) rest w))) /\
  (forall (filt : LibraryFilter) (w : World) (db : gmap string json)
          (must_exist uniquify : bool),
     filt = LibraryFilterHolder.timing_db_filter \/
     filt = LibraryFilterHolder.timing_lib_filter ->
     LibraryFilter.paths_func filt lib = Ok [] ->
     database_is db w -> HammerTechnology.has_logger (self w) = true ->
     db !! "vlsi.technology.extra_libraries" = None ->
     TechJSON.libraries (config w) = Some [lib] ->
     fst (process_library_filter filt default_pre_filters
            HammerTechnologyUtils.to_plain_item must_exist uniquify w) = Ok []).
Proof.
  repeat match goal with |- _ /\ _ => split end.
  - intros ccs H. simpl. unfold LibraryFilterHolder.timing_db_filter_paths_func.
    now rewrite H.
  - intros nldm H1 H2. simpl. unfold LibraryFilterHolder.timing_db_filter_paths_func.
    now rewrite H1, H2.
  - intros H1 H2. simpl. unfold LibraryFilterHolder.timing_db_filter_paths_func.
    now rewrite H1, H2.
  - intros ccs H. simpl. unfold LibraryFilterHolder.timing_lib_filter_paths_func.
    now rewrite H.
  - intros nldm H1 H2. simpl. unfold LibraryFilterHolder.timing_lib_filter_paths_func.
    now rewrite H1, H2.
  - intros H1 H2. simpl. unfold LibraryFilterHolder.timing_lib_filter_paths_func.
    now rewrite H1, H2.
  - intros filt rest w H.
    assert (E : get_and_prepend_path filt lib w = (Ok (lib, []), w)).
    { unfold get_and_prepend_path, bind, lift, ret. rewrite H. reflexivity. }
    split; [exact E|]. split.
    + unfold check_lib_and_paths. simpl. reflexivity.
    + simpl. unfold bind at 1. rewrite E. unfold bind, ret.
      destruct (mapM (get_and_prepend_path filt) rest w) as [[r|e] w1]; reflexivity.
  - intros filt w db must_exist uniquify Hf Hp Hdb Hl Hno Hlibs.
    unfold process_library_filter.
    assert (Hfilt : LibraryFilter.filter_func filt = None /\
                    LibraryFilter.sort_func filt = None /\
                    LibraryFilter.extraction_func filt = None /\
                    LibraryFilter.extra_post_filter_funcs filt = []).
    { destruct Hf as [-> | ->]; repeat split. }
    destruct Hfilt as (F1 & F2 & F3 & F4). rewrite F1, F2, F3, F4.
    unfold bind at 1. rewrite (get_available_libraries_tech_only w db Hdb Hno).
    rewrite Hlibs. cbv beta iota. simpl optional_map. simpl get_or_else.
    rewrite app_nil_r. unfold default_pre_filters.
    simpl reduce_named_filter.
    destruct (filter_for_supplies_total w db lib Hdb Hl) as [b Hb].
    unfold bind at 1. unfold bind at 1. unfold bind at 1.
    destruct (filter_for_supplies lib w) as [r w1]. simpl in Hb. subst r.
    destruct b; simpl.
    + unfold bind at 1. unfold bind at 1. unfold get_and_prepend_path at 1.
      unfold bind at 1. unfold bind at 1. unfold lift at 1. rewrite Hp.
      simpl. destruct must_exist, uniquify; reflexivity.
    + destruct must_exist, uniquify; reflexivity.
Qed.

(** C7 at a technology whose single library declares no timing view. *)
Lemma C7_timing_filters_witness :
  fst (process_library_filter LibraryFilterHolder.timing_lib_filter
         default_pre_filters HammerTechnologyUtils.to_plain_item true true
         (Demo.world (Demo.config None (Some [Demo.timing_lib None None]) None None) ∅))
  = Ok [] /\
  LibraryFilter.paths_func LibraryFilterHolder.timing_lib_filter
    (Demo.timing_lib (Some "/pdk/ccs.lib") (Some "/pdk/nldm.lib")) = Ok ["/pdk/ccs.lib"] /\
  LibraryFilter.paths_func LibraryFilterHolder.timing_lib_filter
    (Demo.timing_lib None (Some "/pdk/nldm.lib")) = Ok ["/pdk/nldm.lib"].
Proof.
  split; [|split].
  - apply (C7_timing_filters (Demo.timing_lib None None)) with (db := Demo.db);
      try reflexivity. now right.
  - destruct (C7_timing_filters
                (Demo.timing_lib (Some "/pdk/ccs.lib") (Some "/pdk/nldm.lib")))
      as (_ & _ & _ & H & _).
    apply H. reflexivity.
  - apply (C7_timing_filters (Demo.timing_lib None (Some "/pdk/nldm.lib"))); reflexivity.
Defined.

(** ** C8: de-duplication *)

#[local] Set Warnings "-clear-no-such-hyp".

Lemma elem_of_unique_from (seen items : list string) (x : string) :
  x ∈ unique_from seen items <-> x ∈ items /\ x ∉ seen.
Proof.
  revert seen. induction items as [|i l IH]; intros seen; simpl.
  - split; [intros H; inversion H | intros [H _]; inversion H].
  - case_bool_decide as Hi.
    + rewrite IH. set_solver.
    + rewrite elem_of_cons, IH.
      destruct (decide (x = i)) as [-> | Hne]; set_solver.
Qed.

Lemma NoDup_unique_from (seen items : list string) : NoDup (unique_from seen items).
Proof.
  revert seen. induction items as [|i l IH]; intros seen; simpl.
  - constructor.
  - case_bool_decide as Hi; [apply IH|].
    constructor; [|apply IH].
    rewrite elem_of_unique_from. intros [_ H]. apply H. now left.
Qed.

Lemma sublist_unique_from (seen items : list string) :
  unique_from seen items `sublist_of` items.
Proof.
  revert seen. induction items as [|i l IH]; intros seen; simpl.
  - constructor.
  - case_bool_decide; [apply sublist_cons | apply sublist_skip]; apply IH.
Qed.

Lemma unique_from_snoc (seen items : list string) (x : string) :
  unique_from seen (items ++ [x]) =
  unique_from seen items ++
    (if bool_decide (x ∈ seen \/ x ∈ items) then [] else [x]).
Proof.
  revert seen. induction items as [|i l IH]; intros seen; simpl.
  - rewrite (bool_decide_ext (x ∈ seen \/ x ∈ []) (x ∈ seen)) by set_solver.
    now case_bool_decide.
  - case_bool_decide as Hi.
    + rewrite IH. f_equal.
      now rewrite (bool_decide_ext (x ∈ seen \/ x ∈ i :: l) (x ∈ seen \/ x ∈ l))
        by set_solver.
    + simpl. rewrite IH. do 2 f_equal.
      now rewrite (bool_decide_ext (x ∈ seen \/ x ∈ i :: l) (x ∈ i :: seen \/ x ∈ l))
        by set_solver.
Qed.

Lemma fst_bind_rmap {A B C} (g : B -> C) (m : M A) (k1 : A -> M C) (k2 : A -> M B)
    (w : World) :
  (forall a w', fst (k1 a w') = rmap g (fst (k2 a w'))) ->
  fst (bind m k1 w) = rmap g (fst (bind m k2 w)).
Proof.
  intros H. unfold bind. destruct (m w) as [[a|e] w1]; [apply H | reflexivity].
Qed.

Lemma reduce_list_str_plain (l acc : list string) :
  reduce_list_str add_lists (map (fun item => [item]) l) acc = acc ++ l.
Proof.
  unfold reduce_list_str. revert acc.
  induction l as [|x l IH]; intros acc; simpl.
  - now rewrite app_nil_r.
  - rewrite IH. unfold add_lists. now rewrite <- app_assoc.
Qed.

(** C8.  De-duplication keeps the first occurrence of every item, in the
    order of first occurrence, and removes the later ones: the result has
    no duplicate, has the items of the input, is a subsequence of it, and
    an item appended to the input is appended to the result exactly when
    it did not occur before; [a, b, a, c] becomes [a, b, c].  In
    [process_library_filter], for a filter without list-level functions
    and with plain output, the result with [uniquify] is the de-duplication
    of the result without. *)
Theorem C8_in_place_unique :
  (forall items : list string,
     NoDup (in_place_unique items) /\
     (forall x, x ∈ in_place_unique items <-> x ∈ items) /\
     in_place_unique items `sublist_of` items) /\
  (forall (items : list string) (x : string),
     in_place_unique (items ++ [x]) =
     if bool_decide (x ∈ items) then in_place_unique items
     else in_place_unique items ++ [x]) /\
  (forall a b c : string,
     a <> b -> a <> c -> b <> c -> in_place_unique [a; b; a; c] = [a; b; c]) /\
  (forall (filt : LibraryFilter) (pre_filts : list (Library -> M bool))
          (must_exist : bool) (w : World),
     LibraryFilter.extra_post_filter_funcs filt = [] ->
     fst (process_library_filter filt pre_filts
            HammerTechnologyUtils.to_plain_item must_exist true w) =
     rmap in_place_unique
       (fst (process_library_filter filt pre_filts
               HammerTechnologyUtils.to_plain_item must_exist false w))).
Proof.
  split; [|split; [|split]].
  - intros items. unfold in_place_unique. split; [apply NoDup_unique_from|].
    split; [|apply sublist_unique_from].
    intros x. rewrite elem_of_unique_from. split; [tauto|].
    intros H. split; [exact H | intros H'; inversion H'].
  - intros items x. unfold in_place_unique. rewrite unique_from_snoc.
    rewrite (bool_decide_ext (x ∈ [] \/ x ∈ items) (x ∈ items)) by set_solver.
    case_bool_decide; [apply app_nil_r | reflexivity].
  - intros a b c Hab Hac Hbc. unfold in_place_unique. cbn [unique_from].
    repeat case_bool_decide; try reflexivity; exfalso; set_solver.
  - intros filt pre_filts must_exist w Hpost.
    unfold process_library_filter. rewrite Hpost.
    apply fst_bind_rmap. intros available w1.
    apply fst_bind_rmap. intros filtered w2.
    cbv zeta.
    apply fst_bind_rmap. intros lp w3.
    apply fst_bind_rmap. intros lp' w4.
    apply fst_bind_rmap. intros extracted w5.
    simpl. unfold HammerTechnologyUtils.to_plain_item.
    now rewrite !reduce_list_str_plain.
Qed.

(** C8 at the paths ["/a"; "/b"; "/a"; "/c"]. *)
Lemma C8_in_place_unique_witness :
  ("/a" <> "/b" /\ "/a" <> "/c" /\ "/b" <> "/c") /\
  in_place_unique ["/a"; "/b"; "/a"; "/c"] = ["/a"; "/b"; "/c"].
Proof.
  assert (H : "/a" <> "/b" /\ "/a" <> "/c" /\ "/b" <> "/c")
    by (repeat split; discriminate).
  split; [exact H|].
  destruct H as (H1 & H2 & H3).
  destruct C8_in_place_unique as (_ & _ & Habc & _).
  exact (Habc "/a" "/b" "/c" H1 H2 H3).
Defined.

(** Four libraries whose liberty files are [/a], [/b], [/a] and [/c], run
    through [timing_lib_filter] with no existence check. *)
Example dedup_end_to_end :
  fst (process_library_filter LibraryFilterHolder.timing_lib_filter
         default_pre_filters HammerTechnologyUtils.to_plain_item false true
         (Demo.world
            (Demo.config None
               (Some [Demo.timing_lib (Some "/a") None; Demo.timing_lib (Some "/b") None;
                      Demo.timing_lib (Some "/a") None; Demo.timing_lib (Some "/c") None])
               None None) ∅))
  = Ok ["/a"; "/b"; "/c"].
Proof. vm_compute. reflexivity. Qed.

(** ** C4: [check_installs] *)

Lemma log_msg_run (lv : LogLevel) (fmt : string) (a : list LogArg) (w : World) :
  HammerTechnology.has_logger (self w) = true ->
  log_msg lv fmt a w = (Ok tt, add_log (mkLog lv fmt a) w).
Proof. intros H. unfold log_msg, logger, bind, gets, modify, ret. now rewrite H. Qed.

Lemma check_installs_loop_run (db : gmap string json) (l : list PathPrefix) (w : World) :
  database_is db w -> HammerTechnology.has_logger (self w) = true ->
  exists w',
    check_installs_loop l w
      = (Ok (forallb (fun i => negb (install_missing db (fs w) i)) l), w') /\
    self w' = self w /\ fs w' = fs w /\ heap w' = heap w /\
    log w' = log w ++ match List.find (install_missing db (fs w)) l with
                      | Some bad => [install_error db bad]
                      | None => []
                      end.
Proof.
  revert w. induction l as [|i l IH]; intros w Hdb Hl.
  - exists w. simpl. unfold ret. now rewrite app_nil_r.
  - simpl check_installs_loop. rewrite (bind_get_setting _ w db _ Hdb).
    unfold bind at 1, gets at 1. cbv beta iota.
    rewrite after_get_fs.
    change (negb (exists_ (fs w) (PyVal.str (setting db (PathPrefix.path i)))))
      with (install_missing db (fs w) i).
    simpl forallb. simpl List.find.
    destruct (install_missing db (fs w) i) eqn:E.
    + unfold bind. rewrite log_msg_run by (now rewrite after_get_self).
      eexists. split; [reflexivity|]. simpl.
      rewrite after_get_self, after_get_fs, after_get_log.
      repeat split. unfold after_get. now destruct (db !! _).
    + destruct (IH (after_get db (PathPrefix.path i) w)) as (w' & Hrun & H1 & H2 & H3 & H4).
      * now apply after_get_database.
      * now rewrite after_get_self.
      * exists w'. rewrite after_get_fs in Hrun, H2, H4. rewrite Hrun.
        split; [reflexivity|].
        rewrite H1, H2, H3, H4, after_get_self, after_get_log.
        repeat split. unfold after_get. now destruct (db !! _).
Qed.

Lemma find_first (db : gmap string json) (f : FS) (l1 l2 : list PathPrefix)
    (bad : PathPrefix) :
  (forall i, i ∈ l1 -> install_missing db f i = false) ->
  install_missing db f bad = true ->
  List.find (install_missing db f) (l1 ++ bad :: l2) = Some bad.
Proof.
  intros H Hbad. induction l1 as [|i l1 IH]; simpl.
  - now rewrite Hbad.
  - rewrite (H i) by now left. apply IH. intros j Hj. apply H. now right.
Qed.

(** C4 (as amended).  With the database and the logger set,
    [check_installs] never raises.  It reads each install's [path] as a
    settings key and tests whether the value, as a string, exists in the
    file system; it returns true exactly when installs are declared and all
    of them exist.  Installs are checked in order and the check stops at
    the first missing one: that one is logged as an error and no later
    install is examined or reported.  The technology object and the file
    system are left as they are, and [extract_technology_files] goes on to
    the tarballs whatever [check_installs] returned. *)
Theorem C4_check_installs (w : World) (db : gmap string json) :
  database_is db w -> HammerTechnology.has_logger (self w) = true ->
  let installs := or_nil (TechJSON.installs (config w)) in
  let r := check_installs w in
  fst r = Ok (truthy_list (TechJSON.installs (config w)) &&
              forallb (fun i => negb (install_missing db (fs w) i)) installs) /\
  self (snd r) = self w /\ fs (snd r) = fs w /\
  log (snd r) = log w ++ match List.find (install_missing db (fs w)) installs with
                         | Some bad => [install_error db bad]
                         | None => []
                         end /\
  (forall l1 bad l2,
     installs = l1 ++ bad :: l2 ->
     (forall i, i ∈ l1 -> install_missing db (fs w) i = false) ->
     install_missing db (fs w) bad = true ->
     fst r = Ok false /\ log (snd r) = log w ++ [install_error db bad]) /\
  (TechJSON.installs (config w) <> None ->
   extract_technology_files w =
   match TechJSON.tarballs (config w) with
   | Some _ => extract_tarballs (snd r)
   | None => (Ok tt, snd r)
   end).
Proof.
  intros Hdb Hl installs r.
  assert (Hrun : fst r = Ok (truthy_list (TechJSON.installs (config w)) &&
                    forallb (fun i => negb (install_missing db (fs w) i)) installs) /\
                 self (snd r) = self w /\ fs (snd r) = fs w /\
                 log (snd r) = log w ++
                   match List.find (install_missing db (fs w)) installs with
                   | Some bad => [install_error db bad]
                   | None => []
                   end).
  { subst r installs. unfold check_installs, bind, gets. cbv beta iota.
    destruct (TechJSON.installs (config w)) as [[|i l]|] eqn:E;
      try (simpl; unfold ret; simpl; now rewrite app_nil_r).
    cbv beta iota. change (negb (truthy_list (Some (i :: l)))) with false.
    cbv beta iota.
    destruct (check_installs_loop_run db (or_nil (Some (i :: l))) w Hdb Hl)
      as (w' & Hrun & H1 & H2 & _ & H4).
    rewrite Hrun. simpl fst. simpl snd. now rewrite H1, H2, H4. }
  destruct Hrun as (R1 & R2 & R3 & R4).
  repeat split; try assumption.
  - rewrite R1, H, forallb_app. simpl. rewrite H1. simpl.
    now rewrite !andb_false_r.
  - rewrite R4, H. now rewrite (find_first db (fs w) l1 l2 bad H0 H1).
  - intros Hsome. unfold extract_technology_files, bind at 1, gets at 1.
    cbv beta iota. unfold bind at 1, gets at 1. cbv beta iota.
    destruct (TechJSON.installs (config w)) as [inst|] eqn:Ei; [|contradiction].
    fold r.
    assert (Hc : bind (bind check_installs (fun _ => ret tt))
                   (fun _ => bind match TechJSON.tarballs (config w) with
                                  | Some _ => extract_tarballs
                                  | None => ret tt
                                  end (fun _ => post_install_script)) w
                 = match TechJSON.tarballs (config w) with
                   | Some _ => extract_tarballs (snd r)
                   | None => (Ok tt, snd r)
                   end).
    { destruct r as [[b|e] w1] eqn:Er; [|simpl in R1; discriminate].
      subst r. unfold bind. rewrite Er. simpl.
      unfold post_install_script, ret.
      destruct (TechJSON.tarballs (config w)); [|reflexivity].
      destruct (extract_tarballs w1) as [[[]|?] ?]; reflexivity. }
    destruct (TechJSON.tarballs (config w)); exact Hc.
Qed.

(** C4 at a technology whose one install exists. *)
Lemma C4_check_installs_witness :
  (database_is Demo.db Demo.installed /\
   HammerTechnology.has_logger (self Demo.installed) = true) /\
  fst (check_installs Demo.installed) = Ok true /\
  log (snd (check_installs Demo.installed)) = [].
Proof.
  assert (Hdb : database_is Demo.db Demo.installed) by reflexivity.
  assert (Hl : HammerTechnology.has_logger (self Demo.installed) = true) by reflexivity.
  split; [split; assumption|].
  destruct (C4_check_installs Demo.installed Demo.db Hdb Hl) as (H1 & _ & _ & H4 & _).
  split; [rewrite H1 | rewrite H4]; reflexivity.
Defined.

(** C4 as stated fails: of two installs that are both missing only the
    first is checked and reported; the failure of the second is not. *)
Lemma C4_counterexample :
  install_missing Demo.db (fs Demo.not_installed) Demo.pdk_a = true /\
  install_missing Demo.db (fs Demo.not_installed) Demo.pdk_b = true /\
  fst (check_installs Demo.not_installed) = Ok false /\
  log (snd (check_installs Demo.not_installed)) = [install_error Demo.db Demo.pdk_a] /\
  install_error Demo.db Demo.pdk_b ∉ log (snd (check_installs Demo.not_installed)).
Proof.
  assert (Hlog : log (snd (check_installs Demo.not_installed))
                 = [install_error Demo.db Demo.pdk_a])
    by (vm_compute; reflexivity).
  repeat split; try (vm_compute; reflexivity); try exact Hlog.
  rewrite Hlog. intros H. apply list_elem_of_singleton in H.
  vm_compute in H. discriminate H.
Qed.

(** ** C2: [extract_tarballs] *)

#[local] Instance same_but_stdout_equiv : Equivalence same_but_stdout.
Proof.
  split.
  - intros w. unfold same_but_stdout. tauto.
  - intros w w' (A & B & C & D & E & F). unfold same_but_stdout. auto 10.
  - intros a b c (A & B & C & D & E & F) (A' & B' & C' & D' & E' & F').
    unfold same_but_stdout. repeat split; congruence.
Qed.

Lemma same_but_stdout_reads w w' : same_but_stdout w w' -> reads w = reads w'.
Proof.
  intros (A & B & C & D & E & F). unfold reads, config. now rewrite A, C, E.
Qed.

Lemma same_but_stdout_stdout s w : same_but_stdout (add_stdout s w) w.
Proof. unfold same_but_stdout. simpl. tauto. Qed.

Lemma after_get_same_but_stdout db key w : same_but_stdout (after_get db key w) w.
Proof.
  unfold after_get. destruct (db !! key); [reflexivity | apply same_but_stdout_stdout].
Qed.

Lemma extracted_tarballs_dir_stdout (w w' : World) :
  same_but_stdout w w' ->
  fst (extracted_tarballs_dir w) = fst (extracted_tarballs_dir w') /\
  same_but_stdout (snd (extracted_tarballs_dir w)) w.
Proof.
  apply observer_extracted_tarballs_dir;
    first [ exact same_but_stdout_equiv | exact same_but_stdout_reads
          | exact same_but_stdout_stdout ].
Qed.

Lemma tarball_root_same (w w' : World) (t : Tarball) :
  same_but_stdout w w' -> tarball_root w t = tarball_root w' t.
Proof.
  intros H. unfold tarball_root.
  now rewrite (proj1 (extracted_tarballs_dir_stdout w w' H)).
Qed.

Lemma tarball_source_same (w w' : World) (t : Tarball) :
  same_but_stdout w w' -> tarball_source w t = tarball_source w' t.
Proof. intros (A & _). unfold tarball_source. now rewrite A. Qed.

Lemma materialized_same (w w' : World) (t : Tarball) :
  same_but_stdout w w' -> materialized w t -> materialized w' t.
Proof.
  intros H (src & tgt & Hs & Ht & Hc). exists src, tgt.
  rewrite <- (tarball_source_same w w' t H), <- (tarball_root_same w w' t H).
  destruct H as (_ & _ & <- & _). auto.
Qed.

(** What one round of the loop does when the settings give the source and
    the target of the archive. *)
Lemma extract_tarball_run (t : Tarball) (w : World) (src tgt : string) :
  tarball_source w t = Some src -> tarball_root w t = Some tgt ->
  exists w1, same_but_stdout w1 w /\
    extract_tarball t w =
      if negb (isfile (fs w) src) then
        if Tarball.optional t then (Ok tt, w1)
        else (Raise (ValueError ("Path " +:+ src +:+ " does not point to a valid tarball!")), w1)
      else if isdir (fs w) tgt then (Ok tt, w1)
      else
        (o <- gets os ;;
         let '(made, f1) := makedirs o tgt (fs w) in
         modify (set_fs f1) ;;;
         lift made ;;;
         log_msg DEBUG "Extracting/verifying tarball %s" [AStr src] ;;;
         let '(extracted, f2, nested) := extract_tree o src tgt f1 in
         modify (set_fs f2) ;;;
         forM (fun file => log_msg DEBUG "Extracting/verifying tarball %s" [AStr file])
              nested ;;;
         lift extracted) w1.
Proof.
  intros Hs Ht. unfold extract_tarball.
  destruct (extracted_tarballs_dir_stdout w w ltac:(reflexivity)) as [_ Hw1].
  unfold tarball_root in Ht. unfold bind at 1.
  destruct (extracted_tarballs_dir w) as [[d|e] w1]; simpl in Ht, Hw1; [|discriminate].
  destruct d as [| | |d| |]; try discriminate. inversion Ht as [Etgt]. clear Ht.
  unfold join_setting at 1. simpl PyVal.as_path. unfold lift at 1, bind at 1, bind at 1.
  cbv beta iota. unfold ret at 1. cbv beta iota.
  unfold tarball_source in Hs.
  destruct (HammerTechnology._database (self w)) as [db|] eqn:Hdb; [|discriminate].
  assert (Hdb1 : database_is db w1).
  { unfold database_is. destruct Hw1 as (-> & _). exact Hdb. }
  rewrite (bind_get_setting _ w1 db _ Hdb1).
  destruct (setting db (PathPrefix.path (Tarball.root t))) as [| | |d2| |];
    try discriminate.
  inversion Hs as [Esrc]. clear Hs.
  unfold join_setting at 1. simpl PyVal.as_path. unfold lift at 1, bind at 1, bind at 1.
  cbv beta iota. unfold ret at 1. cbv beta iota.
  unfold bind at 1, gets at 1. cbv beta iota.
  pose proof (after_get_same_but_stdout db (PathPrefix.path (Tarball.root t)) w1) as Hw2.
  revert Hw2. generalize (after_get db (PathPrefix.path (Tarball.root t)) w1).
  intros w2 Hw2.
  assert (Hw2' : same_but_stdout w2 w) by (etransitivity; eassumption).
  assert (Hfs : fs w2 = fs w) by (destruct Hw2' as (_ & _ & E & _); exact E).
  exists w2. split; [exact Hw2'|].
  subst src tgt. unfold Py.join. simpl fold_left. rewrite Hfs.
  destruct (isfile (fs w) _); simpl; [|destruct (Tarball.optional t); reflexivity].
  destruct (isdir (fs w) _); [reflexivity|].
  reflexivity.
Qed.

Lemma extract_tarballs_materialized (l : list Tarball) (w : World) :
  (forall t, t ∈ l -> materialized w t) ->
  exists w', forM extract_tarball l w = (Ok tt, w') /\ same_but_stdout w' w.
Proof.
  revert w. induction l as [|t l IH]; intros w H.
  - exists w. split; reflexivity.
  - destruct (H t ltac:(left)) as (src & tgt & Hs & Ht & Hc).
    destruct (extract_tarball_run t w src tgt Hs Ht) as (w1 & Hw1 & Hrun).
    assert (Hstep : extract_tarball t w = (Ok tt, w1)).
    { rewrite Hrun. destruct Hc as [[-> ->] | [-> ->]]; reflexivity. }
    destruct (IH w1) as (w' & Hrest & Hw').
    { intros t' Ht'. apply (materialized_same w w1); [now symmetry|].
      apply H. now right. }
    exists w'. split; [|etransitivity; eassumption].
    simpl. unfold bind. now rewrite Hstep.
Qed.

(** C2 (as amended).  For a declared archive whose source and target
    paths the settings give, one round of [extract_tarballs] looks for the
    source archive first: when the source is absent it raises for a
    required archive, whether or not the target directory exists, and skips
    an optional one; only when the source is present does it test the
    target directory, and it skips the archive when that exists.  None of
    these cases touches the file system or the log.  When every declared
    archive has its source and its target directory, or is optional with
    no source, [extract_tarballs] returns without raising and changes
    nothing but the printed output: a second run is a no-op. *)
Theorem C2_extract_tarballs (w : World) :
  (forall t src tgt,
     tarball_source w t = Some src -> tarball_root w t = Some tgt ->
     (isfile (fs w) src = false -> Tarball.optional t = false ->
      fst (extract_tarball t w)
        = Raise (ValueError ("Path " +:+ src +:+ " does not point to a valid tarball!")) /\
      same_but_stdout (snd (extract_tarball t w)) w) /\
     (isfile (fs w) src = false -> Tarball.optional t = true ->
      fst (extract_tarball t w) = Ok tt /\
      same_but_stdout (snd (extract_tarball t w)) w) /\
     (isfile (fs w) src = true -> isdir (fs w) tgt = true ->
      fst (extract_tarball t w) = Ok tt /\
      same_but_stdout (snd (extract_tarball t w)) w)) /\
  ((forall t, t ∈ or_nil (TechJSON.tarballs (config w)) -> materialized w t) ->
   fst (extract_tarballs w) = Ok tt /\
   same_but_stdout (snd (extract_tarballs w)) w).
Proof.
  split.
  - intros t src tgt Hs Ht.
    destruct (extract_tarball_run t w src tgt Hs Ht) as (w1 & Hw1 & Hrun).
    rewrite Hrun.
    split; [|split]; intros H H0; rewrite H, H0; simpl;
      (split; [reflexivity | exact Hw1]).
  - intros H.
    change (extract_tarballs w)
      with ((if negb (truthy_list (TechJSON.tarballs (config w))) then ret tt
             else forM extract_tarball (or_nil (TechJSON.tarballs (config w)))) w).
    destruct (truthy_list (TechJSON.tarballs (config w))); cbn [negb]; cbv iota.
    + destruct (extract_tarballs_materialized _ w H) as (w' & Hrun & Hw').
      rewrite Hrun. split; [reflexivity | exact Hw'].
    + split; reflexivity.
Qed.

(** C2 at a technology whose archive has its source and its target. *)
Lemma C2_extract_tarballs_witness :
  (forall t, t ∈ or_nil (TechJSON.tarballs (config Demo.extracted_with_source)) ->
             materialized Demo.extracted_with_source t) /\
  fst (extract_tarballs Demo.extracted_with_source) = Ok tt /\
  fs (snd (extract_tarballs Demo.extracted_with_source)) = fs Demo.extracted_with_source.
Proof.
  assert (H : forall t,
             t ∈ or_nil (TechJSON.tarballs (config Demo.extracted_with_source)) ->
             materialized Demo.extracted_with_source t).
  { intros t Ht. apply list_elem_of_singleton in Ht. subst t.
    exists "/tarballs/pdk.tar", "/cache/extracted/pdk.tar".
    split; [reflexivity|]. split; [reflexivity|]. left. split; reflexivity. }
  split; [exact H|].
  destruct (proj2 (C2_extract_tarballs Demo.extracted_with_source) H)
    as (Hr & _ & _ & Hfs & _).
  split; [exact Hr | exact Hfs].
Defined.

(** C2 as stated fails: the target directory of a required archive exists,
    its source does not, and [extract_tarballs] raises instead of skipping
    the archive. *)
Lemma C2_counterexample :
  tarball_root Demo.extracted_without_source Demo.archive
    = Some "/cache/extracted/pdk.tar" /\
  isdir (fs Demo.extracted_without_source) "/cache/extracted/pdk.tar" = true /\
  fst (extract_tarballs Demo.extracted_without_source)
    = Raise (ValueError "Path /tarballs/pdk.tar does not point to a valid tarball!").
Proof. repeat split; vm_compute; reflexivity. Qed.

(** ** Splitting and joining paths *)

Lemma append_cons (c : ascii) (s t : string) :
  String c s +:+ t = String c (s +:+ t).
Proof. reflexivity. Qed.

Lemma append_nil_l (t : string) : "" +:+ t = t.
Proof. reflexivity. Qed.

Lemma append_assoc (a b c : string) : (a +:+ b) +:+ c = a +:+ b +:+ c.
Proof. induction a as [|x a IH]; [reflexivity|]. now rewrite !append_cons, IH. Qed.

Lemma split_not_nil (s : string) : Py.split s <> [].
Proof.
  induction s as [|c s IH]; simpl; [discriminate|].
  destruct (Ascii.eqb c Py.sep); [discriminate|].
  destruct (Py.split s); [contradiction | discriminate].
Qed.

Lemma split_no_sep (s : string) :
  Forall (fun seg => Py.contains_sep seg = false) (Py.split s).
Proof.
  induction s as [|c s IH]; simpl.
  - now constructor.
  - destruct (Ascii.eqb c Py.sep) eqn:E; [now constructor|].
    destruct (Py.split s) as [|h t]; [repeat constructor; simpl; now rewrite E|].
    inversion IH; subst. constructor; [|assumption]. simpl. now rewrite E.
Qed.

Lemma unsplit_cons (s : string) (r : list string) :
  r <> [] -> unsplit (s :: r) = s +:+ "/" +:+ unsplit r.
Proof. destruct r; [contradiction | reflexivity]. Qed.

Lemma unsplit_split (s : string) : unsplit (Py.split s) = s.
Proof.
  induction s as [|c s IH]; [reflexivity|]. simpl Py.split.
  destruct (Ascii.eqb_spec c Py.sep) as [->|Hc].
  - rewrite unsplit_cons by apply split_not_nil. now rewrite IH.
  - pose proof (split_not_nil s) as Hn.
    destruct (Py.split s) as [|h t]; [contradiction|].
    destruct t as [|h' t'].
    + simpl in *. now rewrite IH.
    + rewrite unsplit_cons by discriminate.
      rewrite unsplit_cons in IH by discriminate.
      rewrite append_cons. now rewrite IH.
Qed.

(** The prefix identifier contains no separator and the path is the
    identifier, a separator and the rest. *)
Lemma split_path (path : string) :
  Py.contains_sep path = true ->
  rest_of path <> [] /\
  path = prefix_id path +:+ "/" +:+ unsplit (rest_of path).
Proof.
  intros Hsep. unfold prefix_id, rest_of.
  pose proof (unsplit_split path) as Hu.
  pose proof (split_no_sep path) as Hn.
  pose proof (split_not_nil path) as Hne.
  destruct (Py.split path) as [|h t]; [contradiction|].
  destruct t as [|h' t'].
  - simpl in Hu. subst h. inversion Hn; subst. congruence.
  - split; [discriminate|]. simpl hd. simpl tl.
    rewrite unsplit_cons in Hu by discriminate. now symmetry.
Qed.

Lemma startswith_sep_no_sep (s : string) :
  Py.contains_sep s = false -> Py.startswith_sep s = false.
Proof.
  destruct s as [|c s]; [reflexivity|]. simpl.
  destruct (Ascii.eqb c Py.sep); [discriminate | reflexivity].
Qed.

Lemma endswith_sep_no_sep (s : string) :
  Py.contains_sep s = false -> Py.endswith_sep s = false.
Proof.
  induction s as [|c s IH]; [reflexivity|]. simpl.
  destruct (Ascii.eqb c Py.sep); [discriminate|]. simpl. intros H.
  destruct s; [reflexivity | now apply IH].
Qed.

Lemma endswith_sep_append (a s : string) :
  Py.nonempty s = true -> Py.endswith_sep (a +:+ s) = Py.endswith_sep s.
Proof.
  intros Hs. induction a as [|c a IH]; [reflexivity|].
  rewrite append_cons. simpl.
  destruct (a +:+ s) eqn:E; [|exact IH].
  destruct a.
  - rewrite append_nil_l in E. rewrite E in Hs. discriminate.
  - rewrite append_cons in E. discriminate.
Qed.

Lemma nonempty_append_r (a s : string) :
  Py.nonempty s = true -> String.eqb (a +:+ s) "" = false.
Proof.
  intros Hs. destruct a; [|reflexivity].
  rewrite append_nil_l. destruct s; [discriminate | reflexivity].
Qed.

Lemma startswith_sep_append (s t : string) :
  Py.nonempty s = true ->
  Py.startswith_sep (s +:+ t) = Py.startswith_sep s.
Proof. destruct s; [discriminate | reflexivity]. Qed.

Lemma startswith_sep_unsplit (segs : list string) :
  Forall (fun seg => Py.contains_sep seg = false) segs ->
  no_empty_inner segs = true ->
  Py.startswith_sep (unsplit segs) = false.
Proof.
  intros Hn He. destruct segs as [|s r]; [reflexivity|].
  inversion Hn; subst.
  destruct r as [|s' r'].
  - now apply startswith_sep_no_sep.
  - rewrite unsplit_cons by discriminate.
    simpl in He. apply andb_prop in He as [He _].
    rewrite startswith_sep_append by exact He.
    now apply startswith_sep_no_sep.
Qed.

(** Joining a separator-free, non-empty segment and then a text that does
    not start with a separator is joining the two with a separator between
    them. *)
Lemma join_step_segment (c s u : string) :
  Py.nonempty s = true -> Py.contains_sep s = false ->
  Py.startswith_sep u = false ->
  Py.join_step (Py.join_step c s) u = Py.join_step c (s +:+ "/" +:+ u).
Proof.
  intros Hs Hn Hu. unfold Py.join_step.
  rewrite Hu, (startswith_sep_no_sep s Hn).
  rewrite (startswith_sep_append s _ Hs), (startswith_sep_no_sep s Hn).
  destruct (String.eqb c "" || Py.endswith_sep c)%bool.
  - rewrite nonempty_append_r by exact Hs.
    rewrite endswith_sep_append by exact Hs.
    rewrite (endswith_sep_no_sep s Hn). simpl. unfold Py.sep_str.
    now rewrite !append_assoc.
  - rewrite nonempty_append_r by (destruct s; [discriminate | reflexivity]).
    rewrite <- append_assoc.
    rewrite endswith_sep_append by exact Hs.
    rewrite (endswith_sep_no_sep s Hn). simpl. unfold Py.sep_str.
    now rewrite !append_assoc.
Qed.

(** Joining the segments of a text one by one is joining the text, unless
    it has an empty segment before its last. *)
Lemma join_unsplit (segs : list string) (c : string) :
  segs <> [] ->
  Forall (fun seg => Py.contains_sep seg = false) segs ->
  no_empty_inner segs = true ->
  Py.join c segs = Py.join_step c (unsplit segs).
Proof.
  revert c. induction segs as [|s r IH]; intros c Hne Hn He; [contradiction|].
  destruct r as [|s' r']; [reflexivity|].
  inversion Hn; subst. simpl in He. apply andb_prop in He as [Hs He].
  rewrite unsplit_cons by discriminate.
  change (Py.join c (s :: s' :: r')) with (Py.join (Py.join_step c s) (s' :: r')).
  rewrite IH; [| discriminate | assumption | assumption].
  apply join_step_segment; try assumption.
  now apply startswith_sep_unsplit.
Qed.

Lemma join_split (c rest : string) :
  no_empty_inner (Py.split rest) = true ->
  Py.join c (Py.split rest) = Py.join2 c rest.
Proof.
  intros H. rewrite join_unsplit; [| apply split_not_nil | apply split_no_sep | exact H].
  now rewrite unsplit_split.
Qed.

(** The remainder re-joined from its segments is the remainder itself,
    unless it has an empty segment before its last. *)
Lemma join_rest_unsplit (segs : list string) :
  segs <> [] ->
  Forall (fun seg => Py.contains_sep seg = false) segs ->
  no_empty_inner segs = true ->
  join_rest segs = Ok (unsplit segs).
Proof.
  intros Hne Hn He. destruct segs as [|s r]; [contradiction|]. simpl join_rest.
  destruct r as [|s' r']; [reflexivity|].
  inversion Hn; subst. simpl in He. apply andb_prop in He as [Hs He].
  rewrite join_unsplit; [| discriminate | assumption | assumption].
  rewrite (unsplit_cons s (s' :: r')) by discriminate. f_equal.
  unfold Py.join_step.
  rewrite startswith_sep_unsplit by assumption.
  destruct s as [|x s]; [discriminate|].
  rewrite (endswith_sep_no_sep _ H1). reflexivity.
Qed.

(** ** C6: cache-relative paths *)

Lemma cache_path (rest : string) :
  "cache/" +:+ rest
  = String "c" (String "a" (String "c" (String "h" (String "e" (String "/" rest))))).
Proof. reflexivity. Qed.

Lemma prepend_cache_run (rest : string) (lib : option Library) (w : World) (c : string) :
  HammerTechnology._cachedir (self w) = Some c ->
  prepend_dir_path ("cache/" +:+ rest) lib w = (Ok (Py.join c (Py.split rest)), w).
Proof.
  intros Hc. rewrite cache_path. unfold prepend_dir_path. simpl.
  unfold cache_dir, bind, gets, ret. now rewrite Hc.
Qed.

(** C6 (as amended).  For every path [cache/<rest>] and a technology whose
    cache directory is set, [prepend_dir_path] returns the cache directory
    joined with the segments of [<rest>], whatever installs, archives and
    library prefixes are declared, and changes nothing; that is the cache
    directory joined with [<rest>] itself whenever [<rest>] has no empty
    segment before its last (it does not start with a separator and has no
    two separators in a row). *)
Theorem C6_prepend_cache (rest : string) (lib : option Library) (w : World) (c : string) :
  HammerTechnology._cachedir (self w) = Some c ->
  prepend_dir_path ("cache/" +:+ rest) lib w = (Ok (Py.join c (Py.split rest)), w) /\
  (no_empty_inner (Py.split rest) = true ->
   prepend_dir_path ("cache/" +:+ rest) lib w = (Ok (Py.join2 c rest), w)).
Proof.
  intros Hc. split; [now apply prepend_cache_run|].
  intros H. rewrite <- join_split by exact H. now apply prepend_cache_run.
Qed.

(** C6 at [cache/x/y], in a technology that declares an install and an
    archive, from a library with an extra prefix. *)
Lemma C6_prepend_cache_witness :
  HammerTechnology._cachedir (self Demo.shared_id) = Some "/cache" /\
  no_empty_inner (Py.split "x/y") = true /\
  prepend_dir_path "cache/x/y" (Some Demo.lib1) Demo.shared_id
    = (Ok "/cache/x/y", Demo.shared_id).
Proof.
  split; [reflexivity|]. split; [reflexivity|].
  exact (proj2 (C6_prepend_cache "x/y" (Some Demo.lib1) Demo.shared_id "/cache" eq_refl)
               eq_refl).
Defined.

(** C6 as stated fails: for [cache//x] the code returns [/cache/x], while
    the cache directory joined with the rest [/x] is [/x]. *)
Lemma C6_counterexample :
  fst (prepend_dir_path "cache//x" None Demo.bare) = Ok "/cache/x" /\
  Py.join2 "/cache" "/x" = "/x" /\
  fst (prepend_dir_path ("cache/" +:+ "/x") None Demo.bare)
    <> Ok (Py.join2 "/cache" "/x").
Proof.
  split; [vm_compute; reflexivity|]. split; [vm_compute; reflexivity|].
  vm_compute. discriminate.
Qed.

(** ** C5: prefix search *)

Lemma install_prefixes_run (id : string) (w : World) :
  install_prefixes id w =
  mapM (fun pp : PathPrefix =>
          v <- get_setting (PathPrefix.path pp) ;;
          lift (Pydantic.PathPrefix_init id v))
       (matching_installs w id) w.
Proof.
  unfold install_prefixes, matching_installs, bind at 1, gets at 1. cbv beta iota.
  fold (config w). destruct (TechJSON.installs (config w)) as [[|x l]|]; reflexivity.
Qed.

Lemma tarball_prefixes_run (id : string) (w : World) :
  tarball_prefixes id w =
  mapM (fun pp : Tarball =>
          d <- extracted_tarballs_dir ;;
          p <- join_setting d [PathPrefix.id (Tarball.root pp)] ;;
          ret (PathPrefix.mk id p))
       (matching_tarballs w id) w.
Proof.
  unfold tarball_prefixes, matching_tarballs, bind at 1, gets at 1. cbv beta iota.
  fold (config w). destruct (TechJSON.tarballs (config w)) as [[|x l]|]; reflexivity.
Qed.

Lemma mapM_length {A B} (f : A -> M B) (l : list A) (w : World) :
  match fst (mapM f l w) with
  | Ok l' => length l' = length l
  | Raise _ => True
  end.
Proof.
  revert w. induction l as [|x l IH]; intros w; simpl; [reflexivity|].
  unfold bind at 1. destruct (f x w) as [[y|e] w1]; simpl; [|exact I].
  unfold bind. specialize (IH w1).
  destruct (mapM f l w1) as [[ys|e] w2]; simpl in *; [now rewrite IH | exact I].
Qed.

Lemma keeps_self_install_prefixes id : keeps_self (install_prefixes id).
Proof. use_observer observer_install_prefixes. Qed.

Lemma matching_tarballs_self (w w' : World) (id : string) :
  self w' = self w -> matching_tarballs w' id = matching_tarballs w id.
Proof. intros H. unfold matching_tarballs, config. now rewrite H. Qed.

(** What [prepend_dir_path] does for a path with a prefix identifier that
    is not [cache]. *)
Lemma prepend_prefixed_run (path : string) (lib : option Library) (w : World) :
  Py.isabs path = false -> Py.contains_sep path = true ->
  prefix_id path <> "cache" ->
  prepend_dir_path path lib w =
  (p1 <- install_prefixes (prefix_id path) ;;
   p2 <- tarball_prefixes (prefix_id path) ;;
   let prefixes := p1 ++ p2 ++ library_prefixes (prefix_id path) lib in
   match prefixes with
   | [] => raise (ValueError ("Path " +:+ path +:+ " with prefix id " +:+ prefix_id path
                               +:+ " did not match any tarballs or installs"))
   | [p] => r <- lift (join_rest (rest_of path)) ;; ret (PathPrefix.prepend p r)
   | _ =>
       raise (ValueError ("Path " +:+ path +:+ " with prefix id " +:+ prefix_id path
                           +:+ " matched more than one tarball or install: ["
                           +:+ PyVal.commas (map PathPrefix_repr prefixes) +:+ "]"))
   end) w.
Proof.
  intros Ha Hs Hid. unfold prepend_dir_path.
  assert (Hn : Py.nonempty path = true) by (destruct path; [discriminate | reflexivity]).
  rewrite Hn, Ha, Hs. cbn [negb]. cbv iota zeta.
  fold (prefix_id path). fold (rest_of path).
  apply String.eqb_neq in Hid. rewrite Hid. reflexivity.
Qed.

Lemma join_rest_remainder (path : string) :
  Py.contains_sep path = true -> join_rest (rest_of path) = Ok (remainder path).
Proof.
  intros H. destruct (split_path path H) as [Hne _]. unfold remainder.
  destruct (rest_of path); [contradiction | reflexivity].
Qed.

(** C5 (as amended).  For a non-absolute path that contains a separator
    and whose leading segment is not [cache], [prepend_dir_path] raises
    when no install, archive root or extra prefix of the owning library
    has that identifier, and raises when two or more have it.  When exactly
    one has it and its root resolves to [d] (for an install: its settings
    key holds a string; for an archive: the extracted-archives directory is
    a string), it returns [d] joined with the remainder re-joined from its
    segments, which is the text after the first separator unless that has
    an empty segment before its last. *)
Theorem C5_prepend_prefixed (path : string) (lib : option Library) (w : World) :
  Py.isabs path = false -> Py.contains_sep path = true ->
  prefix_id path <> "cache" ->
  let roots := candidate_roots w (prefix_id path) lib in
  (roots = [] ->
   fst (prepend_dir_path path lib w)
     = Raise (ValueError ("Path " +:+ path +:+ " with prefix id " +:+ prefix_id path
                           +:+ " did not match any tarballs or installs"))) /\
  (2 <= length roots -> exists e, fst (prepend_dir_path path lib w) = Raise e) /\
  (forall d, roots = [Some d] ->
     fst (prepend_dir_path path lib w) = Ok (Py.join2 d (remainder path))) /\
  (no_empty_inner (rest_of path) = true ->
   remainder path = unsplit (rest_of path) /\
   path = prefix_id path +:+ "/" +:+ remainder path).
Proof.
  intros Ha Hs Hid roots. subst roots.
  rewrite (prepend_prefixed_run path lib w Ha Hs Hid).
  set (id := prefix_id path). unfold candidate_roots. fold id.
  rewrite (join_rest_remainder path Hs).
  pose proof (keeps_self_install_prefixes id w) as Hself1.
  rewrite install_prefixes_run in Hself1. fold id in Hself1.
  split; [|split; [|split]].
  - unfold bind at 1. rewrite install_prefixes_run. fold id.
    intros H. apply app_eq_nil in H as [H1 H]. apply app_eq_nil in H as [H2 H3].
    apply map_eq_nil in H1, H2, H3. rewrite H1. simpl.
    unfold bind at 1. rewrite tarball_prefixes_run. fold id. rewrite H2. simpl.
    rewrite H3. reflexivity.
  - unfold bind at 1. rewrite install_prefixes_run. fold id.
    intros Hlen. rewrite !length_app, !length_map in Hlen.
    pose proof (mapM_length
      (fun pp : PathPrefix => v <- get_setting (PathPrefix.path pp) ;;
                              lift (Pydantic.PathPrefix_init id v))
      (matching_installs w id) w) as L1.
    destruct (mapM _ (matching_installs w id) w) as [[p1|e] w1]; simpl in L1, Hself1;
      [|exists e; reflexivity].
    unfold bind at 1. rewrite tarball_prefixes_run. fold id.
    rewrite (matching_tarballs_self w w1 id Hself1).
    pose proof (mapM_length
      (fun pp : Tarball => d <- extracted_tarballs_dir ;;
                           p <- join_setting d [PathPrefix.id (Tarball.root pp)] ;;
                           ret (PathPrefix.mk id p))
      (matching_tarballs w id) w1) as L2.
    destruct (mapM _ (matching_tarballs w id) w1) as [[p2|e] w2]; simpl in L2;
      [|exists e; reflexivity].
    assert (Hl : 2 <= length (p1 ++ p2 ++ library_prefixes id lib))
      by (rewrite !length_app; lia).
    destruct (p1 ++ p2 ++ library_prefixes id lib) as [|a [|b r]];
      simpl in Hl; try lia. eexists. reflexivity.
  - unfold bind at 1. rewrite install_prefixes_run. fold id.
    intros d Hroots.
    destruct (matching_installs w id) as [|pp l1] eqn:E1.
    + simpl mapM. cbv beta iota. unfold ret at 1. cbv beta iota.
      unfold bind at 1. rewrite tarball_prefixes_run. fold id.
      simpl in Hroots.
      destruct (matching_tarballs w id) as [|t l2] eqn:E2.
      * simpl in Hroots. simpl.
        destruct (library_prefixes id lib) as [|p [|q r]]; try discriminate.
        inversion Hroots; subst. reflexivity.
      * simpl in Hroots. inversion Hroots as [[Hr Hrest]].
        apply app_eq_nil in Hrest as [H2 H3]. apply map_eq_nil in H2, H3.
        subst l2. rewrite H3. simpl mapM.
        unfold tarball_root in Hr.
        unfold bind at 1. unfold bind at 1.
        destruct (extracted_tarballs_dir w) as [[v|e] w1]; simpl in Hr; [|discriminate].
        destruct v as [| | |s| |]; try discriminate. inversion Hr; subst.
        reflexivity.
    + simpl in Hroots. inversion Hroots as [[Hr Hrest]].
      destruct l1; [|discriminate]. simpl in Hrest.
      apply app_eq_nil in Hrest as [H2 H3]. apply map_eq_nil in H2, H3.
      unfold install_root in Hr.
      destruct (HammerTechnology._database (self w)) as [db|] eqn:Hdb; [|discriminate].
      simpl mapM. unfold bind at 1. unfold bind at 1.
      rewrite (get_setting_run w db _ Hdb). cbv beta iota.
      unfold setting. destruct (db !! PathPrefix.path pp) as [[| | |s| |]|];
        try discriminate.
      inversion Hr; subst. simpl.
      unfold bind at 1. rewrite tarball_prefixes_run. fold id.
      rewrite (matching_tarballs_self w _ id (after_get_self db _ w)).
      rewrite H2. simpl. rewrite H3. reflexivity.
  - intros He. destruct (split_path path Hs) as [Hne Hp].
    assert (Hr : remainder path = unsplit (rest_of path)).
    { pose proof (join_rest_remainder path Hs) as Hj.
      rewrite join_rest_unsplit in Hj; [now inversion Hj | exact Hne | | exact He].
      pose proof (split_no_sep path) as Hn. unfold rest_of.
      destruct (Py.split path); [constructor | now inversion Hn]. }
    split; [exact Hr|]. now rewrite Hr.
Qed.

(** C5 at three paths: one whose identifier is an extra prefix of the
    owning library and nothing else, one whose identifier nothing declares,
    and one whose identifier an install and an archive share. *)
Lemma C5_prepend_prefixed_witness :
  (Py.isabs "lib1/cap150f.lib" = false /\ Py.contains_sep "lib1/cap150f.lib" = true /\
   prefix_id "lib1/cap150f.lib" <> "cache" /\
   candidate_roots Demo.bare (prefix_id "lib1/cap150f.lib") (Some Demo.lib1)
     = [Some "/design"]) /\
  fst (prepend_dir_path "lib1/cap150f.lib" (Some Demo.lib1) Demo.bare)
    = Ok "/design/cap150f.lib" /\
  fst (prepend_dir_path "nosuch/x.lib" (Some Demo.lib1) Demo.bare)
    = Raise (ValueError
        "Path nosuch/x.lib with prefix id nosuch did not match any tarballs or installs") /\
  (exists e, fst (prepend_dir_path "pdk/x.lib" None Demo.shared_id) = Raise e).
Proof.
  assert (H1 : Py.isabs "lib1/cap150f.lib" = false) by reflexivity.
  assert (H2 : Py.contains_sep "lib1/cap150f.lib" = true) by reflexivity.
  assert (H3 : prefix_id "lib1/cap150f.lib" <> "cache") by discriminate.
  split; [repeat split; try assumption; reflexivity|].
  split; [|split].
  - destruct (C5_prepend_prefixed "lib1/cap150f.lib" (Some Demo.lib1) Demo.bare H1 H2 H3)
      as (_ & _ & H & _).
    exact (H "/design" eq_refl).
  - assert (H3' : prefix_id "nosuch/x.lib" <> "cache") by discriminate.
    destruct (C5_prepend_prefixed "nosuch/x.lib" (Some Demo.lib1) Demo.bare
                eq_refl eq_refl H3') as (H & _).
    exact (H eq_refl).
  - assert (H3' : prefix_id "pdk/x.lib" <> "cache") by discriminate.
    destruct (C5_prepend_prefixed "pdk/x.lib" None Demo.shared_id
                eq_refl eq_refl H3') as (_ & H & _).
    apply H. vm_compute. lia.
Defined.

(** C5 as stated fails.  The identifier [lib1] has exactly one candidate,
    whose path is [/design]; for [lib1//cap.lib] the code returns
    [/design/cap.lib], while [/design] joined with the remainder
    [/cap.lib] is [/cap.lib].  And the identifier [pdk] has exactly one
    candidate, an install whose settings key is not configured: the code
    raises instead of returning. *)
Lemma C5_counterexample :
  (length (candidate_roots Demo.bare (prefix_id "lib1//cap.lib") (Some Demo.lib1)) = 1 /\
   fst (prepend_dir_path "lib1//cap.lib" (Some Demo.lib1) Demo.bare)
     = Ok "/design/cap.lib" /\
   Py.join2 "/design" "/cap.lib" = "/cap.lib") /\
  (length (candidate_roots Demo.unset_install (prefix_id "pdk/x.lib") None) = 1 /\
   fst (prepend_dir_path "pdk/x.lib" None Demo.unset_install)
     = Raise (ValidationError "path")).
Proof. repeat split; vm_compute; reflexivity. Qed.

(** ** The deck accessors *)

Lemma prepend_dir_path_stdout (path : string) (lib : option Library) (w : World) :
  same_but_stdout (snd (prepend_dir_path path lib w)) w.
Proof.
  assert (H : observer same_but_stdout (prepend_dir_path path lib)).
  { apply observer_prepend_dir_path;
      first [ exact same_but_stdout_equiv | exact same_but_stdout_reads
            | exact same_but_stdout_stdout ]. }
  apply (H w w). reflexivity.
Qed.

(** *** LVS decks *)

Lemma same_but_lvs_decks_refl (w : World) : same_but_lvs_decks w w.
Proof.
  unfold same_but_lvs_decks. repeat split.
  unfold config. destruct (self w) as [n p c cd hl db]. destruct c. reflexivity.
Qed.

Lemma same_but_lvs_decks_reads (w' w : World) :
  same_but_lvs_decks w' w -> same_reads w' w.
Proof.
  intros (A & B & C & D & E & F). unfold same_reads, reads, config.
  rewrite A, C, E. reflexivity.
Qed.

Lemma same_but_lvs_decks_stdout (w2 w1 w : World) :
  same_but_stdout w2 w1 -> same_but_lvs_decks w1 w -> same_but_lvs_decks w2 w.
Proof.
  intros (A & B & C & D & E & F) (A' & B' & C' & D' & E' & F').
  unfold same_but_lvs_decks, config in *. rewrite A, B, C, D, E, F.
  repeat split; assumption.
Qed.

Lemma same_but_lvs_decks_write (v : list LVSDeck) (w1 w : World) :
  same_but_lvs_decks w1 w ->
  same_but_lvs_decks (snd (write_lvs_decks v w1)) w /\
  TechJSON.lvs_decks (config (snd (write_lvs_decks v w1))) = Some v.
Proof.
  intros (A & B & C & D & E & F). unfold write_lvs_decks, modify. simpl.
  split; [|reflexivity].
  unfold same_but_lvs_decks, config in *. simpl. rewrite A.
  repeat split; assumption.
Qed.

(** The loop of [get_lvs_decks_for_tool]: with [done] already resolved and
    [rest] still to go, it resolves a prefix of [rest], in the world it was
    entered in, and stops at the first deck whose path does not resolve. *)
Lemma resolve_lvs_decks_spec (w : World) (rest done : list LVSDeck) (wi : World) :
  TechJSON.lvs_decks (config wi) = Some (done ++ rest) ->
  same_but_lvs_decks wi w ->
  let r := resolve_lvs_decks (length done) rest wi in
  same_but_lvs_decks (snd r) w /\
  exists k,
    TechJSON.lvs_decks (config (snd r))
      = Some (done ++
              map (fun d => LVSDeck.set_path (resolved_path w (LVSDeck.path d)) d)
                  (take k rest) ++ drop k rest) /\
    (Forall (fun d => resolves w (LVSDeck.path d)) rest -> fst r = Ok tt /\ k = length rest) /\
    (Exists (fun d => ~ resolves w (LVSDeck.path d)) rest -> exists e, fst r = Raise e).
Proof.
  revert done wi. induction rest as [|d rest IH]; intros done wi Hcur Hsame r; subst r.
  - simpl. split; [exact Hsame|]. exists 0. simpl.
    split; [exact Hcur|]. split; [auto | intros H; inversion H].
  - destruct (prepend_dir_path_same_reads (LVSDeck.path d) None wi w
                (same_but_lvs_decks_reads wi w Hsame)) as [Hres _].
    pose proof (prepend_dir_path_stdout (LVSDeck.path d) None wi) as Hw1.
    destruct (prepend_dir_path (LVSDeck.path d) None wi) as [[p|e] w1] eqn:Erun;
      simpl in Hres, Hw1.
    + (* the path resolves *)
      assert (Hp : resolved_path w (LVSDeck.path d) = p)
        by (unfold resolved_path; now rewrite <- Hres).
      assert (Hsame1 : same_but_lvs_decks w1 w)
        by (eapply same_but_lvs_decks_stdout; eassumption).
      assert (Hcur1 : TechJSON.lvs_decks (config w1) = Some (done ++ d :: rest)).
      { destruct Hw1 as (A & _). unfold config. rewrite A. exact Hcur. }
      set (done' := done ++ [LVSDeck.set_path p d]).
      destruct (same_but_lvs_decks_write (done' ++ rest) w1 w Hsame1)
        as [Hsame2 Hcur2].
      set (w2 := snd (write_lvs_decks (done' ++ rest) w1)) in *.
      assert (Hrun : resolve_lvs_decks (length done) (d :: rest) wi
                     = resolve_lvs_decks (length done') rest w2).
      { simpl resolve_lvs_decks. unfold bind at 1. rewrite Erun.
        unfold bind at 1, gets at 1. cbv beta iota. rewrite Hcur1. simpl or_nil.
        replace (<[length done := LVSDeck.set_path p d]> (done ++ d :: rest))
          with (done' ++ rest).
        2:{ rewrite <- (Nat.add_0_r (length done)), insert_app_r. simpl.
            subst done'. now rewrite <- app_assoc. }
        replace (S (length done)) with (length done')
          by (subst done'; rewrite length_app; simpl; lia).
        reflexivity. }
      rewrite Hrun.
      destruct (IH done' w2 Hcur2 Hsame2) as (Hf & k & Hk & Hall & Hex).
      split; [exact Hf|]. exists (S k). split; [|split].
      * rewrite Hk. simpl. rewrite Hp. subst done'. now rewrite <- app_assoc.
      * intros HF. apply Forall_cons in HF as [_ HF].
        destruct (Hall HF) as [-> ->]. now split.
      * intros HE. apply Exists_cons in HE as [HE|HE]; [|now apply Hex].
        exfalso. apply HE. exists p. now rewrite <- Hres.
    + (* the path does not resolve *)
      assert (Hrun : resolve_lvs_decks (length done) (d :: rest) wi = (Raise e, w1)).
      { simpl resolve_lvs_decks. unfold bind at 1. now rewrite Erun. }
      rewrite Hrun. simpl.
      split; [eapply same_but_lvs_decks_stdout; eassumption|].
      exists 0. simpl. split; [|split].
      * destruct Hw1 as (A & _). unfold config. rewrite A. exact Hcur.
      * intros HF. apply Forall_cons in HF as [[p Hp] _].
        rewrite <- Hres in Hp. discriminate.
      * intros _. now exists e.
Qed.

Lemma get_lvs_decks_for_tool_spec (tool_name : string) (w : World) (l : list LVSDeck) :
  TechJSON.lvs_decks (config w) = Some l ->
  let r := get_lvs_decks_for_tool tool_name w in
  same_but_lvs_decks (snd r) w /\
  (exists k,
     TechJSON.lvs_decks (config (snd r))
       = Some (map (fun d => LVSDeck.set_path (resolved_path w (LVSDeck.path d)) d)
                   (take k l) ++ drop k l)) /\
  (Forall (fun d => resolves w (LVSDeck.path d)) l ->
   fst r = Ok (filter (fun x : LVSDeck => LVSDeck.tool_name x = tool_name)
                 (map (fun d => LVSDeck.set_path (resolved_path w (LVSDeck.path d)) d) l))) /\
  (Exists (fun d => ~ resolves w (LVSDeck.path d)) l -> exists e, fst r = Raise e).
Proof.
  intros Hl r.
  assert (Hrun : r = match resolve_lvs_decks 0 l w with
                     | (Ok _, w1) =>
                         (Ok (filter (fun x : LVSDeck => LVSDeck.tool_name x = tool_name)
                                (or_nil (TechJSON.lvs_decks (config w1)))), w1)
                     | (Raise e, w1) => (Raise e, w1)
                     end).
  { subst r. unfold get_lvs_decks_for_tool.
    unfold bind at 1, gets at 1. cbv beta iota. rewrite Hl.
    unfold bind at 1. destruct (resolve_lvs_decks 0 l w) as [[[]|e] w1]; reflexivity. }
  rewrite Hrun. clear Hrun r.
  destruct (resolve_lvs_decks_spec w l [] w Hl (same_but_lvs_decks_refl w))
    as (Hsame & k & Hk & Hall & Hex).
  simpl length in *. simpl app in Hk.
  destruct (resolve_lvs_decks 0 l w) as [[[]|e] w1]; simpl in *.
  - split; [exact Hsame|]. split; [now exists k|]. split.
    + intros HF. destruct (Hall HF) as [_ ->]. rewrite Hk.
      rewrite firstn_all, drop_all, app_nil_r. reflexivity.
    + intros HE. destruct (Hex HE) as [e He]. discriminate.
  - split; [exact Hsame|]. split; [now exists k|]. split.
    + intros HF. destruct (Hall HF) as [He _]. discriminate.
    + intros _. now exists e.
Qed.

(** *** DRC decks *)

Lemma same_but_drc_decks_refl (w : World) : same_but_drc_decks w w.
Proof.
  unfold same_but_drc_decks. repeat split.
  unfold config. destruct (self w) as [n p c cd hl db]. destruct c. reflexivity.
Qed.

Lemma same_but_drc_decks_reads (w' w : World) :
  same_but_drc_decks w' w -> same_reads w' w.
Proof.
  intros (A & B & C & D & E & F). unfold same_reads, reads, config.
  rewrite A, C, E. reflexivity.
Qed.

Lemma same_but_drc_decks_stdout (w2 w1 w : World) :
  same_but_stdout w2 w1 -> same_but_drc_decks w1 w -> same_but_drc_decks w2 w.
Proof.
  intros (A & B & C & D & E & F) (A' & B' & C' & D' & E' & F').
  unfold same_but_drc_decks, config in *. rewrite A, B, C, D, E, F.
  repeat split; assumption.
Qed.

Lemma same_but_drc_decks_write (v : list DRCDeck) (w1 w : World) :
  same_but_drc_decks w1 w ->
  same_but_drc_decks (snd (write_drc_decks v w1)) w /\
  TechJSON.drc_decks (config (snd (write_drc_decks v w1))) = Some v.
Proof.
  intros (A & B & C & D & E & F). unfold write_drc_decks, modify. simpl.
  split; [|reflexivity].
  unfold same_but_drc_decks, config in *. simpl. rewrite A.
  repeat split; assumption.
Qed.

(** The loop of [get_drc_decks_for_tool]: with [done] already resolved and
    [rest] still to go, it resolves a prefix of [rest], in the world it was
    entered in, and stops at the first deck whose path does not resolve. *)
Lemma resolve_drc_decks_spec (w : World) (rest done : list DRCDeck) (wi : World) :
  TechJSON.drc_decks (config wi) = Some (done ++ rest) ->
  same_but_drc_decks wi w ->
  let r := resolve_drc_decks (length done) rest wi in
  same_but_drc_decks (snd r) w /\
  exists k,
    TechJSON.drc_decks (config (snd r))
      = Some (done ++
              map (fun d => DRCDeck.set_path (resolved_path w (DRCDeck.path d)) d)
                  (take k rest) ++ drop k rest) /\
    (Forall (fun d => resolves w (DRCDeck.path d)) rest -> fst r = Ok tt /\ k = length rest) /\
    (Exists (fun d => ~ resolves w (DRCDeck.path d)) rest -> exists e, fst r = Raise e).
Proof.
  revert done wi. induction rest as [|d rest IH]; intros done wi Hcur Hsame r; subst r.
  - simpl. split; [exact Hsame|]. exists 0. simpl.
    split; [exact Hcur|]. split; [auto | intros H; inversion H].
  - destruct (prepend_dir_path_same_reads (DRCDeck.path d) None wi w
                (same_but_drc_decks_reads wi w Hsame)) as [Hres _].
    pose proof (prepend_dir_path_stdout (DRCDeck.path d) None wi) as Hw1.
    destruct (prepend_dir_path (DRCDeck.path d) None wi) as [[p|e] w1] eqn:Erun;
      simpl in Hres, Hw1.
    + (* the path resolves *)
      assert (Hp : resolved_path w (DRCDeck.path d) = p)
        by (unfold resolved_path; now rewrite <- Hres).
      assert (Hsame1 : same_but_drc_decks w1 w)
        by (eapply same_but_drc_decks_stdout; eassumption).
      assert (Hcur1 : TechJSON.drc_decks (config w1) = Some (done ++ d :: rest)).
      { destruct Hw1 as (A & _). unfold config. rewrite A. exact Hcur. }
      set (done' := done ++ [DRCDeck.set_path p d]).
      destruct (same_but_drc_decks_write (done' ++ rest) w1 w Hsame1)
        as [Hsame2 Hcur2].
      set (w2 := snd (write_drc_decks (done' ++ rest) w1)) in *.
      assert (Hrun : resolve_drc_decks (length done) (d :: rest) wi
                     = resolve_drc_decks (length done') rest w2).
      { simpl resolve_drc_decks. unfold bind at 1. rewrite Erun.
        unfold bind at 1, gets at 1. cbv beta iota. rewrite Hcur1. simpl or_nil.
        replace (<[length done := DRCDeck.set_path p d]> (done ++ d :: rest))
          with (done' ++ rest).
        2:{ rewrite <- (Nat.add_0_r (length done)), insert_app_r. simpl.
            subst done'. now rewrite <- app_assoc. }
        replace (S (length done)) with (length done')
          by (subst done'; rewrite length_app; simpl; lia).
        reflexivity. }
      rewrite Hrun.
      destruct (IH done' w2 Hcur2 Hsame2) as (Hf & k & Hk & Hall & Hex).
      split; [exact Hf|]. exists (S k). split; [|split].
      * rewrite Hk. simpl. rewrite Hp. subst done'. now rewrite <- app_assoc.
      * intros HF. apply Forall_cons in HF as [_ HF].
        destruct (Hall HF) as [-> ->]. now split.
      * intros HE. apply Exists_cons in HE as [HE|HE]; [|now apply Hex].
        exfalso. apply HE. exists p. now rewrite <- Hres.
    + (* the path does not resolve *)
      assert (Hrun : resolve_drc_decks (length done) (d :: rest) wi = (Raise e, w1)).
      { simpl resolve_drc_decks. unfold bind at 1. now rewrite Erun. }
      rewrite Hrun. simpl.
      split; [eapply same_but_drc_decks_stdout; eassumption|].
      exists 0. simpl. split; [|split].
      * destruct Hw1 as (A & _). unfold config. rewrite A. exact Hcur.
      * intros HF. apply Forall_cons in HF as [[p Hp] _].
        rewrite <- Hres in Hp. discriminate.
      * intros _. now exists e.
Qed.

Lemma get_drc_decks_for_tool_spec (tool_name : string) (w : World) (l : list DRCDeck) :
  TechJSON.drc_decks (config w) = Some l ->
  let r := get_drc_decks_for_tool tool_name w in
  same_but_drc_decks (snd r) w /\
  (exists k,
     TechJSON.drc_decks (config (snd r))
       = Some (map (fun d => DRCDeck.set_path (resolved_path w (DRCDeck.path d)) d)
                   (take k l) ++ drop k l)) /\
  (Forall (fun d => resolves w (DRCDeck.path d)) l ->
   fst r = Ok (filter (fun x : DRCDeck => DRCDeck.tool_name x = tool_name)
                 (map (fun d => DRCDeck.set_path (resolved_path w (DRCDeck.path d)) d) l))) /\
  (Exists (fun d => ~ resolves w (DRCDeck.path d)) l -> exists e, fst r = Raise e).
Proof.
  intros Hl r.
  assert (Hrun : r = match resolve_drc_decks 0 l w with
                     | (Ok _, w1) =>
                         (Ok (filter (fun x : DRCDeck => DRCDeck.tool_name x = tool_name)
                                (or_nil (TechJSON.drc_decks (config w1)))), w1)
                     | (Raise e, w1) => (Raise e, w1)
                     end).
  { subst r. unfold get_drc_decks_for_tool.
    unfold bind at 1, gets at 1. cbv beta iota. rewrite Hl.
    unfold bind at 1. destruct (resolve_drc_decks 0 l w) as [[[]|e] w1]; reflexivity. }
  rewrite Hrun. clear Hrun r.
  destruct (resolve_drc_decks_spec w l [] w Hl (same_but_drc_decks_refl w))
    as (Hsame & k & Hk & Hall & Hex).
  simpl length in *. simpl app in Hk.
  destruct (resolve_drc_decks 0 l w) as [[[]|e] w1]; simpl in *.
  - split; [exact Hsame|]. split; [now exists k|]. split.
    + intros HF. destruct (Hall HF) as [_ ->]. rewrite Hk.
      rewrite firstn_all, drop_all, app_nil_r. reflexivity.
    + intros HE. destruct (Hex HE) as [e He]. discriminate.
  - split; [exact Hsame|]. split; [now exists k|]. split.
    + intros HF. destruct (Hall HF) as [He _]. discriminate.
    + intros _. now exists e.
Qed.

(** ** C9: what the deck accessors return *)

Lemma filter_lvs_no_match (tool_name : string) (f : LVSDeck -> LVSDeck) (l : list LVSDeck) :
  (forall d, LVSDeck.tool_name (f d) = LVSDeck.tool_name d) ->
  (forall d, d ∈ l -> LVSDeck.tool_name d <> tool_name) ->
  filter (fun x : LVSDeck => LVSDeck.tool_name x = tool_name) (map f l) = [].
Proof.
  intros Hf H. induction l as [|d l IH]; [reflexivity|]. simpl.
  rewrite filter_cons_False by (rewrite Hf; apply H; left).
  apply IH. intros d' Hd'. apply H. now right.
Qed.

Lemma filter_drc_no_match (tool_name : string) (f : DRCDeck -> DRCDeck) (l : list DRCDeck) :
  (forall d, DRCDeck.tool_name (f d) = DRCDeck.tool_name d) ->
  (forall d, d ∈ l -> DRCDeck.tool_name d <> tool_name) ->
  filter (fun x : DRCDeck => DRCDeck.tool_name x = tool_name) (map f l) = [].
Proof.
  intros Hf H. induction l as [|d l IH]; [reflexivity|]. simpl.
  rewrite filter_cons_False by (rewrite Hf; apply H; left).
  apply IH. intros d' Hd'. apply H. now right.
Qed.

(** C9 (as amended).  A deck accessor raises when its decks list is absent
    from the descriptor.  When the list is present it first resolves every
    deck's path: if all of them resolve it returns the decks of the
    requested tool, with their paths resolved, so the empty list when no
    deck is for that tool; if the path of some deck does not resolve it
    raises, whatever tool was asked for. *)
Theorem C9_deck_accessors (tool_name : string) (w : World) :
  (TechJSON.lvs_decks (config w) = None ->
   get_lvs_decks_for_tool tool_name w
     = (Raise (ValueError "Tech JSON does not specify any LVS decks"), w)) /\
  (forall l, TechJSON.lvs_decks (config w) = Some l ->
     (Forall (fun d => resolves w (LVSDeck.path d)) l ->
      fst (get_lvs_decks_for_tool tool_name w)
        = Ok (filter (fun x : LVSDeck => LVSDeck.tool_name x = tool_name)
                (map (fun d => LVSDeck.set_path (resolved_path w (LVSDeck.path d)) d) l)) /\
      ((forall d, d ∈ l -> LVSDeck.tool_name d <> tool_name) ->
       fst (get_lvs_decks_for_tool tool_name w) = Ok [])) /\
     (Exists (fun d => ~ resolves w (LVSDeck.path d)) l ->
      exists e, fst (get_lvs_decks_for_tool tool_name w) = Raise e)) /\
  (TechJSON.drc_decks (config w) = None ->
   get_drc_decks_for_tool tool_name w
     = (Raise (ValueError "Tech JSON does not specify any DRC decks"), w)) /\
  (forall l, TechJSON.drc_decks (config w) = Some l ->
     (Forall (fun d => resolves w (DRCDeck.path d)) l ->
      fst (get_drc_decks_for_tool tool_name w)
        = Ok (filter (fun x : DRCDeck => DRCDeck.tool_name x = tool_name)
                (map (fun d => DRCDeck.set_path (resolved_path w (DRCDeck.path d)) d) l)) /\
      ((forall d, d ∈ l -> DRCDeck.tool_name d <> tool_name) ->
       fst (get_drc_decks_for_tool tool_name w) = Ok [])) /\
     (Exists (fun d => ~ resolves w (DRCDeck.path d)) l ->
      exists e, fst (get_drc_decks_for_tool tool_name w) = Raise e)).
Proof.
  split; [|split; [|split]].
  - intros H. unfold get_lvs_decks_for_tool, bind, gets. cbv beta iota.
    now rewrite H.
  - intros l Hl.
    destruct (get_lvs_decks_for_tool_spec tool_name w l Hl) as (_ & _ & Hall & Hex).
    split; [|exact Hex]. intros HF. split; [exact (Hall HF)|].
    intros Hno. rewrite (Hall HF). f_equal.
    apply filter_lvs_no_match; [reflexivity | exact Hno].
  - intros H. unfold get_drc_decks_for_tool, bind, gets. cbv beta iota.
    now rewrite H.
  - intros l Hl.
    destruct (get_drc_decks_for_tool_spec tool_name w l Hl) as (_ & _ & Hall & Hex).
    split; [|exact Hex]. intros HF. split; [exact (Hall HF)|].
    intros Hno. rewrite (Hall HF). f_equal.
    apply filter_drc_no_match; [reflexivity | exact Hno].
Qed.

(** C9 at a descriptor whose one LVS deck resolves and is for another
    tool. *)
Lemma C9_deck_accessors_witness :
  (TechJSON.lvs_decks (config Demo.with_deck) = Some [Demo.cache_deck] /\
   Forall (fun d => resolves Demo.with_deck (LVSDeck.path d)) [Demo.cache_deck] /\
   (forall d, d ∈ [Demo.cache_deck] -> LVSDeck.tool_name d <> "magic")) /\
  fst (get_lvs_decks_for_tool "magic" Demo.with_deck) = Ok [].
Proof.
  assert (H1 : TechJSON.lvs_decks (config Demo.with_deck) = Some [Demo.cache_deck])
    by reflexivity.
  assert (H2 : Forall (fun d => resolves Demo.with_deck (LVSDeck.path d)) [Demo.cache_deck]).
  { repeat constructor. exists "/cache/lvs.rul". reflexivity. }
  assert (H3 : forall d, d ∈ [Demo.cache_deck] -> LVSDeck.tool_name d <> "magic").
  { intros d Hd. apply list_elem_of_singleton in Hd. subst d. discriminate. }
  split; [repeat split; assumption|].
  destruct (C9_deck_accessors "magic" Demo.with_deck) as (_ & H & _).
  destruct (H [Demo.cache_deck] H1) as [Hall _].
  exact (proj2 (Hall H2) H3).
Defined.

(** C9 as stated fails: the LVS decks list is present and not empty, no
    deck is for the tool [magic], and the accessor raises, because the path
    of the one deck does not resolve. *)
Lemma C9_counterexample :
  TechJSON.lvs_decks (config Demo.with_stray_deck) = Some [Demo.stray_deck] /\
  LVSDeck.tool_name Demo.stray_deck <> "magic" /\
  fst (get_lvs_decks_for_tool "magic" Demo.with_stray_deck)
    = Raise (ValueError
        "Path nosuch/lvs.rul with prefix id nosuch did not match any tarballs or installs").
Proof.
  split; [reflexivity|]. split; [discriminate|]. vm_compute. reflexivity.
Qed.

(** ** How far the deck accessors get *)

(** How far [resolve_lvs_decks] gets: the decks before the first whose
    path does not resolve are overwritten, and no other. *)
Lemma resolve_lvs_decks_upto (w : World) (rest done : list LVSDeck) (wi : World) :
  TechJSON.lvs_decks (config wi) = Some (done ++ rest) ->
  same_but_lvs_decks wi w ->
  let r := resolve_lvs_decks (length done) rest wi in
  exists k,
    TechJSON.lvs_decks (config (snd r))
      = Some (done ++
              map (fun d => LVSDeck.set_path (resolved_path w (LVSDeck.path d)) d)
                  (take k rest) ++ drop k rest) /\
    Forall (fun d => resolves w (LVSDeck.path d)) (take k rest) /\
    (k = length rest \/
     exists d, rest !! k = Some d /\ ~ resolves w (LVSDeck.path d)).
Proof.
  revert done wi. induction rest as [|d rest IH]; intros done wi Hcur Hsame r; subst r.
  - exists 0. simpl. split; [exact Hcur|]. split; [constructor | now left].
  - destruct (prepend_dir_path_same_reads (LVSDeck.path d) None wi w
                (same_but_lvs_decks_reads wi w Hsame)) as [Hres _].
    pose proof (prepend_dir_path_stdout (LVSDeck.path d) None wi) as Hw1.
    destruct (prepend_dir_path (LVSDeck.path d) None wi) as [[p|e] w1] eqn:Erun;
      simpl in Hres, Hw1.
    + assert (Hp : resolved_path w (LVSDeck.path d) = p)
        by (unfold resolved_path; now rewrite <- Hres).
      assert (Hsame1 : same_but_lvs_decks w1 w)
        by (eapply same_but_lvs_decks_stdout; eassumption).
      assert (Hcur1 : TechJSON.lvs_decks (config w1) = Some (done ++ d :: rest)).
      { destruct Hw1 as (A & _). unfold config. rewrite A. exact Hcur. }
      set (done' := done ++ [LVSDeck.set_path p d]).
      destruct (same_but_lvs_decks_write (done' ++ rest) w1 w Hsame1)
        as [Hsame2 Hcur2].
      set (w2 := snd (write_lvs_decks (done' ++ rest) w1)) in *.
      assert (Hrun : resolve_lvs_decks (length done) (d :: rest) wi
                     = resolve_lvs_decks (length done') rest w2).
      { simpl resolve_lvs_decks. unfold bind at 1. rewrite Erun.
        unfold bind at 1, gets at 1. cbv beta iota. rewrite Hcur1. simpl or_nil.
        replace (<[length done := LVSDeck.set_path p d]> (done ++ d :: rest))
          with (done' ++ rest).
        2:{ rewrite <- (Nat.add_0_r (length done)), insert_app_r. simpl.
            subst done'. now rewrite <- app_assoc. }
        replace (S (length done)) with (length done')
          by (subst done'; rewrite length_app; simpl; lia).
        reflexivity. }
      rewrite Hrun.
      destruct (IH done' w2 Hcur2 Hsame2) as (k & Hk & Hall & Hend).
      exists (S k). split; [|split].
      * rewrite Hk. simpl. rewrite Hp. subst done'. now rewrite <- app_assoc.
      * simpl. constructor; [|exact Hall]. exists p. now rewrite <- Hres.
      * destruct Hend as [->|Hend]; [now left | right; exact Hend].
    + assert (Hrun : resolve_lvs_decks (length done) (d :: rest) wi = (Raise e, w1)).
      { simpl resolve_lvs_decks. unfold bind at 1. now rewrite Erun. }
      rewrite Hrun. simpl.
      exists 0. simpl. split; [|split].
      * destruct Hw1 as (A & _). unfold config. rewrite A. exact Hcur.
      * constructor.
      * right. exists d. split; [reflexivity|]. intros [p Hp].
        rewrite <- Hres in Hp. discriminate.
Qed.

Lemma get_lvs_decks_upto (tool_name : string) (w : World) (l : list LVSDeck) :
  TechJSON.lvs_decks (config w) = Some l ->
  exists k,
    TechJSON.lvs_decks (config (snd (get_lvs_decks_for_tool tool_name w)))
      = Some (map (fun d => LVSDeck.set_path (resolved_path w (LVSDeck.path d)) d)
                  (take k l) ++ drop k l) /\
    Forall (fun d => resolves w (LVSDeck.path d)) (take k l) /\
    (k = length l \/ exists d, l !! k = Some d /\ ~ resolves w (LVSDeck.path d)).
Proof.
  intros Hl.
  assert (Hrun : snd (get_lvs_decks_for_tool tool_name w)
                 = snd (resolve_lvs_decks 0 l w)).
  { unfold get_lvs_decks_for_tool.
    unfold bind at 1, gets at 1. cbv beta iota. rewrite Hl.
    unfold bind at 1. destruct (resolve_lvs_decks 0 l w) as [[[]|e] w1]; reflexivity. }
  rewrite Hrun.
  exact (resolve_lvs_decks_upto w l [] w Hl (same_but_lvs_decks_refl w)).
Qed.

(** How far [resolve_drc_decks] gets: the decks before the first whose
    path does not resolve are overwritten, and no other. *)
Lemma resolve_drc_decks_upto (w : World) (rest done : list DRCDeck) (wi : World) :
  TechJSON.drc_decks (config wi) = Some (done ++ rest) ->
  same_but_drc_decks wi w ->
  let r := resolve_drc_decks (length done) rest wi in
  exists k,
    TechJSON.drc_decks (config (snd r))
      = Some (done ++
              map (fun d => DRCDeck.set_path (resolved_path w (DRCDeck.path d)) d)
                  (take k rest) ++ drop k rest) /\
    Forall (fun d => resolves w (DRCDeck.path d)) (take k rest) /\
    (k = length rest \/
     exists d, rest !! k = Some d /\ ~ resolves w (DRCDeck.path d)).
Proof.
  revert done wi. induction rest as [|d rest IH]; intros done wi Hcur Hsame r; subst r.
  - exists 0. simpl. split; [exact Hcur|]. split; [constructor | now left].
  - destruct (prepend_dir_path_same_reads (DRCDeck.path d) None wi w
                (same_but_drc_decks_reads wi w Hsame)) as [Hres _].
    pose proof (prepend_dir_path_stdout (DRCDeck.path d) None wi) as Hw1.
    destruct (prepend_dir_path (DRCDeck.path d) None wi) as [[p|e] w1] eqn:Erun;
      simpl in Hres, Hw1.
    + assert (Hp : resolved_path w (DRCDeck.path d) = p)
        by (unfold resolved_path; now rewrite <- Hres).
      assert (Hsame1 : same_but_drc_decks w1 w)
        by (eapply same_but_drc_decks_stdout; eassumption).
      assert (Hcur1 : TechJSON.drc_decks (config w1) = Some (done ++ d :: rest)).
      { destruct Hw1 as (A & _). unfold config. rewrite A. exact Hcur. }
      set (done' := done ++ [DRCDeck.set_path p d]).
      destruct (same_but_drc_decks_write (done' ++ rest) w1 w Hsame1)
        as [Hsame2 Hcur2].
      set (w2 := snd (write_drc_decks (done' ++ rest) w1)) in *.
      assert (Hrun : resolve_drc_decks (length done) (d :: rest) wi
                     = resolve_drc_decks (length done') rest w2).
      { simpl resolve_drc_decks. unfold bind at 1. rewrite Erun.
        unfold bind at 1, gets at 1. cbv beta iota. rewrite Hcur1. simpl or_nil.
        replace (<[length done := DRCDeck.set_path p d]> (done ++ d :: rest))
          with (done' ++ rest).
        2:{ rewrite <- (Nat.add_0_r (length done)), insert_app_r. simpl.
            subst done'. now rewrite <- app_assoc. }
        replace (S (length done)) with (length done')
          by (subst done'; rewrite length_app; simpl; lia).
        reflexivity. }
      rewrite Hrun.
      destruct (IH done' w2 Hcur2 Hsame2) as (k & Hk & Hall & Hend).
      exists (S k). split; [|split].
      * rewrite Hk. simpl. rewrite Hp. subst done'. now rewrite <- app_assoc.
      * simpl. constructor; [|exact Hall]. exists p. now rewrite <- Hres.
      * destruct Hend as [->|Hend]; [now left | right; exact Hend].
    + assert (Hrun : resolve_drc_decks (length done) (d :: rest) wi = (Raise e, w1)).
      { simpl resolve_drc_decks. unfold bind at 1. now rewrite Erun. }
      rewrite Hrun. simpl.
      exists 0. simpl. split; [|split].
      * destruct Hw1 as (A & _). unfold config. rewrite A. exact Hcur.
      * constructor.
      * right. exists d. split; [reflexivity|]. intros [p Hp].
        rewrite <- Hres in Hp. discriminate.
Qed.

Lemma get_drc_decks_upto (tool_name : string) (w : World) (l : list DRCDeck) :
  TechJSON.drc_decks (config w) = Some l ->
  exists k,
    TechJSON.drc_decks (config (snd (get_drc_decks_for_tool tool_name w)))
      = Some (map (fun d => DRCDeck.set_path (resolved_path w (DRCDeck.path d)) d)
                  (take k l) ++ drop k l) /\
    Forall (fun d => resolves w (DRCDeck.path d)) (take k l) /\
    (k = length l \/ exists d, l !! k = Some d /\ ~ resolves w (DRCDeck.path d)).
Proof.
  intros Hl.
  assert (Hrun : snd (get_drc_decks_for_tool tool_name w)
                 = snd (resolve_drc_decks 0 l w)).
  { unfold get_drc_decks_for_tool.
    unfold bind at 1, gets at 1. cbv beta iota. rewrite Hl.
    unfold bind at 1. destruct (resolve_drc_decks 0 l w) as [[[]|e] w1]; reflexivity. }
  rewrite Hrun.
  exact (resolve_drc_decks_upto w l [] w Hl (same_but_drc_decks_refl w)).
Qed.

(** ** C3: what the operations do to the descriptor *)

(** C3 (as amended).  Path resolution, the supply pre-filter, the install
    and archive checks and filter execution (with pre-filters that do so
    themselves, the default ones among them) leave the technology object,
    and so every field of the descriptor, unchanged.  The deck accessors do
    not: [get_lvs_decks_for_tool] (resp. [get_drc_decks_for_tool])
    overwrites the [path] of the LVS (resp. DRC) decks with the resolved
    path, from the first deck up to the first whose path does not resolve,
    which it leaves as it is together with the decks after it; when every
    path resolves, every path is overwritten.  It changes nothing else of
    the descriptor, and nothing at all when the list is absent. *)
Theorem C3_descriptor_frame :
  (forall path lib, keeps_self (prepend_dir_path path lib)) /\
  (forall lib, keeps_self (filter_for_supplies lib)) /\
  keeps_self check_installs /\
  keeps_self extract_tarballs /\
  keeps_self extract_technology_files /\
  (forall filt pre_filts output_func must_exist uniquify,
     (forall f l, f ∈ pre_filts -> keeps_self (f l)) ->
     keeps_self (process_library_filter filt pre_filts output_func must_exist uniquify)) /\
  (forall filt output_func must_exist uniquify,
     keeps_self (process_library_filter filt default_pre_filters output_func
                   must_exist uniquify)) /\
  (forall tool_name w,
     let w' := snd (get_lvs_decks_for_tool tool_name w) in
     match TechJSON.lvs_decks (config w) with
     | None => w' = w
     | Some l =>
         same_but_lvs_decks w' w /\
         exists k,
           TechJSON.lvs_decks (config w')
             = Some (map (fun d => LVSDeck.set_path (resolved_path w (LVSDeck.path d)) d)
                         (take k l) ++ drop k l) /\
           Forall (fun d => resolves w (LVSDeck.path d)) (take k l) /\
           (k = length l \/
            exists d, l !! k = Some d /\ ~ resolves w (LVSDeck.path d))
     end) /\
  (forall tool_name w,
     let w' := snd (get_drc_decks_for_tool tool_name w) in
     match TechJSON.drc_decks (config w) with
     | None => w' = w
     | Some l =>
         same_but_drc_decks w' w /\
         exists k,
           TechJSON.drc_decks (config w')
             = Some (map (fun d => DRCDeck.set_path (resolved_path w (DRCDeck.path d)) d)
                         (take k l) ++ drop k l) /\
           Forall (fun d => resolves w (DRCDeck.path d)) (take k l) /\
           (k = length l \/
            exists d, l !! k = Some d /\ ~ resolves w (DRCDeck.path d))
     end).
Proof.
  repeat match goal with |- _ /\ _ => split end.
  - apply keeps_self_prepend_dir_path.
  - apply keeps_self_filter_for_supplies.
  - apply keeps_self_check_installs.
  - apply keeps_self_extract_tarballs.
  - apply keeps_self_extract_technology_files.
  - apply keeps_self_process_library_filter.
  - intros. apply keeps_self_process_library_filter.
    intros f l Hf. apply list_elem_of_singleton in Hf. subst f.
    apply keeps_self_filter_for_supplies.
  - intros tool_name w w'. destruct (TechJSON.lvs_decks (config w)) as [l|] eqn:E.
    + destruct (get_lvs_decks_for_tool_spec tool_name w l E) as (H1 & _).
      split; [exact H1|]. exact (get_lvs_decks_upto tool_name w l E).
    + subst w'. unfold get_lvs_decks_for_tool, bind, gets. cbv beta iota.
      now rewrite E.
  - intros tool_name w w'. destruct (TechJSON.drc_decks (config w)) as [l|] eqn:E.
    + destruct (get_drc_decks_for_tool_spec tool_name w l E) as (H1 & _).
      split; [exact H1|]. exact (get_drc_decks_upto tool_name w l E).
    + subst w'. unfold get_drc_decks_for_tool, bind, gets. cbv beta iota.
      now rewrite E.
Qed.

(** C3 at filter execution with the default pre-filters, on a technology
    with one library, and at the LVS accessor on a deck whose path does not
    resolve: the deck is left as it is. *)
Lemma C3_descriptor_frame_witness :
  (forall f l, f ∈ default_pre_filters -> keeps_self (f l)) /\
  config (snd (process_library_filter LibraryFilterHolder.timing_lib_filter
                 default_pre_filters HammerTechnologyUtils.to_plain_item false true
                 (Demo.world
                    (Demo.config None (Some [Demo.timing_lib (Some "/a") None]) None None)
                    ∅)))
  = Demo.config None (Some [Demo.timing_lib (Some "/a") None]) None None /\
  TechJSON.lvs_decks
    (config (snd (get_lvs_decks_for_tool "calibre" Demo.with_stray_deck)))
  = Some [Demo.stray_deck].
Proof.
  assert (H : forall f l, f ∈ default_pre_filters -> keeps_self (f l)).
  { intros f l Hf. apply list_elem_of_singleton in Hf. subst f.
    apply (proj1 (proj2 C3_descriptor_frame)). }
  split; [exact H|].
  destruct C3_descriptor_frame as (_ & _ & _ & _ & _ & Hp & _ & Hd & _).
  split.
  - unfold config.
    rewrite (Hp LibraryFilterHolder.timing_lib_filter default_pre_filters
                HammerTechnologyUtils.to_plain_item false true H).
    reflexivity.
  - destruct (Hd "calibre" Demo.with_stray_deck) as (_ & k & Hk & Hall & _).
    rewrite Hk. destruct k as [|k]; [reflexivity|].
    simpl in Hall. apply Forall_cons in Hall as [[p Hp'] _].
    vm_compute in Hp'. discriminate Hp'.
Defined.

(** C3 as stated fails: after [get_lvs_decks_for_tool] the descriptor holds
    the resolved path [/cache/lvs.rul] where it held [cache/lvs.rul]. *)
Lemma C3_counterexample :
  TechJSON.lvs_decks (config Demo.with_deck)
    = Some [LVSDeck.mk "calibre" "all_lvs" "cache/lvs.rul"] /\
  TechJSON.lvs_decks (config (snd (get_lvs_decks_for_tool "calibre" Demo.with_deck)))
    = Some [LVSDeck.mk "calibre" "all_lvs" "/cache/lvs.rul"] /\
  config (snd (get_lvs_decks_for_tool "calibre" Demo.with_deck)) <> config Demo.with_deck.
Proof.
  split; [reflexivity|]. split; [vm_compute; reflexivity|].
  vm_compute. discriminate.
Qed.

(** * Further properties *)

(** ** Plain paths *)

(** X1.  For the two plain kinds of path [prepend_dir_path] never looks at the
    installs, the archives, the cache directory or the library: the empty
    path fails its assertion; an absolute path is returned as it is; a
    non-empty path without a separator is looked up in the directory of the
    technology's Python package, and is returned joined to that directory
    when it is a file there, while a missing package and a missing file
    raise.  In every case the state is left as it was. *)
Theorem prepend_dir_path_plain (path : string) (lib : option Library) (w : World) :
  (path = "" ->
   prepend_dir_path path lib w = (Raise (AssertionError "path must not be empty"), w)) /\
  (Py.isabs path = true -> prepend_dir_path path lib w = (Ok path, w)) /\
  (path <> "" -> Py.contains_sep path = false ->
   prepend_dir_path path lib w =
   match packages w !! HammerTechnology.package (self w) with
   | None =>
       (Raise (ModuleNotFoundError
                 ("No module named '" +:+ HammerTechnology.package (self w) +:+ "'")), w)
   | Some d =>
       if isfile (fs w) (Py.join2 d path) then (Ok (Py.join2 d path), w)
       else (Raise (AssertionError
                      (path +:+ " wasn't found in HammerTechnology Python package "
                            +:+ HammerTechnology.package (self w))), w)
   end).
Proof.
  split; [|split].
  - intros ->. reflexivity.
  - intros Ha. unfold prepend_dir_path.
    destruct path as [|c r]; [discriminate|]. cbn [Py.nonempty negb]. cbv iota.
    rewrite Ha. reflexivity.
  - intros Hne Hs. unfold prepend_dir_path.
    destruct path as [|c r]; [contradiction|]. cbn [Py.nonempty negb]. cbv iota.
    rewrite (startswith_sep_no_sep _ Hs : Py.isabs _ = false), Hs.
    cbn [negb]. cbv iota.
    unfold bind, gets. cbv beta iota.
    destruct (packages w !! HammerTechnology.package (self w)); [|reflexivity].
    destruct (isfile (fs w) _); reflexivity.
Qed.

(** X1 at an absolute path on a technology that declares nothing. *)
Lemma prepend_dir_path_plain_witness :
  Py.isabs "/pdk/tech.lef" = true /\
  prepend_dir_path "/pdk/tech.lef" None Demo.bare = (Ok "/pdk/tech.lef", Demo.bare).
Proof.
  split; [reflexivity|].
  destruct (prepend_dir_path_plain "/pdk/tech.lef" None Demo.bare) as (_ & H & _).
  apply H. reflexivity.
Defined.

(** ** A resolved path lies under its root *)

Lemma join_step_extends (c s : string) :
  Py.startswith_sep s = false -> exists suffix, Py.join_step c s = c +:+ suffix.
Proof.
  intros H. unfold Py.join_step. rewrite H.
  destruct (String.eqb c "" || Py.endswith_sep c)%bool; eexists; reflexivity.
Qed.

Lemma join_extends (segs : list string) (c : string) :
  Forall (fun seg => Py.contains_sep seg = false) segs ->
  exists suffix, Py.join c segs = c +:+ suffix.
Proof.
  intros H. revert c. induction H as [|s r Hs _ IH]; intros c.
  - exists "". unfold Py.join. simpl. clear. induction c as [|a c IH]; [reflexivity|].
    rewrite append_cons. now rewrite <- IH.
  - destruct (join_step_extends c s (startswith_sep_no_sep s Hs)) as [x Hx].
    destruct (IH (Py.join_step c s)) as [y Hy].
    exists (x +:+ y). unfold Py.join in *. simpl. rewrite Hy, Hx.
    apply append_assoc.
Qed.

Lemma startswith_sep_join_step (c s : string) :
  Py.startswith_sep c = false -> Py.startswith_sep s = false ->
  Py.startswith_sep (Py.join_step c s) = false.
Proof.
  intros Hc Hs. unfold Py.join_step. rewrite Hs.
  destruct c as [|a c]; [simpl; rewrite append_nil_l; exact Hs|].
  destruct (String.eqb (String a c) "" || Py.endswith_sep (String a c))%bool;
    rewrite append_cons; exact Hc.
Qed.

Lemma startswith_sep_join (segs : list string) (c : string) :
  Py.startswith_sep c = false ->
  Forall (fun seg => Py.contains_sep seg = false) segs ->
  Py.startswith_sep (Py.join c segs) = false.
Proof.
  intros Hc H. revert c Hc. induction H as [|s r Hs _ IH]; intros c Hc; [exact Hc|].
  unfold Py.join in *. simpl. apply IH.
  apply startswith_sep_join_step; [exact Hc | now apply startswith_sep_no_sep].
Qed.

Lemma startswith_sep_remainder (path : string) :
  Py.startswith_sep (remainder path) = false.
Proof.
  unfold remainder, rest_of. pose proof (split_no_sep path) as H.
  destruct (Py.split path) as [|i [|a r]]; try reflexivity.
  apply Forall_cons in H as [_ H]. apply Forall_cons in H as [Ha Hr].
  apply startswith_sep_join; [now apply startswith_sep_no_sep | exact Hr].
Qed.

(** The one candidate of a prefix identifier, when its root resolves. *)
Lemma prepend_single_root (path : string) (lib : option Library) (w : World) (d : string) :
  Py.isabs path = false -> Py.contains_sep path = true ->
  prefix_id path <> "cache" ->
  candidate_roots w (prefix_id path) lib = [Some d] ->
  fst (prepend_dir_path path lib w) = Ok (Py.join2 d (remainder path)).
Proof.
  intros Ha Hs Hid Hroots.
  rewrite (prepend_prefixed_run path lib w Ha Hs Hid).
  set (id := prefix_id path). unfold candidate_roots in Hroots. fold id in Hroots.
  rewrite (join_rest_remainder path Hs).
  unfold bind at 1. rewrite install_prefixes_run. fold id.
  destruct (matching_installs w id) as [|pp l1] eqn:E1.
  - simpl mapM. cbv beta iota. unfold ret at 1. cbv beta iota.
    unfold bind at 1. rewrite tarball_prefixes_run. fold id.
    simpl in Hroots.
    destruct (matching_tarballs w id) as [|t l2] eqn:E2.
    + simpl in Hroots. simpl.
      destruct (library_prefixes id lib) as [|p [|q r]]; try discriminate.
      inversion Hroots; subst. reflexivity.
    + simpl in Hroots. inversion Hroots as [[Hr Hrest]].
      apply app_eq_nil in Hrest as [H2 H3]. apply map_eq_nil in H2, H3.
      subst l2. rewrite H3. simpl mapM.
      unfold tarball_root in Hr.
      unfold bind at 1. unfold bind at 1.
      destruct (extracted_tarballs_dir w) as [[v|e] w1]; simpl in Hr; [|discriminate].
      destruct v as [| | |s| |]; try discriminate. inversion Hr; subst.
      reflexivity.
  - simpl in Hroots. inversion Hroots as [[Hr Hrest]].
    destruct l1; [|discriminate]. simpl in Hrest.
    apply app_eq_nil in Hrest as [H2 H3]. apply map_eq_nil in H2, H3.
    unfold install_root in Hr.
    destruct (HammerTechnology._database (self w)) as [db|] eqn:Hdb; [|discriminate].
    simpl mapM. unfold bind at 1. unfold bind at 1.
    rewrite (get_setting_run w db _ Hdb). cbv beta iota.
    unfold setting. destruct (db !! PathPrefix.path pp) as [[| | |s| |]|];
      try discriminate.
    inversion Hr; subst. simpl.
    unfold bind at 1. rewrite tarball_prefixes_run. fold id.
    rewrite (matching_tarballs_self w _ id (after_get_self db _ w)).
    rewrite H2. simpl. rewrite H3. reflexivity.
Qed.

(** X2.  A path that [prepend_dir_path] resolves through a prefix keeps that
    prefix's root in front, as text: a path under [cache/] resolves to the
    cache directory followed by a suffix, and a path whose identifier has
    exactly one candidate with root [d] resolves to [d] followed by a
    suffix.  A remainder that begins with a separator cannot replace the
    root, since the remainder is joined again from its segments. *)
Theorem prepend_dir_path_under_root (path : string) (lib : option Library) (w : World) :
  (forall rest c,
     path = "cache/" +:+ rest -> HammerTechnology._cachedir (self w) = Some c ->
     exists suffix, fst (prepend_dir_path path lib w) = Ok (c +:+ suffix)) /\
  (forall d,
     Py.isabs path = false -> Py.contains_sep path = true ->
     prefix_id path <> "cache" ->
     candidate_roots w (prefix_id path) lib = [Some d] ->
     exists suffix, fst (prepend_dir_path path lib w) = Ok (d +:+ suffix)).
Proof.
  split.
  - intros rest c -> Hc. rewrite (prepend_cache_run rest lib w c Hc).
    destruct (join_extends (Py.split rest) c (split_no_sep rest)) as [x Hx].
    exists x. simpl. now rewrite Hx.
  - intros d Ha Hs Hid Hroots.
    rewrite (prepend_single_root path lib w d Ha Hs Hid Hroots).
    destruct (join_step_extends d (remainder path) (startswith_sep_remainder path))
      as [x Hx].
    exists x. unfold Py.join2, Py.join. simpl. now rewrite Hx.
Qed.

(** X2 at a path under an extra prefix of the library whose remainder begins with
    an empty segment. *)
Lemma prepend_dir_path_under_root_witness :
  exists suffix,
    fst (prepend_dir_path "lib1//etc/passwd" (Some Demo.lib1) Demo.bare)
    = Ok ("/design" +:+ suffix).
Proof.
  destruct (prepend_dir_path_under_root "lib1//etc/passwd" (Some Demo.lib1) Demo.bare)
    as [_ H].
  apply H; [reflexivity | reflexivity | discriminate | reflexivity].
Defined.

(** ** Where archives are extracted *)

Lemma cache_dir_run (w : World) :
  cache_dir w =
  (match HammerTechnology._cachedir (self w) with
   | Some d => Ok d
   | None => Raise (ValueError "Internal error: cache dir location not set by hammer-vlsi")
   end, w).
Proof.
  unfold cache_dir, bind, gets. cbv beta iota.
  destruct (HammerTechnology._cachedir (self w)); reflexivity.
Qed.

(** X3.  The directory of extracted archives is taken from the first of three
    places that gives a value other than [None]: the technology's own key
    [technology.<name>.extracted_tarballs_dir], then
    [vlsi.technology.extracted_tarballs_dir], then [extracted] under the
    cache directory.  The cache directory is only needed in the third case,
    where an unset cache directory raises; nothing but the printed output
    changes. *)
Theorem extracted_tarballs_dir_precedence (w : World) (db : gmap string json) :
  database_is db w ->
  let tech_key :=
    "technology." +:+ HammerTechnology.name (self w) +:+ ".extracted_tarballs_dir" in
  let general := setting db "vlsi.technology.extracted_tarballs_dir" in
  (setting db tech_key <> JNull ->
   fst (extracted_tarballs_dir w) = Ok (setting db tech_key)) /\
  (setting db tech_key = JNull -> general <> JNull ->
   fst (extracted_tarballs_dir w) = Ok general) /\
  (setting db tech_key = JNull -> general = JNull ->
   fst (extracted_tarballs_dir w) =
   match HammerTechnology._cachedir (self w) with
   | Some c => Ok (JStr (Py.join2 c "extracted"))
   | None => Raise (ValueError "Internal error: cache dir location not set by hammer-vlsi")
   end) /\
  same_but_stdout (snd (extracted_tarballs_dir w)) w.
Proof.
  intros Hdb tech_key general.
  assert (Hno : forall w1, same_but_stdout w1 w ->
    let r := (extracted_tarballs_dir_setting <-
                get_setting "vlsi.technology.extracted_tarballs_dir" ;;
              if PyVal.is_none extracted_tarballs_dir_setting
              then c <- cache_dir ;; ret (JStr (Py.join2 c "extracted"))
              else ret extracted_tarballs_dir_setting) w1 in
    fst r = (if PyVal.is_none general
             then match HammerTechnology._cachedir (self w) with
                  | Some c => Ok (JStr (Py.join2 c "extracted"))
                  | None => Raise (ValueError
                      "Internal error: cache dir location not set by hammer-vlsi")
                  end
             else Ok general) /\
    same_but_stdout (snd r) w).
  { intros w1 H1 r. subst r.
    assert (Hdb1 : database_is db w1).
    { unfold database_is. destruct H1 as [Hs _]. now rewrite Hs. }
    rewrite (bind_get_setting _ w1 db _ Hdb1). fold general.
    assert (H2 : same_but_stdout
                   (after_get db "vlsi.technology.extracted_tarballs_dir" w1) w).
    { etransitivity; [apply after_get_same_but_stdout | exact H1]. }
    destruct (PyVal.is_none general); [|split; [reflexivity | exact H2]].
    unfold bind at 1. unfold bind at 1. rewrite cache_dir_run.
    destruct H2 as [Hs H2]. rewrite Hs.
    destruct (HammerTechnology._cachedir (self w)); simpl;
      (split; [reflexivity | split; [exact Hs | exact H2]]). }
  assert (Hrun : extracted_tarballs_dir w =
    (let no_tech_setting : M json :=
       extracted_tarballs_dir_setting <-
         get_setting "vlsi.technology.extracted_tarballs_dir" ;;
       if PyVal.is_none extracted_tarballs_dir_setting
       then c <- cache_dir ;; ret (JStr (Py.join2 c "extracted"))
       else ret extracted_tarballs_dir_setting in
     match db !! tech_key with
     | Some v => if negb (PyVal.is_none v) then (Ok v, w) else no_tech_setting w
     | None => no_tech_setting w
     end)).
  { unfold extracted_tarballs_dir. unfold bind at 1, gets at 1. cbv beta iota zeta.
    fold tech_key. unfold bind at 1. rewrite (has_setting_run w db tech_key Hdb).
    cbv beta iota. destruct (db !! tech_key) as [v|] eqn:E; [|reflexivity].
    rewrite (bind_get_setting _ w db tech_key Hdb).
    unfold setting, after_get. rewrite E. destruct (PyVal.is_none v); reflexivity. }
  rewrite Hrun. cbv zeta. unfold setting at 1 2 3 4.
  destruct (Hno w ltac:(reflexivity)) as [Hf Hs]. cbv zeta in Hf, Hs.
  destruct (db !! tech_key) as [v|] eqn:E.
  - cbv iota. destruct (PyVal.is_none v) eqn:Ev; cbn [negb]; cbv iota.
    + destruct v; try discriminate.
      split; [intros H; contradiction|].
      split; [intros _ H; rewrite Hf; destruct general; try contradiction; reflexivity|].
      split; [intros _ H; rewrite Hf, H; reflexivity | exact Hs].
    + split; [reflexivity|].
      split; [intros H; subst v; discriminate|].
      split; [intros H; subst v; discriminate | reflexivity].
  - cbv iota. split; [intros H; contradiction|].
    split; [intros _ H; rewrite Hf; destruct general; try contradiction; reflexivity|].
    split; [intros _ H; rewrite Hf, H; reflexivity | exact Hs].
Qed.

(** X3 at a technology without cache directory whose own key is set. *)
Lemma extracted_tarballs_dir_precedence_witness :
  database_is (<[ "technology.demo.extracted_tarballs_dir" := JStr "/x" ]> Demo.db)
    Demo.extracted_dir_set /\
  fst (extracted_tarballs_dir Demo.extracted_dir_set) = Ok (JStr "/x").
Proof.
  split; [reflexivity|].
  pose proof (extracted_tarballs_dir_precedence Demo.extracted_dir_set
    (<[ "technology.demo.extracted_tarballs_dir" := JStr "/x" ]> Demo.db) eq_refl) as H.
  cbv zeta in H. destruct H as [H _].
  etransitivity; [apply H; vm_compute; discriminate | vm_compute; reflexivity].
Defined.

(** ** Calling a deck accessor again *)

Lemma prepend_abs_run (path : string) (lib : option Library) (w : World) :
  Py.isabs path = true -> prepend_dir_path path lib w = (Ok path, w).
Proof.
  intros Ha. unfold prepend_dir_path.
  destruct path as [|c r]; [discriminate|]. cbn [Py.nonempty negb]. cbv iota.
  rewrite Ha. reflexivity.
Qed.

Lemma LVSDeck_set_path_same (d : LVSDeck) : LVSDeck.set_path (LVSDeck.path d) d = d.
Proof. now destruct d. Qed.

Lemma set_lvs_decks_same (w1 w : World) :
  same_but_lvs_decks w1 w ->
  forall w2, same_but_lvs_decks w2 w1 ->
  TechJSON.lvs_decks (config w2) = TechJSON.lvs_decks (config w1) ->
  self w2 = self w1.
Proof.
  intros _ w2 (A & _) H. rewrite A, H. unfold config.
  destruct (self w1) as [n p c cd hl db]. destruct c. reflexivity.
Qed.

(** A first call of [get_lvs_decks_for_tool] whose paths all resolve. *)
Lemma get_lvs_decks_resolved (tool_name : string) (w : World) (l : list LVSDeck) :
  TechJSON.lvs_decks (config w) = Some l ->
  Forall (fun d => resolves w (LVSDeck.path d)) l ->
  let r := get_lvs_decks_for_tool tool_name w in
  let now := map (fun d => LVSDeck.set_path (resolved_path w (LVSDeck.path d)) d) l in
  fst r = Ok (filter (fun x : LVSDeck => LVSDeck.tool_name x = tool_name) now) /\
  TechJSON.lvs_decks (config (snd r)) = Some now /\
  same_but_lvs_decks (snd r) w.
Proof.
  intros Hl HF r now.
  assert (Hrun : r = match resolve_lvs_decks 0 l w with
                     | (Ok _, w1) =>
                         (Ok (filter (fun x : LVSDeck => LVSDeck.tool_name x = tool_name)
                                (or_nil (TechJSON.lvs_decks (config w1)))), w1)
                     | (Raise e, w1) => (Raise e, w1)
                     end).
  { subst r. unfold get_lvs_decks_for_tool.
    unfold bind at 1, gets at 1. cbv beta iota. rewrite Hl.
    unfold bind at 1. destruct (resolve_lvs_decks 0 l w) as [[[]|e] w1]; reflexivity. }
  rewrite Hrun. clear Hrun r.
  destruct (resolve_lvs_decks_spec w l [] w Hl (same_but_lvs_decks_refl w))
    as (Hsame & k & Hk & Hall & _).
  simpl length in *. simpl app in Hk.
  destruct (Hall HF) as [Hok ->]. rewrite firstn_all, drop_all, app_nil_r in Hk.
  destruct (resolve_lvs_decks 0 l w) as [[[]|e] w1]; simpl in *; [|discriminate].
  rewrite Hk. repeat split; try reflexivity; apply Hsame.
Qed.

Lemma get_lvs_decks_again (tool_name other : string) (w : World) (l : list LVSDeck) :
  TechJSON.lvs_decks (config w) = Some l ->
  Forall (fun d => resolves w (LVSDeck.path d) /\
                   Py.isabs (resolved_path w (LVSDeck.path d)) = true) l ->
  let w1 := snd (get_lvs_decks_for_tool tool_name w) in
  let r2 := get_lvs_decks_for_tool other w1 in
  fst r2 = fst (get_lvs_decks_for_tool other w) /\ self (snd r2) = self w1.
Proof.
  intros Hl HF w1 r2.
  assert (HF1 : Forall (fun d => resolves w (LVSDeck.path d)) l)
    by (eapply Forall_impl; [exact HF | now intros d [H _]]).
  destruct (get_lvs_decks_resolved tool_name w l Hl HF1) as (_ & Hd1 & Hs1).
  destruct (get_lvs_decks_resolved other w l Hl HF1) as (Hr & _ & _).
  fold w1 in Hd1, Hs1. cbv zeta in Hr. rewrite Hr.
  set (now := map (fun d => LVSDeck.set_path (resolved_path w (LVSDeck.path d)) d) l) in *.
  assert (Habs : Forall (fun d => Py.isabs (LVSDeck.path d) = true) now).
  { subst now. apply Forall_map. eapply Forall_impl; [exact HF|].
    intros [t n p] [_ H]. exact H. }
  assert (Hres : forall d, Py.isabs (LVSDeck.path d) = true ->
            resolves w1 (LVSDeck.path d) /\ resolved_path w1 (LVSDeck.path d) = LVSDeck.path d).
  { intros d H. unfold resolves, resolved_path.
    rewrite (prepend_abs_run _ None w1 H). simpl. split; [now eexists | reflexivity]. }
  assert (HF2 : Forall (fun d => resolves w1 (LVSDeck.path d)) now)
    by (eapply Forall_impl; [exact Habs | intros d H; now apply Hres]).
  destruct (get_lvs_decks_resolved other w1 now Hd1 HF2) as (Hr2 & Hd2 & Hs2).
  fold r2 in Hr2, Hd2, Hs2.
  assert (Hid : map (fun d => LVSDeck.set_path (resolved_path w1 (LVSDeck.path d)) d) now
                = now).
  { clear -Habs Hres. induction Habs as [|d r Hd _ IH]; [reflexivity|].
    simpl. rewrite IH. destruct (Hres d Hd) as [_ ->].
    now rewrite LVSDeck_set_path_same. }
  rewrite Hid in Hr2, Hd2. split; [exact Hr2|].
  apply (set_lvs_decks_same w1 w Hs1 (snd r2) Hs2). now rewrite Hd2, Hd1.
Qed.

Lemma DRCDeck_set_path_same (d : DRCDeck) : DRCDeck.set_path (DRCDeck.path d) d = d.
Proof. now destruct d. Qed.

Lemma set_drc_decks_same (w1 w : World) :
  same_but_drc_decks w1 w ->
  forall w2, same_but_drc_decks w2 w1 ->
  TechJSON.drc_decks (config w2) = TechJSON.drc_decks (config w1) ->
  self w2 = self w1.
Proof.
  intros _ w2 (A & _) H. rewrite A, H. unfold config.
  destruct (self w1) as [n p c cd hl db]. destruct c. reflexivity.
Qed.

(** A first call of [get_drc_decks_for_tool] whose paths all resolve. *)
Lemma get_drc_decks_resolved (tool_name : string) (w : World) (l : list DRCDeck) :
  TechJSON.drc_decks (config w) = Some l ->
  Forall (fun d => resolves w (DRCDeck.path d)) l ->
  let r := get_drc_decks_for_tool tool_name w in
  let now := map (fun d => DRCDeck.set_path (resolved_path w (DRCDeck.path d)) d) l in
  fst r = Ok (filter (fun x : DRCDeck => DRCDeck.tool_name x = tool_name) now) /\
  TechJSON.drc_decks (config (snd r)) = Some now /\
  same_but_drc_decks (snd r) w.
Proof.
  intros Hl HF r now.
  assert (Hrun : r = match resolve_drc_decks 0 l w with
                     | (Ok _, w1) =>
                         (Ok (filter (fun x : DRCDeck => DRCDeck.tool_name x = tool_name)
                                (or_nil (TechJSON.drc_decks (config w1)))), w1)
                     | (Raise e, w1) => (Raise e, w1)
                     end).
  { subst r. unfold get_drc_decks_for_tool.
    unfold bind at 1, gets at 1. cbv beta iota. rewrite Hl.
    unfold bind at 1. destruct (resolve_drc_decks 0 l w) as [[[]|e] w1]; reflexivity. }
  rewrite Hrun. clear Hrun r.
  destruct (resolve_drc_decks_spec w l [] w Hl (same_but_drc_decks_refl w))
    as (Hsame & k & Hk & Hall & _).
  simpl length in *. simpl app in Hk.
  destruct (Hall HF) as [Hok ->]. rewrite firstn_all, drop_all, app_nil_r in Hk.
  destruct (resolve_drc_decks 0 l w) as [[[]|e] w1]; simpl in *; [|discriminate].
  rewrite Hk. repeat split; try reflexivity; apply Hsame.
Qed.

Lemma get_drc_decks_again (tool_name other : string) (w : World) (l : list DRCDeck) :
  TechJSON.drc_decks (config w) = Some l ->
  Forall (fun d => resolves w (DRCDeck.path d) /\
                   Py.isabs (resolved_path w (DRCDeck.path d)) = true) l ->
  let w1 := snd (get_drc_decks_for_tool tool_name w) in
  let r2 := get_drc_decks_for_tool other w1 in
  fst r2 = fst (get_drc_decks_for_tool other w) /\ self (snd r2) = self w1.
Proof.
  intros Hl HF w1 r2.
  assert (HF1 : Forall (fun d => resolves w (DRCDeck.path d)) l)
    by (eapply Forall_impl; [exact HF | now intros d [H _]]).
  destruct (get_drc_decks_resolved tool_name w l Hl HF1) as (_ & Hd1 & Hs1).
  destruct (get_drc_decks_resolved other w l Hl HF1) as (Hr & _ & _).
  fold w1 in Hd1, Hs1. cbv zeta in Hr. rewrite Hr.
  set (now := map (fun d => DRCDeck.set_path (resolved_path w (DRCDeck.path d)) d) l) in *.
  assert (Habs : Forall (fun d => Py.isabs (DRCDeck.path d) = true) now).
  { subst now. apply Forall_map. eapply Forall_impl; [exact HF|].
    intros [t n p] [_ H]. exact H. }
  assert (Hres : forall d, Py.isabs (DRCDeck.path d) = true ->
            resolves w1 (DRCDeck.path d) /\ resolved_path w1 (DRCDeck.path d) = DRCDeck.path d).
  { intros d H. unfold resolves, resolved_path.
    rewrite (prepend_abs_run _ None w1 H). simpl. split; [now eexists | reflexivity]. }
  assert (HF2 : Forall (fun d => resolves w1 (DRCDeck.path d)) now)
    by (eapply Forall_impl; [exact Habs | intros d H; now apply Hres]).
  destruct (get_drc_decks_resolved other w1 now Hd1 HF2) as (Hr2 & Hd2 & Hs2).
  fold r2 in Hr2, Hd2, Hs2.
  assert (Hid : map (fun d => DRCDeck.set_path (resolved_path w1 (DRCDeck.path d)) d) now
                = now).
  { clear -Habs Hres. induction Habs as [|d r Hd _ IH]; [reflexivity|].
    simpl. rewrite IH. destruct (Hres d Hd) as [_ ->].
    now rewrite DRCDeck_set_path_same. }
  rewrite Hid in Hr2, Hd2. split; [exact Hr2|].
  apply (set_drc_decks_same w1 w Hs1 (snd r2) Hs2). now rewrite Hd2, Hd1.
Qed.

(** X4.  When every deck path resolves to an absolute path, calling
    [get_lvs_decks_for_tool] (resp. [get_drc_decks_for_tool]) after an
    earlier call, for the same tool or another, returns what a first call
    would have returned and leaves the technology object as the earlier call
    left it: the paths stored by the first call resolve to themselves. *)
Theorem deck_accessors_again (tool_name other : string) (w : World) :
  (forall l,
     TechJSON.lvs_decks (config w) = Some l ->
     Forall (fun d => resolves w (LVSDeck.path d) /\
                      Py.isabs (resolved_path w (LVSDeck.path d)) = true) l ->
     let w1 := snd (get_lvs_decks_for_tool tool_name w) in
     fst (get_lvs_decks_for_tool other w1) = fst (get_lvs_decks_for_tool other w) /\
     self (snd (get_lvs_decks_for_tool other w1)) = self w1) /\
  (forall l,
     TechJSON.drc_decks (config w) = Some l ->
     Forall (fun d => resolves w (DRCDeck.path d) /\
                      Py.isabs (resolved_path w (DRCDeck.path d)) = true) l ->
     let w1 := snd (get_drc_decks_for_tool tool_name w) in
     fst (get_drc_decks_for_tool other w1) = fst (get_drc_decks_for_tool other w) /\
     self (snd (get_drc_decks_for_tool other w1)) = self w1).
Proof.
  split; intros l Hl HF.
  - exact (get_lvs_decks_again tool_name other w l Hl HF).
  - exact (get_drc_decks_again tool_name other w l Hl HF).
Qed.

(** X4 at a deck under the cache directory, looked up twice. *)
Lemma deck_accessors_again_witness :
  fst (get_lvs_decks_for_tool "calibre"
         (snd (get_lvs_decks_for_tool "calibre" Demo.with_deck)))
  = Ok [LVSDeck.mk "calibre" "all_lvs" "/cache/lvs.rul"].
Proof.
  destruct (deck_accessors_again "calibre" "calibre" Demo.with_deck) as [H _].
  destruct (H [Demo.cache_deck] eq_refl) as [H1 _].
  - repeat constructor. now exists "/cache/lvs.rul".
  - cbv zeta in H1. rewrite H1. vm_compute. reflexivity.
Defined.

(** The hypothesis on absolute paths is needed: with a relative cache
    directory the first call stores a relative path, whose first segment
    the second call takes for a prefix identifier. *)
Example deck_accessor_relative_cache :
  let w := set_self (set_cachedir "build" (self Demo.with_deck)) Demo.with_deck in
  fst (get_lvs_decks_for_tool "calibre" w)
    = Ok [LVSDeck.mk "calibre" "all_lvs" "build/lvs.rul"] /\
  fst (get_lvs_decks_for_tool "calibre" (snd (get_lvs_decks_for_tool "calibre" w)))
    = Raise (ValueError
        "Path build/lvs.rul with prefix id build did not match any tarballs or installs").
Proof. vm_compute. split; reflexivity. Qed.

(** ** The first archive that fails *)

Lemma extract_tarballs_stop (l1 l2 : list Tarball) (bad : Tarball) (src tgt : string)
    (w : World) :
  (forall t, t ∈ l1 -> materialized w t) ->
  tarball_source w bad = Some src -> tarball_root w bad = Some tgt ->
  isfile (fs w) src = false -> Tarball.optional bad = false ->
  exists w',
    forM extract_tarball (l1 ++ bad :: l2) w
      = (Raise (ValueError ("Path " +:+ src +:+ " does not point to a valid tarball!")), w') /\
    same_but_stdout w' w.
Proof.
  revert w. induction l1 as [|t l1 IH]; intros w H Hs Ht Hf Ho.
  - destruct (extract_tarball_run bad w src tgt Hs Ht) as (w1 & Hw1 & Hrun).
    exists w1. split; [|exact Hw1].
    simpl. unfold bind. rewrite Hrun, Hf, Ho. reflexivity.
  - destruct (H t ltac:(left)) as (src' & tgt' & Hs' & Ht' & Hc).
    destruct (extract_tarball_run t w src' tgt' Hs' Ht') as (w1 & Hw1 & Hrun).
    assert (Hstep : extract_tarball t w = (Ok tt, w1)).
    { rewrite Hrun. destruct Hc as [[-> ->] | [-> ->]]; reflexivity. }
    assert (Hw : same_but_stdout w w1) by now symmetry.
    destruct (IH w1) as (w' & Hrest & Hw').
    + intros t' Hin. apply (materialized_same w w1 t' Hw). apply H. now right.
    + now rewrite <- (tarball_source_same w w1 bad Hw).
    + now rewrite <- (tarball_root_same w w1 bad Hw).
    + destruct Hw1 as (_ & _ & -> & _). exact Hf.
    + exact Ho.
    + exists w'. split; [|etransitivity; eassumption].
      simpl. unfold bind. rewrite Hstep. exact Hrest.
Qed.

(** X5.  [extract_tarballs] goes through the declared archives in order and
    stops at the first required archive whose source is absent: when the
    archives before it need no work, it raises the error of that archive and
    leaves the file system and the log untouched, whatever archives are
    declared after it. *)
Theorem extract_tarballs_first_failure (w : World) (l1 l2 : list Tarball)
    (bad : Tarball) (src tgt : string) :
  or_nil (TechJSON.tarballs (config w)) = l1 ++ bad :: l2 ->
  (forall t, t ∈ l1 -> materialized w t) ->
  tarball_source w bad = Some src -> tarball_root w bad = Some tgt ->
  isfile (fs w) src = false -> Tarball.optional bad = false ->
  fst (extract_tarballs w)
    = Raise (ValueError ("Path " +:+ src +:+ " does not point to a valid tarball!")) /\
  same_but_stdout (snd (extract_tarballs w)) w.
Proof.
  intros Hl H Hs Ht Hf Ho.
  change (extract_tarballs w)
    with ((if negb (truthy_list (TechJSON.tarballs (config w))) then ret tt
           else forM extract_tarball (or_nil (TechJSON.tarballs (config w)))) w).
  assert (Htr : truthy_list (TechJSON.tarballs (config w)) = true).
  { destruct (TechJSON.tarballs (config w)) as [[|x r]|]; simpl in Hl;
      try reflexivity; destruct l1; discriminate. }
  rewrite Htr, Hl. cbn [negb]. cbv iota.
  destruct (extract_tarballs_stop l1 l2 bad src tgt w H Hs Ht Hf Ho) as (w' & Hrun & Hw').
  rewrite Hrun. split; [reflexivity | exact Hw'].
Qed.

(** X5 at an extracted archive followed by one without source. *)
Lemma extract_tarballs_first_failure_witness :
  fst (extract_tarballs Demo.half_extracted)
    = Raise (ValueError "Path /tarballs/io.tar does not point to a valid tarball!") /\
  fs (snd (extract_tarballs Demo.half_extracted)) = fs Demo.half_extracted.
Proof.
  destruct (extract_tarballs_first_failure Demo.half_extracted [Demo.archive] []
              Demo.io_archive "/tarballs/io.tar" "/cache/extracted/io.tar")
    as [H1 H2]; try reflexivity.
  - intros t Ht. apply list_elem_of_singleton in Ht. subst t.
    exists "/tarballs/pdk.tar", "/cache/extracted/pdk.tar".
    split; [reflexivity|]. split; [reflexivity|]. left. split; reflexivity.
  - split; [exact H1 | apply H2].
Defined.

(** ** An archive that is extracted *)

Lemma log_nested_run (nested : list string) (w : World) :
  HammerTechnology.has_logger (self w) = true ->
  exists w',
    forM (fun file => log_msg DEBUG "Extracting/verifying tarball %s" [AStr file]) nested w
      = (Ok tt, w') /\
    self w' = self w /\ fs w' = fs w /\
    log w' = log w ++ map (fun file => mkLog DEBUG "Extracting/verifying tarball %s"
                                             [AStr file]) nested.
Proof.
  revert w. induction nested as [|file nested IH]; intros w Hl.
  - exists w. repeat split. simpl. now rewrite app_nil_r.
  - simpl forM. unfold bind at 1. rewrite (log_msg_run _ _ _ w Hl).
    destruct (IH (add_log (mkLog DEBUG "Extracting/verifying tarball %s" [AStr file]) w) Hl)
      as (w' & Hrun & Hs & Hf & Hlog).
    exists w'. rewrite Hrun. repeat split; try assumption.
    rewrite Hlog. simpl. now rewrite <- app_assoc.
Qed.

(** X6.  For an archive whose source is present and whose target directory is
    not, one round of [extract_tarballs] makes the target directory, logs
    the archive at DEBUG level, extracts it and logs every nested archive
    that the walk comes to.  When making the directory fails, the error is
    raised with nothing logged, on the file system that the failed
    [os.makedirs] left; otherwise the round ends as the extraction does, on
    the file system it left, with the archive and the nested archives that
    were reached in the log, whether the extraction succeeded or not. *)
Theorem extract_tarball_extracts (t : Tarball) (w : World) (src tgt : string) :
  tarball_source w t = Some src -> tarball_root w t = Some tgt ->
  isfile (fs w) src = true -> isdir (fs w) tgt = false ->
  HammerTechnology.has_logger (self w) = true ->
  let r := extract_tarball t w in
  let started := mkLog DEBUG "Extracting/verifying tarball %s" [AStr src] in
  let '(made, f1) := makedirs (os w) tgt (fs w) in
  match made with
  | Raise e => fst r = Raise e /\ fs (snd r) = f1 /\ log (snd r) = log w
  | Ok _ =>
      let '(extracted, f2, nested) := extract_tree (os w) src tgt f1 in
      fst r = extracted /\ fs (snd r) = f2 /\
      log (snd r) = log w ++ started ::
        map (fun file => mkLog DEBUG "Extracting/verifying tarball %s" [AStr file])
            nested
  end.
Proof.
  intros Hs Ht Hf Hd Hl r started. subst r.
  destruct (extract_tarball_run t w src tgt Hs Ht) as (w1 & Hw1 & Hrun).
  rewrite Hrun, Hf, Hd. cbn [negb]. cbv iota. clear Hrun.
  destruct Hw1 as (Hself & _ & Hfs & Hos & _ & Hlog).
  assert (Hl1 : forall f, HammerTechnology.has_logger (self (set_fs f w1)) = true)
    by (intros f; simpl; now rewrite Hself).
  assert (Hk :
    (o <- gets os ;;
     let '(made, f1) := makedirs o tgt (fs w) in
     modify (set_fs f1) ;;;
     lift made ;;;
     log_msg DEBUG "Extracting/verifying tarball %s" [AStr src] ;;;
     let '(extracted, f2, nested) := extract_tree o src tgt f1 in
     modify (set_fs f2) ;;;
     forM (fun file => log_msg DEBUG "Extracting/verifying tarball %s" [AStr file])
          nested ;;;
     lift extracted) w1 =
    let '(made, f1) := makedirs (os w) tgt (fs w) in
    match made with
    | Raise e => (Raise e, set_fs f1 w1)
    | Ok _ =>
        let '(extracted, f2, nested) := extract_tree (os w) src tgt f1 in
        (forM (fun file => log_msg DEBUG "Extracting/verifying tarball %s" [AStr file])
              nested ;;;
         lift extracted) (set_fs f2 (add_log started (set_fs f1 w1)))
    end).
  { unfold bind at 1, gets at 1. cbv beta iota. rewrite Hos.
    destruct (makedirs (os w) tgt (fs w)) as [made f1].
    unfold bind at 1, modify at 1. cbv beta iota.
    unfold bind at 1, lift at 1. destruct made as [[]|e]; cbv beta iota; [|reflexivity].
    unfold bind at 1. rewrite (log_msg_run _ _ _ _ (Hl1 f1)). cbv beta iota.
    fold started.
    destruct (extract_tree (os w) src tgt f1) as [[extracted f2] nested].
    reflexivity. }
  rewrite Hk. clear Hk.
  destruct (makedirs (os w) tgt (fs w)) as [[[]|e] f1].
  2:{ repeat split. exact Hlog. }
  destruct (extract_tree (os w) src tgt f1) as [[extracted f2] nested].
  destruct (log_nested_run nested (set_fs f2 (add_log started (set_fs f1 w1))))
    as (w' & Hrun' & _ & Hf' & Hlog'); [simpl; now rewrite Hself|].
  unfold bind. rewrite Hrun'. unfold lift. simpl. rewrite Hf', Hlog'. simpl. rewrite Hlog.
  repeat split. now rewrite <- app_assoc.
Qed.

(** X6 at an archive with its source, on a system where [makedirs] makes the
    directory and the archive is empty. *)
Lemma extract_tarball_extracts_witness :
  fst (extract_tarball Demo.archive Demo.not_extracted) = Ok tt /\
  isdir (fs (snd (extract_tarball Demo.archive Demo.not_extracted)))
        "/cache/extracted/pdk.tar" = true.
Proof.
  pose proof (extract_tarball_extracts Demo.archive Demo.not_extracted
                "/tarballs/pdk.tar" "/cache/extracted/pdk.tar"
                eq_refl eq_refl eq_refl eq_refl eq_refl) as H.
  cbv zeta in H. simpl makedirs in H. simpl extract_tree in H. cbv beta iota in H.
  destruct H as (H1 & H2 & _). split; [exact H1|]. rewrite H2. reflexivity.
Defined.

(** ** Declared, but empty *)

(** X7.  [extract_technology_files] raises exactly on a descriptor that has
    neither an [installs] nor a [tarballs] entry.  An entry that is present
    but empty counts as declared: with one of them present and both empty
    or absent, it returns without raising and changes nothing, whether or
    not a database or a logger is set. *)
Theorem extract_technology_files_declared (w : World) :
  (TechJSON.installs (config w) = None -> TechJSON.tarballs (config w) = None ->
   extract_technology_files w
     = (Raise (ValueError "Technology specified neither tarballs nor installs"), w)) /\
  (TechJSON.installs (config w) <> None \/ TechJSON.tarballs (config w) <> None ->
   truthy_list (TechJSON.installs (config w)) = false ->
   truthy_list (TechJSON.tarballs (config w)) = false ->
   extract_technology_files w = (Ok tt, w)).
Proof.
  split.
  - intros Hi Ht. unfold extract_technology_files, bind, gets. cbv beta iota.
    rewrite Hi, Ht. reflexivity.
  - intros Hd Hi Ht.
    destruct (TechJSON.installs (config w)) as [[|a i]|] eqn:Ei;
      destruct (TechJSON.tarballs (config w)) as [[|b t]|] eqn:Et;
      try discriminate; try (destruct Hd; contradiction);
      unfold extract_technology_files, check_installs, extract_tarballs, bind, gets;
      cbv beta iota; rewrite ?Ei, ?Et; cbn [truthy_list negb]; cbv iota;
      unfold ret; cbv beta iota; rewrite ?Et; reflexivity.
Qed.

(** X7 at a descriptor whose [installs] entry is the empty list. *)
Lemma extract_technology_files_declared_witness :
  extract_technology_files (Demo.world (Demo.config (Some []) None None None) ∅)
  = (Ok tt, Demo.world (Demo.config (Some []) None None None) ∅).
Proof.
  destruct (extract_technology_files_declared
              (Demo.world (Demo.config (Some []) None None None) ∅)) as [_ H].
  apply H; [left; discriminate | reflexivity | reflexivity].
Defined.

(** ** The available libraries *)

Lemma allocated_more_refl (w : World) : allocated_more w w.
Proof. unfold allocated_more. repeat split; reflexivity. Qed.

Lemma allocated_more_trans (w2 w1 w : World) :
  allocated_more w2 w1 -> allocated_more w1 w -> allocated_more w2 w.
Proof.
  intros (A & B & C & D & E & F & G) (A' & B' & C' & D' & E' & F' & G').
  unfold allocated_more. rewrite A, C, D, E, F, G.
  repeat split; try assumption. now transitivity (heap w1).
Qed.

Lemma allocated_more_fresh (w : World) (lib : Library) :
  allocated_more (set_heap (<[fresh (dom (heap w)) := lib]> (heap w)) w) w.
Proof.
  unfold allocated_more. simpl. repeat split; try reflexivity.
  apply insert_subseteq, fresh_not_in_heap.
Qed.

Lemma ExtraLibrary_parse_obj_run (d : json) (w : World) :
  ExtraLibrary_parse_obj d w =
  match declared_extra d with
  | Ok p => (Ok (ExtraLibrary.mk (fst p) (fresh (dom (heap w)))),
             set_heap (<[fresh (dom (heap w)) := snd p]> (heap w)) w)
  | Raise e => (Raise e, w)
  end.
Proof.
  unfold ExtraLibrary_parse_obj, declared_extra.
  unfold bind, lift, gets, modify, ret. cbv beta iota.
  destruct (Pydantic.parse_obj ExtraLibrary_parse "ExtraLibrary" d); reflexivity.
Qed.

Lemma mapM_cons {A B} (f : A -> M B) (x : A) (r : list A) :
  mapM f (x :: r) = (y <- f x ;; ys <- mapM f r ;; ret (y :: ys)).
Proof. reflexivity. Qed.

Lemma rmap_list_cons {A B} (f : A -> Result B) (x : A) (r : list A) :
  rmap_list f (x :: r)
  = rbind (f x) (fun y => rbind (rmap_list f r) (fun ys => Ok (y :: ys))).
Proof. reflexivity. Qed.

(** The objects that [get_extra_libraries] builds hold what the settings
    declare. *)
Lemma parse_extra_libraries_run (l : list json) (w : World) :
  exists w', allocated_more w' w /\
    match rmap_list declared_extra l with
    | Ok ps =>
        exists els, mapM ExtraLibrary_parse_obj l w = (Ok els, w') /\
          Forall2 (fun el p => ExtraLibrary.prefix el = fst p /\
                               heap w' !! ExtraLibrary.library el = Some (snd p)) els ps
    | Raise e => mapM ExtraLibrary_parse_obj l w = (Raise e, w')
    end.
Proof.
  revert w. induction l as [|d l IH]; intros w.
  - exists w. split; [apply allocated_more_refl|]. exists []. split; [reflexivity|constructor].
  - assert (Hcons : mapM ExtraLibrary_parse_obj (d :: l) w =
      match declared_extra d with
      | Ok p =>
          match mapM ExtraLibrary_parse_obj l
                  (set_heap (<[fresh (dom (heap w)) := snd p]> (heap w)) w) with
          | (Ok els, w') =>
              (Ok (ExtraLibrary.mk (fst p) (fresh (dom (heap w))) :: els), w')
          | (Raise e, w') => (Raise e, w')
          end
      | Raise e => (Raise e, w)
      end).
    { rewrite mapM_cons. unfold bind at 1. rewrite ExtraLibrary_parse_obj_run.
      destruct (declared_extra d) as [p|e]; [|reflexivity]. reflexivity. }
    rewrite Hcons, rmap_list_cons. clear Hcons.
    destruct (declared_extra d) as [p|e]; cbn [rbind]; cbv beta iota.
    + set (w1 := set_heap (<[fresh (dom (heap w)) := snd p]> (heap w)) w).
      destruct (IH w1) as (w' & Hw' & Hrest).
      exists w'. split.
      { apply (allocated_more_trans w' w1 w Hw'), allocated_more_fresh. }
      destruct (rmap_list declared_extra l) as [ps|e]; cbn [rbind]; cbv beta iota.
      * destruct Hrest as (els & Hrun & HF).
        exists (ExtraLibrary.mk (fst p) (fresh (dom (heap w))) :: els).
        rewrite Hrun. split; [reflexivity|].
        constructor; [|exact HF]. simpl. split; [reflexivity|].
        destruct Hw' as (_ & Hsub & _).
        apply (lookup_weaken (heap w1)); [|exact Hsub].
        subst w1. simpl. apply lookup_insert_eq.
      * now rewrite Hrest.
    + exists w. split; [apply allocated_more_refl | reflexivity].
Qed.

Lemma store_and_deref_run (el : ExtraLibrary) (lib : Library) (w : World) :
  heap w !! ExtraLibrary.library el = Some lib ->
  (l <- store_into_library el ;; deref l) w =
  (Ok (with_prefix (ExtraLibrary.prefix el, lib)),
   set_heap (<[fresh (dom (heap w)) := with_prefix (ExtraLibrary.prefix el, lib)]> (heap w))
            w).
Proof.
  intros Hlib.
  unfold store_into_library, copy_library, deref, bind, gets, lift, modify, ret.
  cbv beta iota. rewrite Hlib. cbv beta iota. rewrite Library_round.
  cbv beta iota. unfold set_heap. simpl.
  rewrite alter_insert_eq, lookup_insert_eq. unfold with_prefix. simpl.
  destruct (ExtraLibrary.prefix el); reflexivity.
Qed.

Lemma store_extra_libraries_run (els : list ExtraLibrary)
    (ps : list (option PathPrefix * Library)) (w : World) :
  Forall2 (fun el p => ExtraLibrary.prefix el = fst p /\
                       heap w !! ExtraLibrary.library el = Some (snd p)) els ps ->
  exists w', allocated_more w' w /\
    mapM (fun el => l <- store_into_library el ;; deref l) els w
      = (Ok (map with_prefix ps), w').
Proof.
  intros H. revert w H. revert ps. induction els as [|el els IH]; intros ps w H.
  - inversion H; subst. exists w. split; [apply allocated_more_refl | reflexivity].
  - inversion H as [|? p ? ps' [Hp Hl] Hrest]; subst.
    simpl mapM. unfold bind at 1. rewrite (store_and_deref_run el (snd p) w Hl).
    set (w1 := set_heap _ w).
    destruct (IH ps' w1) as (w' & Hw' & Hrun).
    { eapply Forall2_impl; [exact Hrest|]. intros el' p' [A B]. split; [exact A|].
      apply (lookup_weaken (heap w)); [exact B|].
      subst w1. simpl. apply insert_subseteq, fresh_not_in_heap. }
    exists w'. split.
    { apply (allocated_more_trans w' w1 w Hw'), allocated_more_fresh. }
    unfold bind at 1. rewrite Hrun. simpl. unfold ret. rewrite Hp.
    now destruct p.
Qed.

Lemma get_extra_libraries_run (w : World) (db : gmap string json) :
  database_is db w ->
  get_extra_libraries w =
  match db !! "vlsi.technology.extra_libraries" with
  | None => (Ok [], w)
  | Some (JArr l) => mapM ExtraLibrary_parse_obj l w
  | Some _ => (Raise (ValueError "extra_libraries was not a list"), w)
  end.
Proof.
  intros Hdb. unfold get_extra_libraries. unfold bind at 1.
  rewrite (has_setting_run w db _ Hdb).
  destruct (db !! "vlsi.technology.extra_libraries") as [v|] eqn:E; cbn [negb]; cbv iota;
    [|reflexivity].
  rewrite (bind_get_setting _ w db _ Hdb). unfold setting, after_get. rewrite E.
  destruct v; reflexivity.
Qed.

Lemma get_available_libraries_run (w : World) (db : gmap string json) :
  database_is db w ->
  exists w', allocated_more w' w /\
    get_available_libraries w = (available (config w) db, w').
Proof.
  intros Hdb. unfold get_available_libraries, available.
  unfold bind at 1. rewrite tech_defined_libraries_run. cbv beta iota.
  unfold bind at 1. rewrite (get_extra_libraries_run w db Hdb).
  destruct (db !! "vlsi.technology.extra_libraries") as [v|] eqn:E.
  - destruct v as [| | | |l|]; try (exists w; split; [apply allocated_more_refl|reflexivity]).
    destruct (parse_extra_libraries_run l w) as (w1 & Hw1 & Hparse).
    destruct (rmap_list declared_extra l) as [ps|e].
    + destruct Hparse as (els & Hrun & HF).
      destruct (store_extra_libraries_run els ps w1 HF) as (w2 & Hw2 & Hstore).
      exists w2. split; [exact (allocated_more_trans w2 w1 w Hw2 Hw1)|].
      rewrite Hrun. unfold bind at 1. rewrite Hstore. reflexivity.
    + exists w1. split; [exact Hw1|]. now rewrite Hparse.
  - exists w. split; [apply allocated_more_refl|].
    cbv beta iota. unfold bind, ret. simpl. now rewrite app_nil_r.
Qed.

(** X8.  [get_available_libraries] returns the libraries of the descriptor, in
    order, followed by the libraries that the settings declare under
    [vlsi.technology.extra_libraries], in order, each with its declared
    prefix as its only extra prefix (none when no prefix is declared).  A
    value that is not a list raises [ValueError], a malformed entry raises
    the validation error of its first bad field.  The call only allocates
    objects: the objects that were there, the technology object, the file
    system, the log and the printed output are as before. *)
Theorem get_available_libraries_spec (w : World) (db : gmap string json) :
  database_is db w ->
  fst (get_available_libraries w) = available (config w) db /\
  allocated_more (snd (get_available_libraries w)) w.
Proof.
  intros Hdb. destruct (get_available_libraries_run w db Hdb) as (w' & Hw' & Hrun).
  rewrite Hrun. split; [reflexivity | exact Hw'].
Qed.

(** X8 at a technology with one library of its own and one extra library. *)
Lemma get_available_libraries_spec_witness :
  database_is Demo.db_extra Demo.with_extra /\
  fst (get_available_libraries Demo.with_extra)
  = Ok [Demo.timing_lib (Some "/pdk/ccs.lib") None;
        Library.set_extra_prefixes (Some [Demo.extra_prefix]) Demo.extra_lib].
Proof.
  split; [reflexivity|].
  destruct (get_available_libraries_spec Demo.with_extra Demo.db_extra eq_refl) as [H _].
  rewrite H. vm_compute. reflexivity.
Defined.

(** ** Reading libraries again *)

Section LibraryObservers.
Variable R : World -> World -> Prop.
Hypothesis R_equiv : Equivalence R.
Hypothesis R_reads : forall w w', R w w' -> reads w = reads w'.
Hypothesis R_stdout : forall s w, R (add_stdout s w) w.
Hypothesis R_log : forall r w, R (add_log r w) w.
Hypothesis R_available : observer R get_available_libraries.

Ltac given := first [exact R_equiv | exact R_reads | exact R_stdout | exact R_log].

Lemma observer_all_pass (lib_filters : list (Library -> M bool)) (lib : Library) :
  (forall f l, f ∈ lib_filters -> observer R (f l)) ->
  observer R (all_pass lib_filters lib).
Proof.
  induction lib_filters as [|f r IH]; intros H; simpl.
  - apply observer_ret; given.
  - apply observer_bind; [given | apply H; left |]. intros [|].
    + apply IH. intros g l Hg. apply H. now right.
    + apply observer_ret; given.
Qed.

Lemma observer_reduce_named_filter (lib_filters : list (Library -> M bool))
    (libs : list Library) :
  (forall f l, f ∈ lib_filters -> observer R (f l)) ->
  observer R (reduce_named_filter lib_filters libs).
Proof.
  intros H. induction libs as [|lib r IH]; simpl.
  - apply observer_ret; given.
  - apply observer_bind; [given | now apply observer_all_pass |]. intros b.
    apply observer_bind; [given | exact IH |]. intros l. apply observer_ret; given.
Qed.

Lemma observer_get_and_prepend_path (filt : LibraryFilter) (lib : Library) :
  observer R (get_and_prepend_path filt lib).
Proof.
  unfold get_and_prepend_path.
  apply observer_bind; [given | apply observer_lift; given |]. intros paths.
  apply observer_bind; [given | | intros; apply observer_ret; given].
  apply observer_mapM; [given|]. intros path. apply observer_prepend_dir_path; given.
Qed.

Lemma observer_check_lib_and_paths (filt : LibraryFilter) (inp : Library * list string) :
  observer R (check_lib_and_paths filt inp).
Proof.
  unfold check_lib_and_paths.
  apply observer_bind; [given | | intros; apply observer_ret; given].
  apply observer_mapM; [given|]. intros path.
  destruct (LibraryFilter.is_file filt);
    [apply observer_make_check_isfile | apply observer_make_check_isdir]; given.
Qed.

Lemma observer_process_library_filter (filt : LibraryFilter)
    (pre_filts : list (Library -> M bool))
    (output_func : string -> LibraryFilter -> list string)
    (must_exist uniquify : bool) :
  (forall f l, f ∈ pre_filts -> observer R (f l)) ->
  observer R (process_library_filter filt pre_filts output_func must_exist uniquify).
Proof.
  intros H. unfold process_library_filter.
  apply observer_bind; [given | exact R_available |]. intros available.
  apply observer_bind; [given | |].
  { apply observer_reduce_named_filter. intros f l Hf.
    apply elem_of_app in Hf as [Hf|Hf]; [now apply H|].
    destruct (LibraryFilter.filter_func filt); simpl in Hf.
    - apply list_elem_of_singleton in Hf. subst f. apply observer_ret; given.
    - inversion Hf. }
  intros filtered. cbv zeta.
  apply observer_bind; [given | |].
  { apply observer_mapM; [given|]. intros lib. apply observer_get_and_prepend_path. }
  intros lps.
  apply observer_bind; [given | |].
  { destruct must_exist; [|apply observer_ret; given].
    apply observer_mapM; [given|]. intros inp. apply observer_check_lib_and_paths. }
  intros lps'.
  apply observer_bind; [given | apply observer_lift; given |]. intros extracted.
  apply observer_bind; [given | apply observer_lift; given |]. intros after.
  apply observer_ret; given.
Qed.

(** A list of computations that each depend on what [R] keeps only: run
    one after the other, each results in what it results in when run
    first. *)
Lemma observer_mapM_each {A B} (f : A -> M B) (l : list A) (w : World) :
  (forall a, observer R (f a)) ->
  fst (mapM f l w) = rmap_list (fun a => fst (f a w)) l.
Proof.
  intros Hf. revert w. induction l as [|x l IH]; intros w; [reflexivity|].
  simpl. unfold bind at 1. destruct (Hf x w w ltac:(reflexivity)) as [_ Hw].
  destruct (f x w) as [[y|e] w1]; simpl in *; [|reflexivity].
  unfold bind. specialize (IH w1).
  assert (E : rmap_list (fun a => fst (f a w1)) l = rmap_list (fun a => fst (f a w)) l).
  { clear IH. induction l as [|z l IH]; [reflexivity|]. simpl.
    destruct (Hf z w1 w Hw) as [-> _]. now rewrite IH. }
  rewrite <- E, <- IH. destruct (mapM f l w1) as [[ys|e] w2]; reflexivity.
Qed.

End LibraryObservers.

#[local] Instance same_but_heap_equiv : Equivalence same_but_heap.
Proof.
  split.
  - intros w. unfold same_but_heap. repeat split; reflexivity.
  - intros w w' (A & B & C & D). unfold same_but_heap. now rewrite A, B, C, D.
  - intros w1 w2 w3 (A & B & C & D) (A' & B' & C' & D'). unfold same_but_heap.
    now rewrite A, B, C, D.
Qed.

Lemma same_but_heap_reads w w' : same_but_heap w w' -> reads w = reads w'.
Proof. intros (A & B & C & D). unfold reads, config. now rewrite A, B, D. Qed.

Lemma same_but_heap_stdout s w : same_but_heap (add_stdout s w) w.
Proof. unfold same_but_heap. repeat split; reflexivity. Qed.

Lemma same_but_heap_log r w : same_but_heap (add_log r w) w.
Proof. unfold same_but_heap. repeat split; reflexivity. Qed.

Lemma allocated_more_same_but_heap (w' w : World) :
  allocated_more w' w -> same_but_heap w' w.
Proof. intros (A & _ & C & D & E & _). unfold same_but_heap. now rewrite A, C, D, E. Qed.

Lemma observer_get_available_libraries : observer same_but_heap get_available_libraries.
Proof.
  intros w w' H.
  destruct (HammerTechnology._database (self w)) as [db|] eqn:Hdb.
  - assert (Hdb' : database_is db w').
    { unfold database_is. destruct H as [<- _]. exact Hdb. }
    destruct (get_available_libraries_run w db Hdb) as (w1 & Hw1 & ->).
    destruct (get_available_libraries_run w' db Hdb') as (w1' & Hw1' & ->).
    simpl. split; [|now apply allocated_more_same_but_heap].
    unfold config. now destruct H as [-> _].
  - assert (Hrun : forall v, HammerTechnology._database (self v) = None ->
              get_available_libraries v = (Raise (AttributeError "_database"), v)).
    { intros v Hv. unfold get_available_libraries. unfold bind at 1.
      rewrite tech_defined_libraries_run. cbv beta iota.
      unfold get_extra_libraries, has_setting, bind, gets. cbv beta iota.
      now rewrite Hv. }
    rewrite (Hrun w Hdb), (Hrun w'); [split; reflexivity|].
    destruct H as [<- _]. exact Hdb.
Qed.

Ltac heap_observer lem :=
  apply lem;
  first [ exact same_but_heap_equiv | exact same_but_heap_reads
        | exact same_but_heap_stdout | exact same_but_heap_log
        | exact observer_get_available_libraries | idtac ].

Lemma default_pre_filters_observers (f : Library -> M bool) (l : Library) :
  f ∈ default_pre_filters -> observer same_but_heap (f l).
Proof.
  intros Hf. apply list_elem_of_singleton in Hf. subst f.
  heap_observer observer_filter_for_supplies.
Qed.

(** X9.  What [process_library_filter] returns depends on the technology object,
    the file system and the installed packages only, not on the objects
    allocated earlier, the log or the printed output, and the call changes
    none of the former.  So a second run returns what the first one did.
    The pre-filters are assumed to read and change no more than that, as
    the default pre-filter does. *)
Theorem process_library_filter_again (filt : LibraryFilter)
    (pre_filts : list (Library -> M bool))
    (output_func : string -> LibraryFilter -> list string)
    (must_exist uniquify : bool) (w : World) :
  (forall f l, f ∈ pre_filts -> observer same_but_heap (f l)) ->
  let run := process_library_filter filt pre_filts output_func must_exist uniquify in
  (forall w', same_but_heap w w' -> fst (run w) = fst (run w')) /\
  same_but_heap (snd (run w)) w /\
  fst (run (snd (run w))) = fst (run w).
Proof.
  intros H run.
  assert (Hobs : observer same_but_heap run).
  { subst run. heap_observer observer_process_library_filter. exact H. }
  split; [intros w' Hw'; now apply Hobs|].
  destruct (Hobs w w ltac:(reflexivity)) as [_ Hs].
  split; [exact Hs | now apply Hobs].
Qed.

(** X9 at the liberty files of a technology with an extra library, read twice. *)
Lemma process_library_filter_again_witness :
  let run := process_library_filter LibraryFilterHolder.timing_lib_filter
               default_pre_filters HammerTechnologyUtils.to_plain_item true true in
  fst (run (snd (run Demo.with_extra))) = Ok ["/pdk/ccs.lib"; "/ip/ccs.lib"].
Proof.
  destruct (process_library_filter_again LibraryFilterHolder.timing_lib_filter
              default_pre_filters HammerTechnologyUtils.to_plain_item true true
              Demo.with_extra default_pre_filters_observers) as (_ & _ & H).
  cbv zeta. rewrite H. vm_compute. reflexivity.
Defined.

Lemma fold_left_add_lists (l : list (list string)) (acc : list string) :
  reduce_list_str add_lists l acc = acc ++ concat l.
Proof.
  unfold reduce_list_str. revert acc. induction l as [|x l IH]; intros acc; simpl.
  - now rewrite app_nil_r.
  - rewrite IH. unfold add_lists. now rewrite <- app_assoc.
Qed.

Lemma rmap_list_map {A B C} (g : A -> B) (f : B -> Result C) (l : list A) :
  rmap_list f (map g l) = rmap_list (fun a => f (g a)) l.
Proof. induction l as [|x l IH]; [reflexivity|]. simpl. now rewrite IH. Qed.

(** X10.  For at least one filter, [read_libs] returns the concatenation, in
    filter order, of what [process_library_filter] returns for each filter
    when run on its own with the default pre-filters followed by the extra
    ones, with de-duplication on; it raises the error of the first filter
    that raises.  Without any filter it raises [TypeError], as a reduction
    without initial value does, and leaves the state as it was. *)
Theorem read_libs_concat (library_types : list LibraryFilter)
    (output_func : string -> LibraryFilter -> list string)
    (extra_pre_filters : option (list (Library -> M bool)))
    (must_exist : bool) (w : World) :
  (forall f l, f ∈ or_nil extra_pre_filters -> observer same_but_heap (f l)) ->
  (library_types <> [] ->
   fst (read_libs library_types output_func extra_pre_filters must_exist w) =
   concat_results
     (map (fun filt =>
             fst (process_library_filter filt
                    (default_pre_filters ++ or_nil extra_pre_filters)
                    output_func must_exist true w))
          library_types)) /\
  (library_types = [] ->
   read_libs library_types output_func extra_pre_filters must_exist w
   = (Raise (TypeError "reduce() of empty iterable with no initial value"), w)).
Proof.
  intros H. split; [|intros ->; reflexivity].
  intros Hne. unfold read_libs, concat_results. cbv zeta.
  assert (Hpre : match extra_pre_filters with
                 | Some extra => default_pre_filters ++ extra
                 | None => default_pre_filters
                 end = default_pre_filters ++ or_nil extra_pre_filters).
  { destruct extra_pre_filters; reflexivity. }
  rewrite Hpre. clear Hpre.
  set (pre := default_pre_filters ++ or_nil extra_pre_filters).
  assert (Hobs : forall filt, observer same_but_heap
            (process_library_filter filt pre output_func must_exist true)).
  { intros filt. heap_observer observer_process_library_filter.
    intros f l Hf. apply elem_of_app in Hf as [Hf|Hf]; [|now apply H].
    apply list_elem_of_singleton in Hf. subst f.
    heap_observer observer_filter_for_supplies. }
  pose proof (observer_mapM_each same_but_heap same_but_heap_equiv
                (fun filt => process_library_filter filt pre output_func must_exist true)
                library_types w Hobs) as Hm.
  pose proof (mapM_length
                (fun filt => process_library_filter filt pre output_func must_exist true)
                library_types w) as Hlen.
  rewrite rmap_list_map. rewrite <- Hm. unfold bind.
  destruct (mapM _ library_types w) as [[rs|e] w1]; simpl in *; [|reflexivity].
  destruct rs as [|r rs]; [destruct library_types; [contradiction | discriminate]|].
  unfold lift. simpl. f_equal.
  exact (fold_left_add_lists rs r).
Qed.

(** X10 at two timing filters, the second of which finds nothing. *)
Lemma read_libs_concat_witness :
  fst (read_libs [LibraryFilterHolder.timing_lib_filter; LibraryFilterHolder.timing_db_filter]
         HammerTechnologyUtils.to_command_line_args None true Demo.with_extra)
  = Ok ["--timing_lib"; "/pdk/ccs.lib"; "--timing_lib"; "/ip/ccs.lib"].
Proof.
  destruct (read_libs_concat
              [LibraryFilterHolder.timing_lib_filter; LibraryFilterHolder.timing_db_filter]
              HammerTechnologyUtils.to_command_line_args None true Demo.with_extra)
    as [H _].
  - intros f l Hf. inversion Hf.
  - rewrite H by discriminate. vm_compute. reflexivity.
Defined.

(** ** The existence check *)

Lemma bind_Ok_inv {A B} (m : M A) (k : A -> M B) (w : World) (r : B) :
  fst (bind m k w) = Ok r ->
  exists a w1, m w = (Ok a, w1) /\ fst (k a w1) = Ok r.
Proof.
  unfold bind. destruct (m w) as [[a|e] w1]; [|discriminate].
  intros H. now exists a, w1.
Qed.

Lemma fst_bind_impl {A B} (m : M A) (k1 k2 : A -> M B) (w : World) (r : B) :
  (forall a w', fst (k1 a w') = Ok r -> fst (k2 a w') = Ok r) ->
  fst (bind m k1 w) = Ok r -> fst (bind m k2 w) = Ok r.
Proof.
  intros H. unfold bind. destruct (m w) as [[a|e] w1]; [apply H | discriminate].
Qed.

Lemma check_paths_run (filt : LibraryFilter) (paths : list string) (w : World) :
  exists r,
    mapM (if LibraryFilter.is_file filt
          then make_check_isfile (LibraryFilter.description filt)
          else make_check_isdir (LibraryFilter.description filt)) paths w = (r, w) /\
    forall ps, r = Ok ps -> ps = paths /\ Forall (present filt (fs w)) paths.
Proof.
  induction paths as [|p paths IH].
  - exists (Ok []). split; [reflexivity|]. intros ps [= <-]. split; constructor.
  - destruct IH as (r & Hrun & Hr). rewrite mapM_cons. unfold bind at 1.
    assert (Hp : (if LibraryFilter.is_file filt
                  then make_check_isfile (LibraryFilter.description filt)
                  else make_check_isdir (LibraryFilter.description filt)) p w
                 = (if (if LibraryFilter.is_file filt then isfile (fs w) p
                        else isdir (fs w) p)
                    then Ok p
                    else Raise (ValueError
                      (LibraryFilter.description filt +:+ " " +:+ p +:+
                       (if LibraryFilter.is_file filt
                        then " is not a file or does not exist"
                        else " is not a directory or does not exist"))), w)).
    { destruct (LibraryFilter.is_file filt);
        unfold make_check_isfile, make_check_isdir, bind, gets; cbv beta iota;
        [destruct (isfile (fs w) p) | destruct (isdir (fs w) p)]; reflexivity. }
    rewrite Hp. clear Hp.
    destruct (if LibraryFilter.is_file filt then isfile (fs w) p else isdir (fs w) p)
      eqn:E.
    + unfold bind. rewrite Hrun. destruct r as [ps|e].
      * exists (Ok (p :: ps)). split; [reflexivity|]. intros ps' [= <-].
        destruct (Hr ps eq_refl) as [-> HF]. split; [reflexivity|].
        constructor; [exact E | exact HF].
      * exists (Raise e). split; [reflexivity|]. intros ps' [=].
    + eexists. split; [reflexivity|]. intros ps' [=].
Qed.

Lemma check_libs_run (filt : LibraryFilter) (lps : list (Library * list string))
    (w : World) :
  exists r,
    mapM (check_lib_and_paths filt) lps w = (r, w) /\
    forall lps', r = Ok lps' ->
      lps' = lps /\ Forall (fun lp => Forall (present filt (fs w)) (snd lp)) lps.
Proof.
  induction lps as [|[lib paths] lps IH].
  - exists (Ok []). split; [reflexivity|]. intros ps [= <-]. split; constructor.
  - destruct IH as (r & Hrun & Hr). rewrite mapM_cons. unfold bind at 1.
    unfold check_lib_and_paths at 1. cbv zeta. unfold bind at 1.
    destruct (check_paths_run filt paths w) as (r1 & Hrun1 & Hr1).
    simpl fst. simpl snd. rewrite Hrun1. destruct r1 as [ps|e].
    + destruct (Hr1 ps eq_refl) as [-> HF]. unfold ret at 1. cbv beta iota.
      unfold bind. rewrite Hrun. destruct r as [lps'|e].
      * exists (Ok ((lib, paths) :: lps')). split; [reflexivity|]. intros x [= <-].
        destruct (Hr lps' eq_refl) as [-> HF']. split; [reflexivity|].
        constructor; [exact HF | exact HF'].
      * exists (Raise e). split; [reflexivity|]. intros x [=].
    + eexists. split; [reflexivity|]. intros x [=].
Qed.

(** X11.  The existence check only rejects: whenever [process_library_filter]
    returns a list with [must_exist] on, it returns the same list with
    [must_exist] off. *)
Theorem must_exist_only_rejects (filt : LibraryFilter)
    (pre_filts : list (Library -> M bool))
    (output_func : string -> LibraryFilter -> list string)
    (uniquify : bool) (w : World) (r : list string) :
  fst (process_library_filter filt pre_filts output_func true uniquify w) = Ok r ->
  fst (process_library_filter filt pre_filts output_func false uniquify w) = Ok r.
Proof.
  unfold process_library_filter.
  apply fst_bind_impl. intros available w1.
  apply fst_bind_impl. intros filtered w2. cbv zeta.
  apply fst_bind_impl. intros lps w3.
  unfold bind at 1 4.
  destruct (check_libs_run filt lps w3) as (c & Hrun & Hc). rewrite Hrun.
  destruct c as [lps'|e]; [|discriminate].
  destruct (Hc lps' eq_refl) as [-> _]. unfold ret at 2. cbv beta iota. trivial.
Qed.

Lemma rmap_list_identity (lps : list (Library * list string)) :
  rmap_list (fun t => identity_extraction_func (fst t) (snd t)) lps = Ok (map snd lps).
Proof. induction lps as [|x l IH]; [reflexivity|]. simpl. now rewrite IH. Qed.

(** X12.  With [must_exist] on and the plain output, every path returned for a
    filter without extraction function and post-filters exists in the file
    system: as a file when the filter's [is_file] holds, as a directory
    otherwise. *)
Theorem must_exist_paths_present (filt : LibraryFilter)
    (pre_filts : list (Library -> M bool)) (uniquify : bool) (w : World)
    (r : list string) :
  (forall f l, f ∈ pre_filts -> observer same_but_heap (f l)) ->
  LibraryFilter.extraction_func filt = None ->
  LibraryFilter.extra_post_filter_funcs filt = [] ->
  fst (process_library_filter filt pre_filts HammerTechnologyUtils.to_plain_item
         true uniquify w) = Ok r ->
  Forall (present filt (fs w)) r.
Proof.
  intros Hpre Hex Hpost. unfold process_library_filter. rewrite Hex, Hpost.
  intros H.
  apply bind_Ok_inv in H as (available & w1 & H1 & H). cbv beta in H.
  apply bind_Ok_inv in H as (filtered & w2 & H2 & H). cbv beta zeta in H.
  apply bind_Ok_inv in H as (lps & w3 & H3 & H). cbv beta in H.
  apply bind_Ok_inv in H as (lps' & w4 & H4 & H). cbv beta in H.
  destruct (check_libs_run filt lps w3) as (c & Hrun & Hc).
  rewrite Hrun in H4. inversion H4; subst c w4. clear H4.
  destruct (Hc lps' eq_refl) as [-> HF].
  assert (Hfs : fs w3 = fs w).
  { pose proof (observer_get_available_libraries w w ltac:(reflexivity)) as [_ A].
    rewrite H1 in A. simpl in A.
    assert (B : same_but_heap w2 w1).
    { assert (O : observer same_but_heap
                (reduce_named_filter
                   (pre_filts ++
                    get_or_else (optional_map (LibraryFilter.filter_func filt)
                                   (fun x => [fun lib => ret (x lib)])) []) available)).
      { heap_observer observer_reduce_named_filter. intros f l Hf.
        apply elem_of_app in Hf as [Hf|Hf]; [now apply Hpre|].
        destruct (LibraryFilter.filter_func filt); simpl in Hf.
        - apply list_elem_of_singleton in Hf. subst f.
          heap_observer observer_ret.
        - inversion Hf. }
      destruct (O w1 w1 ltac:(reflexivity)) as [_ B]. now rewrite H2 in B. }
    assert (C : same_but_heap w3 w2).
    { assert (O : observer same_but_heap
                (mapM (get_and_prepend_path filt)
                   match LibraryFilter.sort_func filt with
                   | Some key => sorted filtered key
                   | None => filtered
                   end)).
      { heap_observer observer_mapM. intros lib.
        heap_observer observer_get_and_prepend_path. }
      destruct (O w2 w2 ltac:(reflexivity)) as [_ C]. now rewrite H3 in C. }
    destruct A as (_ & A & _), B as (_ & B & _), C as (_ & C & _). congruence. }
  rewrite Hfs in HF. clear Hrun Hc H1 H2 H3.
  unfold get_or_else in H. unfold bind at 1 in H. unfold lift at 1 in H.
  rewrite rmap_list_identity in H. cbv beta iota in H.
  unfold bind, lift, ret, reduce_named_post in H. simpl in H.
  unfold HammerTechnologyUtils.to_plain_item in H.
  rewrite reduce_list_str_plain, fold_left_add_lists in H. simpl in H.
  inversion H as [Hr]. clear H Hr.
  assert (Hall : Forall (present filt (fs w)) (concat (map snd lps))).
  { clear -HF. induction HF as [|lp l Hlp _ IH]; simpl; [constructor|].
    apply Forall_app. split; assumption. }
  destruct uniquify; [|exact Hall].
  apply Forall_forall. intros p Hp. unfold in_place_unique in Hp.
  apply elem_of_unique_from in Hp as [Hp _].
  rewrite Forall_forall in Hall. now apply Hall.
Qed.

(** X11 at the liberty files of a technology whose files exist. *)
Lemma must_exist_only_rejects_witness :
  fst (process_library_filter LibraryFilterHolder.timing_lib_filter default_pre_filters
         HammerTechnologyUtils.to_plain_item false true Demo.with_extra)
  = Ok ["/pdk/ccs.lib"; "/ip/ccs.lib"].
Proof.
  apply (must_exist_only_rejects LibraryFilterHolder.timing_lib_filter default_pre_filters
           HammerTechnologyUtils.to_plain_item true Demo.with_extra).
  vm_compute. reflexivity.
Defined.

(** X12 at the liberty files of a technology whose files exist. *)
Lemma must_exist_paths_present_witness :
  Forall (fun p => isfile (fs Demo.with_extra) p = true) ["/pdk/ccs.lib"; "/ip/ccs.lib"].
Proof.
  apply (must_exist_paths_present LibraryFilterHolder.timing_lib_filter default_pre_filters
           true Demo.with_extra ["/pdk/ccs.lib"; "/ip/ccs.lib"]
           default_pre_filters_observers eq_refl eq_refl).
  vm_compute. reflexivity.
Defined.

(** ** Command-line arguments *)

(** X13.  With [to_command_line_args] as output function
    [process_library_filter] returns the items it returns with
    [to_plain_item], each preceded by [--<tag>] of the filter, and raises
    when that raises. *)
Theorem to_command_line_args_tags (filt : LibraryFilter)
    (pre_filts : list (Library -> M bool)) (must_exist uniquify : bool) (w : World) :
  fst (process_library_filter filt pre_filts HammerTechnologyUtils.to_command_line_args
         must_exist uniquify w) =
  rmap (flat_map (fun item => ["--" +:+ LibraryFilter.tag filt; item]))
       (fst (process_library_filter filt pre_filts HammerTechnologyUtils.to_plain_item
               must_exist uniquify w)).
Proof.
  unfold process_library_filter.
  apply fst_bind_rmap. intros available w1.
  apply fst_bind_rmap. intros filtered w2.
  cbv zeta.
  apply fst_bind_rmap. intros lp w3.
  apply fst_bind_rmap. intros lp' w4.
  apply fst_bind_rmap. intros extracted w5.
  apply fst_bind_rmap. intros after w6.
  simpl. unfold HammerTechnologyUtils.to_plain_item,
    HammerTechnologyUtils.to_command_line_args.
  rewrite reduce_list_str_plain, fold_left_add_lists. simpl.
  now rewrite flat_map_concat_map.
Qed.

(** ** A filter that must find something *)

Lemma nonempty_check_run (description : string) (l : list string) :
  Filters.create_nonempty_check description l =
  match l with
  | [] => Raise (ValueError ("Must have at least one " +:+ description))
  | _ => Ok l
  end.
Proof. now destruct l. Qed.

(** X14.  [milkyway_techfile_filter] never yields an empty result: for an output
    function that gives at least one item per path, a run that returns
    returns a non-empty list; and on a technology without libraries the run
    raises [ValueError] "Must have at least one Milkyway techfile". *)
Theorem milkyway_techfile_filter_nonempty (pre_filts : list (Library -> M bool))
    (output_func : string -> LibraryFilter -> list string)
    (must_exist uniquify : bool) (w : World) :
  let run := process_library_filter Filters.milkyway_techfile_filter pre_filts
               output_func must_exist uniquify in
  (forall r,
     (forall item, output_func item Filters.milkyway_techfile_filter <> []) ->
     fst (run w) = Ok r -> r <> []) /\
  (forall db,
     database_is db w -> db !! "vlsi.technology.extra_libraries" = None ->
     or_nil (TechJSON.libraries (config w)) = [] ->
     fst (run w) = Raise (ValueError "Must have at least one Milkyway techfile")).
Proof.
  intros run. subst run. split.
  - intros r Hout H. unfold process_library_filter in H.
    apply bind_Ok_inv in H as (available & w1 & _ & H). cbv beta in H.
    apply bind_Ok_inv in H as (filtered & w2 & _ & H). cbv beta zeta in H.
    apply bind_Ok_inv in H as (lps & w3 & _ & H). cbv beta in H.
    apply bind_Ok_inv in H as (lps' & w4 & _ & H). cbv beta in H.
    apply bind_Ok_inv in H as (extracted & w5 & _ & H). cbv beta in H.
    apply bind_Ok_inv in H as (after & w6 & Hafter & H). cbv beta in H.
    unfold ret in H. simpl in H. inversion H as [Hr]. clear H.
    unfold lift in Hafter. inversion Hafter as [[Hc Hw]]. clear Hafter.
    unfold rbind in Hc. rewrite nonempty_check_run in Hc.
    rewrite fold_left_add_lists. simpl.
    destruct (if uniquify then _ else _) as [|x l]; [discriminate|].
    inversion Hc; subst after. simpl.
    pose proof (Hout x) as Hx.
    destruct (output_func x Filters.milkyway_techfile_filter); [contradiction|].
    discriminate.
  - intros db Hdb Hno Hlibs. unfold process_library_filter.
    unfold bind at 1. rewrite (get_available_libraries_tech_only w db Hdb Hno), Hlibs.
    destruct must_exist, uniquify; reflexivity.
Qed.

(** X14 at a technology without libraries. *)
Lemma milkyway_techfile_filter_nonempty_witness :
  fst (process_library_filter Filters.milkyway_techfile_filter default_pre_filters
         HammerTechnologyUtils.to_plain_item true true Demo.bare)
  = Raise (ValueError "Must have at least one Milkyway techfile").
Proof.
  destruct (milkyway_techfile_filter_nonempty default_pre_filters
              HammerTechnologyUtils.to_plain_item true true Demo.bare) as [_ H].
  apply (H Demo.db); reflexivity.
Defined.

(** ** Technology libraries first *)

Lemma insert_by_front {A} (key : A -> Z) (x : A) (l : list A) :
  Forall (fun y => (key x <= key y)%Z) l -> insert_by key x l = x :: l.
Proof.
  intros H. destruct l as [|y r]; [reflexivity|]. simpl.
  apply Forall_cons in H as [H _]. apply Z.leb_le in H. now rewrite H.
Qed.

Lemma insert_by_behind {A} (key : A -> Z) (x : A) (l1 l2 : list A) :
  Forall (fun y => (key y < key x)%Z) l1 ->
  insert_by key x (l1 ++ l2) = l1 ++ insert_by key x l2.
Proof.
  induction 1 as [|y r Hy _ IH]; [reflexivity|]. simpl.
  apply Z.leb_gt in Hy. now rewrite Hy, IH.
Qed.

(** A sort on a key with two values keeps each group in its order. *)
Lemma sorted_two_keys {A} (first : A -> bool) (l : list A) :
  sorted l (fun x => if first x then 0%Z else 100%Z)
  = List.filter first l ++ List.filter (fun x => negb (first x)) l.
Proof.
  unfold sorted. induction l as [|x l IH]; [reflexivity|]. simpl. rewrite IH.
  destruct (first x) eqn:E; simpl.
  - apply insert_by_front. apply Forall_forall. intros y _.
    rewrite E. destruct (first y); lia.
  - rewrite insert_by_behind.
    + f_equal. apply insert_by_front. apply Forall_forall. intros y Hy.
      apply list_elem_of_In, filter_In in Hy as [_ Hy].
      rewrite E. destruct (first y); [discriminate | lia].
    + apply Forall_forall. intros y Hy.
      apply list_elem_of_In, filter_In in Hy as [_ Hy]. rewrite E, Hy. lia.
Qed.

Lemma filter_for_supplies_mmmc (lib : Library) (w : World) (db : gmap string json) :
  database_is db w ->
  PyVal.truthy (setting db "vlsi.inputs.mmmc_corners") = true ->
  filter_for_supplies lib w = (Ok true, w).
Proof.
  intros Hdb Hm. unfold filter_for_supplies.
  rewrite (bind_get_setting _ w db _ Hdb), Hm. unfold after_get.
  unfold setting in Hm. destruct (db !! "vlsi.inputs.mmmc_corners"); [reflexivity|].
  discriminate.
Qed.

Lemma select_lef_run (libs : list Library) (w : World) (db : gmap string json) :
  database_is db w ->
  PyVal.truthy (setting db "vlsi.inputs.mmmc_corners") = true ->
  reduce_named_filter
    (default_pre_filters ++
     [fun lib => ret (LibraryFilterHolder.lef_filter_filter_func lib)]) libs w
  = (Ok (List.filter LibraryFilterHolder.lef_filter_filter_func libs), w).
Proof.
  intros Hdb Hm.
  assert (Hone : forall lib,
    all_pass (default_pre_filters ++
              [fun lib => ret (LibraryFilterHolder.lef_filter_filter_func lib)]) lib w
    = (Ok (LibraryFilterHolder.lef_filter_filter_func lib), w)).
  { intros lib.
    change (default_pre_filters ++
            [fun lib => ret (LibraryFilterHolder.lef_filter_filter_func lib)])
      with [filter_for_supplies;
            fun lib => ret (LibraryFilterHolder.lef_filter_filter_func lib)].
    cbn [all_pass]. unfold bind at 1.
    rewrite (filter_for_supplies_mmmc lib w db Hdb Hm). cbv beta iota.
    unfold bind, ret. destruct (LibraryFilterHolder.lef_filter_filter_func lib);
      reflexivity. }
  induction libs as [|lib libs IH]; [reflexivity|].
  cbn [reduce_named_filter]. unfold bind at 1. rewrite Hone. cbv beta iota.
  unfold bind at 1. rewrite IH. cbv beta iota. unfold ret. simpl.
  destruct (LibraryFilterHolder.lef_filter_filter_func lib); reflexivity.
Qed.

Lemma prepend_lef_run (libs : list Library) (w : World) :
  Forall (fun lib => exists f, Library.lef_file lib = Some f /\ Py.isabs f = true) libs ->
  mapM (get_and_prepend_path LibraryFilterHolder.lef_filter) libs w
  = (Ok (map (fun lib => (lib, match Library.lef_file lib with
                               | Some f => [f]
                               | None => []
                               end)) libs), w).
Proof.
  induction 1 as [|lib libs (f & Hf & Ha) _ IH]; [reflexivity|].
  rewrite mapM_cons. unfold bind at 1.
  assert (Hone : get_and_prepend_path LibraryFilterHolder.lef_filter lib w
                 = (Ok (lib, [f]), w)).
  { unfold get_and_prepend_path. simpl.
    unfold LibraryFilterHolder.lef_filter_paths_func. rewrite Hf.
    unfold bind at 1. unfold lift at 1. cbv beta iota.
    unfold bind at 1. simpl mapM. unfold bind at 1.
    rewrite (prepend_abs_run f (Some lib) w Ha). reflexivity. }
  rewrite Hone. cbv beta iota. unfold bind at 1. rewrite IH. cbn [map]. rewrite Hf.
  reflexivity.
Qed.

Lemma lef_files_filter (keep : Library -> bool) (libs : list Library) :
  concat (map (fun lib => match Library.lef_file lib with Some f => [f] | None => [] end)
              (List.filter keep
                 (List.filter LibraryFilterHolder.lef_filter_filter_func libs)))
  = lef_files (List.filter keep libs).
Proof.
  unfold lef_files. rewrite flat_map_concat_map.
  induction libs as [|lib libs IH]; [reflexivity|]. simpl.
  unfold LibraryFilterHolder.lef_filter_filter_func at 1.
  destruct (Library.lef_file lib) as [f|] eqn:E; simpl.
  - destruct (keep lib); simpl; [rewrite E|]; now rewrite IH.
  - destruct (keep lib); simpl; [rewrite E|]; now rewrite IH.
Qed.

(** X15.  The sort key of [lef_filter] and of [power_grid_library_filter] puts
    the libraries that provide the technology first and keeps the order of
    the list within both groups.  For [lef_filter] on the libraries of the
    descriptor, when multi-corner settings are present (so that the supply
    pre-filter accepts every library), no extra library is configured and
    every layout path is absolute, the pipeline without existence check and
    de-duplication returns the layout files of the technology libraries
    followed by those of the other libraries, and leaves the state as it
    was. *)
Theorem technology_libraries_first (w : World) (db : gmap string json)
    (libs : list Library) :
  (forall filt key,
     filt = LibraryFilterHolder.lef_filter \/ filt = Filters.power_grid_library_filter ->
     LibraryFilter.sort_func filt = Some key ->
     sorted libs key
     = List.filter is_technology libs ++
       List.filter (fun lib => negb (is_technology lib)) libs) /\
  (database_is db w ->
   PyVal.truthy (setting db "vlsi.inputs.mmmc_corners") = true ->
   db !! "vlsi.technology.extra_libraries" = None ->
   TechJSON.libraries (config w) = Some libs ->
   Forall (fun lib => forall f, Library.lef_file lib = Some f -> Py.isabs f = true) libs ->
   process_library_filter LibraryFilterHolder.lef_filter default_pre_filters
     HammerTechnologyUtils.to_plain_item false false w
   = (Ok (lef_files (List.filter is_technology libs) ++
          lef_files (List.filter (fun lib => negb (is_technology lib)) libs)), w)).
Proof.
  split.
  { intros filt key [-> | ->] [= <-]; apply (sorted_two_keys is_technology). }
  intros Hdb Hm Hno Hlibs Habs. unfold process_library_filter.
  unfold bind at 1. rewrite (get_available_libraries_tech_only w db Hdb Hno), Hlibs.
  simpl or_nil. simpl LibraryFilter.filter_func. simpl LibraryFilter.sort_func.
  simpl optional_map. simpl get_or_else.
  unfold bind at 1. rewrite (select_lef_run libs w db Hdb Hm). cbv beta iota zeta.
  change LibraryFilterHolder.lef_filter_sort_func
    with (fun lib => if is_technology lib then 0%Z else 100%Z).
  rewrite sorted_two_keys.
  unfold bind at 1. rewrite prepend_lef_run.
  - cbv beta iota. unfold bind at 1. unfold ret at 1. cbv beta iota.
    simpl LibraryFilter.extraction_func. simpl get_or_else.
    unfold bind at 1. unfold lift at 1. rewrite rmap_list_identity. cbv beta iota.
    simpl LibraryFilter.extra_post_filter_funcs. simpl reduce_named_post.
    unfold bind at 1. unfold lift at 1. cbv beta iota. unfold ret.
    unfold HammerTechnologyUtils.to_plain_item.
    rewrite reduce_list_str_plain, fold_left_add_lists. simpl app.
    rewrite map_map. simpl snd. rewrite map_app, concat_app, !lef_files_filter.
    reflexivity.
  - assert (Hsel : forall keep lib,
      lib ∈ List.filter keep
              (List.filter LibraryFilterHolder.lef_filter_filter_func libs) ->
      exists f, Library.lef_file lib = Some f /\ Py.isabs f = true).
    { intros keep lib Hin. apply list_elem_of_In in Hin.
      apply filter_In in Hin as [Hin _]. apply filter_In in Hin as [Hin Hlef].
      unfold LibraryFilterHolder.lef_filter_filter_func in Hlef.
      destruct (Library.lef_file lib) as [f|] eqn:E; [|discriminate].
      exists f. split; [reflexivity|].
      rewrite Forall_forall in Habs. apply (Habs lib); [|exact E].
      now apply list_elem_of_In. }
    apply Forall_app. split; apply Forall_forall; intros lib Hin;
      exact (Hsel _ lib Hin).
Qed.

(** X15 at a macro library listed before the technology library. *)
Lemma technology_libraries_first_witness :
  fst (process_library_filter LibraryFilterHolder.lef_filter default_pre_filters
         HammerTechnologyUtils.to_plain_item false false Demo.macro_first)
  = Ok ["/pdk/tech.lef"; "/ip/sram.lef"].
Proof.
  destruct (technology_libraries_first Demo.macro_first
              (<[ "vlsi.inputs.mmmc_corners" := JArr [JStr "tt"] ]> Demo.db)
              [Demo.macro_lib; Demo.tech_lib]) as [_ H].
  rewrite H; try reflexivity.
  repeat constructor; intros f [= <-]; reflexivity.
Defined.

(** ** The preferred timing view *)

(** X16.  [get_timing_lib_with_preference] takes the preference without regard
    to case and returns for a library the first declared liberty view in the
    order NLDM, ECSM, CCS for the preference NLDM; ECSM, NLDM, CCS for ECSM;
    CCS, NLDM, ECSM for CCS.  Any other preference raises [ValueError], but
    only when the filter is applied to a library: on a technology without
    libraries the pipeline returns the empty list.
    [timing_lib_with_ecsm_filter] takes the views in the order ECSM, CCS,
    NLDM.  The preference is ASCII text, for which [upper] is exact. *)
Theorem timing_lib_preference (lib_pref : string) (lib : Library) :
  PyStr.isascii lib_pref = true ->
  let filt := Filters.get_timing_lib_with_preference lib_pref in
  let paths := LibraryFilter.paths_func filt lib in
  let nldm := Library.nldm_liberty_file lib in
  let ecsm := Library.ecsm_liberty_file lib in
  let ccs := Library.ccs_liberty_file lib in
  (PyStr.upper lib_pref = "NLDM" -> paths = Ok (first_declared [nldm; ecsm; ccs])) /\
  (PyStr.upper lib_pref = "ECSM" -> paths = Ok (first_declared [ecsm; nldm; ccs])) /\
  (PyStr.upper lib_pref = "CCS" -> paths = Ok (first_declared [ccs; nldm; ecsm])) /\
  (PyStr.upper lib_pref <> "NLDM" -> PyStr.upper lib_pref <> "ECSM" ->
   PyStr.upper lib_pref <> "CCS" ->
   paths = Raise (ValueError "Library preference must be one of NLDM, ECSM, or CCS.") /\
   forall pre_filts output_func must_exist uniquify w db,
     database_is db w -> db !! "vlsi.technology.extra_libraries" = None ->
     or_nil (TechJSON.libraries (config w)) = [] ->
     fst (process_library_filter filt pre_filts output_func must_exist uniquify w)
       = Ok []) /\
  LibraryFilter.paths_func Filters.timing_lib_with_ecsm_filter lib
    = Ok (first_declared [ecsm; ccs; nldm]).
Proof.
  intros _ filt paths nldm ecsm ccs. subst filt paths nldm ecsm ccs.
  unfold Filters.get_timing_lib_with_preference. cbn [LibraryFilter.paths_func].
  unfold Filters.get_timing_lib_with_preference_paths_func.
  split; [|split; [|split; [|split]]].
  - intros ->. simpl.
    destruct (Library.nldm_liberty_file lib), (Library.ecsm_liberty_file lib),
      (Library.ccs_liberty_file lib); reflexivity.
  - intros ->. simpl.
    destruct (Library.nldm_liberty_file lib), (Library.ecsm_liberty_file lib),
      (Library.ccs_liberty_file lib); reflexivity.
  - intros ->. simpl.
    destruct (Library.nldm_liberty_file lib), (Library.ecsm_liberty_file lib),
      (Library.ccs_liberty_file lib); reflexivity.
  - intros H1 H2 H3.
    assert (Hi : PyStr.index (PyStr.upper lib_pref) ["NLDM"; "ECSM"; "CCS"] = None).
    { cbn [PyStr.index].
      rewrite (proj2 (String.eqb_neq "NLDM" _)) by congruence.
      rewrite (proj2 (String.eqb_neq "ECSM" _)) by congruence.
      rewrite (proj2 (String.eqb_neq "CCS" _)) by congruence. reflexivity. }
    rewrite Hi. split; [reflexivity|].
    intros pre_filts output_func must_exist uniquify w db Hdb Hno Hlibs.
    unfold process_library_filter.
    unfold bind at 1. rewrite (get_available_libraries_tech_only w db Hdb Hno), Hlibs.
    destruct must_exist, uniquify; reflexivity.
  - unfold Filters.timing_lib_with_ecsm_filter. cbn [LibraryFilter.paths_func].
    unfold Filters.timing_lib_with_ecsm_filter_paths_func.
    destruct (Library.nldm_liberty_file lib), (Library.ecsm_liberty_file lib),
      (Library.ccs_liberty_file lib); reflexivity.
Qed.

(** X16 at the preference [ccs], in lower case, on a library with an NLDM view
    only. *)
Lemma timing_lib_preference_witness :
  PyStr.isascii "ccs" = true /\ PyStr.upper "ccs" = "CCS" /\
  LibraryFilter.paths_func (Filters.get_timing_lib_with_preference "ccs")
    (Demo.timing_lib None (Some "/pdk/nldm.lib")) = Ok ["/pdk/nldm.lib"].
Proof.
  split; [reflexivity|]. split; [reflexivity|].
  destruct (timing_lib_preference "ccs" (Demo.timing_lib None (Some "/pdk/nldm.lib"))
              eq_refl) as (_ & _ & H & _).
  exact (H eq_refl).
Defined.

(** ** Sites *)

Lemma get_site_by_name_loop_first (name : json) (l1 l2 : list Site) (item : Site) :
  Forall (fun s => PyVal.eq_str name (Site.name s) = false) l1 ->
  PyVal.eq_str name (Site.name item) = true ->
  get_site_by_name_loop name (l1 ++ item :: l2) = Some item.
Proof.
  intros H Hi. induction H as [|s r Hs _ IH]; simpl; [now rewrite Hi|].
  now rewrite Hs.
Qed.

Lemma get_site_by_name_loop_none (name : json) (l : list Site) :
  Forall (fun s => PyVal.eq_str name (Site.name s) = false) l ->
  get_site_by_name_loop name l = None.
Proof. induction 1 as [|s r Hs _ IH]; simpl; [reflexivity|]. now rewrite Hs. Qed.

(** X17.  [get_site_by_name] returns the first site of the descriptor that has
    the given name, also when a later site has the same name; it raises when
    the descriptor has no [sites] entry and when no site has the name.
    [get_placement_site] on settings without
    [vlsi.technology.placement_site] looks for a site named [None] and
    raises. *)
Theorem get_site_by_name_first (name : json) (w : World) :
  (TechJSON.sites (config w) = None ->
   get_site_by_name name w
     = (Raise (ValueError "Tech JSON does not specify any sites"), w)) /\
  (forall l1 item l2,
     TechJSON.sites (config w) = Some (l1 ++ item :: l2) ->
     Forall (fun s => PyVal.eq_str name (Site.name s) = false) l1 ->
     PyVal.eq_str name (Site.name item) = true ->
     get_site_by_name name w = (Ok item, w)) /\
  (forall l,
     TechJSON.sites (config w) = Some l ->
     Forall (fun s => PyVal.eq_str name (Site.name s) = false) l ->
     get_site_by_name name w
       = (Raise (ValueError ("Site named " +:+ PyVal.str name
                              +:+ " is not defined in tech JSON")), w)) /\
  (forall db l,
     database_is db w -> db !! "vlsi.technology.placement_site" = None ->
     TechJSON.sites (config w) = Some l ->
     fst (get_placement_site w)
       = Raise (ValueError "Site named None is not defined in tech JSON")).
Proof.
  unfold get_site_by_name. unfold bind at 1 2 3, gets at 1 2 3. cbv beta iota.
  split; [|split; [|split]].
  - intros ->. reflexivity.
  - intros l1 item l2 -> H Hi. now rewrite (get_site_by_name_loop_first name l1 l2 item H Hi).
  - intros l -> H. now rewrite (get_site_by_name_loop_none name l H).
  - intros db l Hdb Hno Hl. unfold get_placement_site.
    rewrite (bind_get_setting _ w db _ Hdb). unfold setting, after_get. rewrite Hno.
    unfold get_site_by_name, bind, gets. cbv beta iota.
    change (config (add_stdout "vlsi.technology.placement_site" w)) with (config w).
    rewrite Hl.
    rewrite (get_site_by_name_loop_none JNull l); [reflexivity|].
    apply Forall_forall. intros s _. reflexivity.
Qed.

(** X17 at three sites of which the second and the third are named [core]. *)
Lemma get_site_by_name_first_witness :
  get_site_by_name (JStr "core") Demo.with_sites = (Ok Demo.core_site, Demo.with_sites).
Proof.
  destruct (get_site_by_name_first (JStr "core") Demo.with_sites) as (_ & H & _).
  apply (H [Site.mk "io" "1" "10"] Demo.core_site [Site.mk "core" "0.5" "2"]);
    [reflexivity | repeat constructor | reflexivity].
Defined.

(** ** [SpiceModelFile] as a setting *)

(** X18.  [SpiceModelFile.from_setting] gives back the object that
    [to_setting] was applied to.  The setting names the corner [lib corner],
    with a space: pydantic's parser rejects the setting for want of
    [lib_corner], and [from_setting] raises [KeyError] on the fields that
    pydantic writes. *)
Theorem SpiceModelFile_setting_round_trip (s : SpiceModelFile) :
  SpiceModelFile_from_setting (SpiceModelFile_to_setting s) = Built s /\
  Pydantic.SpiceModelFile_parse (SpiceModelFile_to_setting s)
    = Raise (ValidationError "lib_corner") /\
  SpiceModelFile_from_setting
    (match Pydantic.SpiceModelFile_json s with JObj o => o | _ => [] end)
    = KeyError "lib corner".
Proof. destruct s as [p c]. repeat split. Qed.

(** ** The cache directory *)

(** X19.  After the setter of [cache_dir] the getter returns the value that was
    set, and paths under [cache/] resolve below it, also when making the
    directory raised: the attribute is assigned first.  The setter ends as
    [os.makedirs] does, on the file system that [os.makedirs] left. *)
Theorem set_cache_dir_then_get (value : string) (w : World) :
  let r := set_cache_dir value w in
  fst (cache_dir (snd r)) = Ok value /\
  fst r = fst (makedirs (os w) value (fs w)) /\
  fs (snd r) = snd (makedirs (os w) value (fs w)) /\
  (forall rest lib,
     fst (prepend_dir_path ("cache/" +:+ rest) lib (snd r))
       = Ok (Py.join value (Py.split rest))).
Proof.
  intros r. subst r.
  assert (Hrun : set_cache_dir value w =
            (fst (makedirs (os w) value (fs w)),
             set_fs (snd (makedirs (os w) value (fs w)))
                    (set_self (set_cachedir value (self w)) w))).
  { unfold set_cache_dir, bind, modify, gets, lift. simpl.
    destruct (makedirs (os w) value (fs w)) as [[[]|e] f1]; reflexivity. }
  rewrite Hrun. cbn [fst snd].
  split; [rewrite cache_dir_run; reflexivity|].
  split; [reflexivity|]. split; [reflexivity|].
  intros rest lib.
  rewrite (prepend_cache_run rest lib
             (set_fs (snd (makedirs (os w) value (fs w)))
                     (set_self (set_cachedir value (self w)) w))
             value); reflexivity.
Qed.

Lemma replace_from_absent (old new s : string) :
  PyStr.contains old s = false -> PyStr.replace_from old new 0 s = s.
Proof.
  induction s as [|c r IH]; [reflexivity|]. cbn [PyStr.contains PyStr.replace_from].
  intros H. apply orb_false_iff in H as [H1 H2]. rewrite H1. now rewrite IH.
Qed.

Lemma replace_from_here (old new : string) (c : ascii) (r : string) :
  String.prefix old (String c r) = true ->
  PyStr.replace_from old new 0 (String c r)
  = new +:+ PyStr.replace_from old new (String.length old - 1) r.
Proof. intros H. cbn [PyStr.replace_from]. now rewrite H. Qed.

Lemma replace_from_pass (old new : string) (c : ascii) (r : string) :
  String.prefix old (String c r) = false ->
  PyStr.replace_from old new 0 (String c r) = String c (PyStr.replace_from old new 0 r).
Proof. intros H. cbn [PyStr.replace_from]. now rewrite H. Qed.

Lemma replace_from_skip (old new : string) (k : nat) (c : ascii) (r : string) :
  PyStr.replace_from old new (S k) (String c r) = PyStr.replace_from old new k r.
Proof. reflexivity. Qed.

Lemma expand_tech_cache_path_run (path : string) (w : World) :
  expand_tech_cache_path path w =
  (match HammerTechnology._cachedir (self w) with
   | Some c => Ok (PyStr.replace "cache" c path)
   | None => Raise (ValueError "Internal error: cache dir location not set by hammer-vlsi")
   end, w).
Proof.
  unfold expand_tech_cache_path, bind. rewrite cache_dir_run.
  destruct (HammerTechnology._cachedir (self w)); reflexivity.
Qed.

(** X20.  [expand_tech_cache_path] raises when the cache directory is not set,
    even for a path in which there is nothing to replace; it returns a path
    in which [cache] does not occur as it is; and for [cache/<rest>] with no
    further occurrence it returns the cache directory, a separator and
    [<rest>], which is what [prepend_dir_path] returns when the cache
    directory is non-empty and does not end with a separator and [<rest>]
    has no empty segment before its last one. *)
Theorem expand_tech_cache_path_spec (path : string) (w : World) :
  (HammerTechnology._cachedir (self w) = None ->
   expand_tech_cache_path path w
     = (Raise (ValueError "Internal error: cache dir location not set by hammer-vlsi"), w)) /\
  (forall c,
     HammerTechnology._cachedir (self w) = Some c ->
     PyStr.contains "cache" path = false ->
     expand_tech_cache_path path w = (Ok path, w)) /\
  (forall c rest,
     HammerTechnology._cachedir (self w) = Some c ->
     path = "cache/" +:+ rest -> PyStr.contains "cache" rest = false ->
     expand_tech_cache_path path w = (Ok (c +:+ "/" +:+ rest), w) /\
     (Py.nonempty c = true -> Py.endswith_sep c = false ->
      no_empty_inner (Py.split rest) = true ->
      forall lib, prepend_dir_path path lib w = expand_tech_cache_path path w)).
Proof.
  rewrite !expand_tech_cache_path_run.
  split; [|split].
  - intros ->. reflexivity.
  - intros c -> H. unfold PyStr.replace. now rewrite replace_from_absent.
  - intros c rest Hc -> H. rewrite Hc.
    assert (Hrep : PyStr.replace "cache" c ("cache/" +:+ rest) = c +:+ "/" +:+ rest).
    { rewrite cache_path. unfold PyStr.replace.
      rewrite replace_from_here by (vm_compute; reflexivity).
      change (String.length "cache" - 1) with 4.
      rewrite !replace_from_skip.
      rewrite replace_from_pass by (vm_compute; reflexivity).
      rewrite replace_from_absent by exact H. reflexivity. }
    rewrite Hrep. split; [reflexivity|].
    intros Hne He Hin lib. rewrite (prepend_cache_run rest lib w c Hc).
    rewrite (join_split c rest Hin). f_equal. f_equal.
    unfold Py.join2, Py.join. simpl. unfold Py.join_step.
    assert (Hs : Py.startswith_sep rest = false).
    { rewrite <- (unsplit_split rest).
      apply startswith_sep_unsplit; [apply split_no_sep | exact Hin]. }
    rewrite Hs, He. destruct c; [discriminate | reflexivity].
Qed.

(** X20 at a deck under the cache directory. *)
Lemma expand_tech_cache_path_spec_witness :
  prepend_dir_path "cache/lvs/top.rul" None Demo.bare
  = expand_tech_cache_path "cache/lvs/top.rul" Demo.bare.
Proof.
  destruct (expand_tech_cache_path_spec "cache/lvs/top.rul" Demo.bare) as (_ & _ & H).
  destruct (H "/cache" "lvs/top.rul" eq_refl eq_refl eq_refl) as [_ H2].
  apply H2; reflexivity.
Defined.

(** ** Libraries and JSON *)

(** X21.  The document that a library serialises to is read back as that
    library, by [library_from_json] and by [parse_library].
    [copy_library], which goes through that document, returns a new object,
    at an address other than the original's, that holds an equal library,
    and leaves the original in place.  [parse_library] refuses whatever is
    not a dict with [TypeError], before anything is parsed. *)
Theorem library_json_round_trip (lib : Library) :
  library_from_json (Pydantic.Library_json lib) = Ok lib /\
  parse_library (Pydantic.Library_json lib) = Ok lib /\
  (forall w l,
     heap w !! l = Some lib ->
     let r := copy_library l w in
     fst r = Ok (fresh (dom (heap w))) /\
     fresh (dom (heap w)) <> l /\
     heap (snd r) !! fresh (dom (heap w)) = Some lib /\
     heap (snd r) !! l = Some lib) /\
  (forall doc,
     match doc with JObj _ => False | _ => True end ->
     parse_library doc = Raise (TypeError "lib must be a dict")).
Proof.
  split; [apply Library_round|].
  split; [unfold parse_library; simpl; apply Library_round|].
  split.
  - intros w l Hl r. subst r.
    assert (Hnew : heap w !! fresh (dom (heap w)) = None) by apply fresh_not_in_heap.
    assert (Hne : fresh (dom (heap w)) <> l) by (intros E; rewrite E in Hnew; congruence).
    unfold copy_library, bind, gets, lift, modify, ret. cbv beta iota.
    rewrite Hl. cbv beta iota. rewrite Library_round. cbv beta iota. simpl.
    split; [reflexivity|]. split; [exact Hne|].
    split; [apply lookup_insert_eq | now rewrite lookup_insert_ne].
  - intros doc Hdoc. destruct doc; try contradiction; reflexivity.
Qed.

(** X21 at a copy of the technology library held at address 0. *)
Lemma library_json_round_trip_witness :
  fst (copy_library 0 (set_heap {[ 0 := Demo.tech_lib ]} Demo.bare)) = Ok 1 /\
  heap (snd (copy_library 0 (set_heap {[ 0 := Demo.tech_lib ]} Demo.bare))) !! 1
    = Some Demo.tech_lib.
Proof.
  destruct (library_json_round_trip Demo.tech_lib) as (_ & _ & H & _).
  assert (Hl : heap (set_heap {[ 0 := Demo.tech_lib ]} Demo.bare) !! 0
               = Some Demo.tech_lib) by (vm_compute; reflexivity).
  destruct (H (set_heap {[ 0 := Demo.tech_lib ]} Demo.bare) 0 Hl) as (H1 & _ & H2 & _).
  split.
  - etransitivity; [exact H1 | vm_compute; reflexivity].
  - etransitivity; [|exact H2]. vm_compute. reflexivity.
Defined.

(** ** Names that are resolved as paths *)

(** X22.  Whatever [paths_func] returns is resolved as a path.  The corner name
    that [spice_model_lib_corner_filter] returns, when it has no separator,
    is looked up as a file in the directory of the technology's Python
    package: path extraction returns it joined to that directory when such a
    file exists and fails the assertion of [prepend_dir_path] otherwise. *)
Theorem lib_corner_resolved_as_path (lib : Library) (model : SpiceModelFile) (w : World)
    (d : string) :
  Library.spice_model_file lib = Some model ->
  SpiceModelFile.lib_corner model <> "" ->
  Py.contains_sep (SpiceModelFile.lib_corner model) = false ->
  packages w !! HammerTechnology.package (self w) = Some d ->
  get_and_prepend_path Filters.spice_model_lib_corner_filter lib w =
  (if isfile (fs w) (Py.join2 d (SpiceModelFile.lib_corner model))
   then Ok (lib, [Py.join2 d (SpiceModelFile.lib_corner model)])
   else Raise (AssertionError
                 (SpiceModelFile.lib_corner model +:+
                  " wasn't found in HammerTechnology Python package " +:+
                  HammerTechnology.package (self w))), w).
Proof.
  intros Hm Hne Hs Hp. unfold get_and_prepend_path. simpl LibraryFilter.paths_func.
  rewrite Hm. unfold bind at 1. unfold lift at 1. cbv beta iota.
  unfold bind at 1. simpl mapM. unfold bind at 1.
  assert (Hrun : prepend_dir_path (SpiceModelFile.lib_corner model) (Some lib) w =
    (if isfile (fs w) (Py.join2 d (SpiceModelFile.lib_corner model))
     then Ok (Py.join2 d (SpiceModelFile.lib_corner model))
     else Raise (AssertionError
                   (SpiceModelFile.lib_corner model +:+
                    " wasn't found in HammerTechnology Python package " +:+
                    HammerTechnology.package (self w))), w)).
  { unfold prepend_dir_path.
    destruct (SpiceModelFile.lib_corner model) as [|c r] eqn:E; [contradiction|].
    cbn [Py.nonempty negb]. cbv iota.
    rewrite (startswith_sep_no_sep _ Hs : Py.isabs _ = false), Hs.
    cbn [negb]. cbv iota. unfold bind, gets. cbv beta iota. rewrite Hp.
    destruct (isfile (fs w) _); reflexivity. }
  rewrite Hrun. destruct (isfile (fs w) _); reflexivity.
Qed.

(** X22 at a library whose SPICE models are read at the corner [tt], in the
    pipeline. *)
Lemma lib_corner_resolved_as_path_witness :
  fst (process_library_filter Filters.spice_model_lib_corner_filter default_pre_filters
         HammerTechnologyUtils.to_plain_item false true Demo.with_package)
  = Raise (AssertionError
             "tt wasn't found in HammerTechnology Python package hammer.technology.demo").
Proof.
  pose proof (lib_corner_resolved_as_path Demo.spice_lib
                (SpiceModelFile.mk "/pdk/models.sp" "tt")
                (snd (filter_for_supplies Demo.spice_lib Demo.with_package))
                "/site-packages/demo" eq_refl) as H.
  unfold process_library_filter. unfold bind at 1.
  rewrite (get_available_libraries_tech_only Demo.with_package Demo.db eq_refl eq_refl).
  cbv beta iota. unfold bind at 1.
  change (reduce_named_filter _ _ Demo.with_package)
    with (Ok [Demo.spice_lib], snd (filter_for_supplies Demo.spice_lib Demo.with_package)).
  cbv beta iota zeta. unfold bind at 1. simpl mapM. unfold bind at 1.
  rewrite H; [reflexivity | discriminate | reflexivity | reflexivity].
Defined.

(** ** Libraries that a filter rejects *)

Lemma all_pass_last (pre_filts : list (Library -> M bool)) (g : Library -> bool)
    (lib : Library) (w w' : World) :
  all_pass (pre_filts ++ [fun lib => ret (g lib)]) lib w = (Ok true, w') ->
  g lib = true.
Proof.
  revert w. induction pre_filts as [|f r IH]; intros w; simpl.
  - unfold bind, ret. destruct (g lib); [reflexivity | discriminate].
  - unfold bind at 1. destruct (f lib w) as [[[|]|e] w1]; try discriminate.
    apply IH.
Qed.

Lemma reduce_named_filter_selected (pre_filts : list (Library -> M bool))
    (g : Library -> bool) (libs l : list Library) (w w' : World) :
  reduce_named_filter (pre_filts ++ [fun lib => ret (g lib)]) libs w = (Ok l, w') ->
  Forall (fun lib => g lib = true) l.
Proof.
  revert l w w'. induction libs as [|lib libs IH]; intros l w w'; simpl.
  - intros [= <- _]. constructor.
  - unfold bind at 1.
    destruct (all_pass _ lib w) as [[b|e] w1] eqn:E; [|discriminate].
    unfold bind at 1.
    destruct (reduce_named_filter _ libs w1) as [[r|e] w2] eqn:E2; [|discriminate].
    unfold ret. intros [= <- _]. specialize (IH r w1 w2 E2).
    destruct b; [|exact IH]. constructor; [|exact IH].
    exact (all_pass_last pre_filts g lib w w1 E).
Qed.

Lemma elem_of_insert_by {A} (key : A -> Z) (x y : A) (l : list A) :
  y ∈ insert_by key x l -> y = x \/ y ∈ l.
Proof.
  induction l as [|z l IH]; simpl.
  - intros H. apply list_elem_of_singleton in H. now left.
  - destruct (key x <=? key z)%Z.
    + intros H. apply elem_of_cons in H as [H|H]; [now left | now right].
    + intros H. apply elem_of_cons in H as [H|H]; [right; subst; now left|].
      destruct (IH H) as [H'|H']; [now left | right; now right].
Qed.

Lemma elem_of_sorted {A} (key : A -> Z) (y : A) (l : list A) :
  y ∈ sorted l key -> y ∈ l.
Proof.
  unfold sorted. induction l as [|x l IH]; simpl; [trivial|].
  intros H. apply elem_of_insert_by in H as [->|H]; [now left | right; now apply IH].
Qed.

Lemma mapM_ext_Forall {A B} (f f' : A -> M B) (l : list A) (P : A -> Prop) :
  (forall a, P a -> f' a = f a) -> Forall P l -> mapM f' l = mapM f l.
Proof.
  intros H. induction 1 as [|x l Hx _ IH]; [reflexivity|].
  simpl. now rewrite (H x Hx), IH.
Qed.

Lemma bind_ext_reached {A B} (m : M A) (k1 k2 : A -> M B) (w : World) :
  (forall a w', m w = (Ok a, w') -> k1 a w' = k2 a w') ->
  bind m k1 w = bind m k2 w.
Proof.
  intros H. unfold bind. destruct (m w) as [[a|e] w1]; [now apply H | reflexivity].
Qed.

Lemma paths_func_agree (filt : LibraryFilter) (g : Library -> bool)
    (paths_func : Library -> Result (list string))
    (pre_filts : list (Library -> M bool))
    (output_func : string -> LibraryFilter -> list string)
    (must_exist uniquify : bool) (w : World) :
  LibraryFilter.filter_func filt = Some g ->
  (forall lib, g lib = true -> paths_func lib = LibraryFilter.paths_func filt lib) ->
  (forall item, output_func item (with_paths_func paths_func filt) = output_func item filt) ->
  process_library_filter (with_paths_func paths_func filt) pre_filts output_func
    must_exist uniquify w
  = process_library_filter filt pre_filts output_func must_exist uniquify w.
Proof.
  intros Hg Hagree Hout. unfold process_library_filter.
  cbn [with_paths_func LibraryFilter.filter_func LibraryFilter.sort_func
       LibraryFilter.extraction_func LibraryFilter.extra_post_filter_funcs].
  rewrite Hg. cbn [optional_map get_or_else].
  apply bind_ext_reached. intros available w1 _.
  apply bind_ext_reached. intros filtered w2 Hsel. cbv zeta.
  apply reduce_named_filter_selected in Hsel.
  assert (Hsorted : Forall (fun lib => g lib = true)
            match LibraryFilter.sort_func filt with
            | Some key => sorted filtered key
            | None => filtered
            end).
  { destruct (LibraryFilter.sort_func filt) as [key|]; [|exact Hsel].
    apply Forall_forall. intros lib Hin. rewrite Forall_forall in Hsel.
    apply Hsel. now apply (elem_of_sorted key). }
  assert (Hgpp : forall lib, g lib = true ->
            get_and_prepend_path (with_paths_func paths_func filt) lib
            = get_and_prepend_path filt lib).
  { intros lib Hlib. unfold get_and_prepend_path.
    cbn [with_paths_func LibraryFilter.paths_func]. now rewrite (Hagree lib Hlib). }
  rewrite (mapM_ext_Forall (get_and_prepend_path filt)
             (get_and_prepend_path (with_paths_func paths_func filt)) _ _ Hgpp Hsorted).
  apply bind_ext_reached. intros lps w3 _.
  change (check_lib_and_paths (with_paths_func paths_func filt))
    with (check_lib_and_paths filt).
  apply bind_ext_reached. intros lps' w4 _.
  apply bind_ext_reached. intros extracted w5 _.
  apply bind_ext_reached. intros after w6 _.
  rewrite (map_ext (fun item => output_func item (with_paths_func paths_func filt))
             (fun item => output_func item filt) Hout).
  reflexivity.
Qed.

(** X23.  [process_library_filter] applies [paths_func] only to libraries that
    [filter_func] accepts: replacing [paths_func] by a function that agrees
    with it on the accepted libraries changes neither the result nor the
    state.  For [lef_filter], [verilog_sim_filter], [gds_filter],
    [spice_filter], [power_grid_library_filter] and
    [klayout_techfile_filter], [paths_func] returns one path on every
    accepted library, so its assertion does not fail in the pipeline. *)
Theorem paths_func_only_on_selected (pre_filts : list (Library -> M bool))
    (output_func : string -> LibraryFilter -> list string)
    (must_exist uniquify : bool) (w : World) :
  (forall filt g paths_func,
     LibraryFilter.filter_func filt = Some g ->
     (forall lib, g lib = true -> paths_func lib = LibraryFilter.paths_func filt lib) ->
     (forall item,
        output_func item (with_paths_func paths_func filt) = output_func item filt) ->
     process_library_filter (with_paths_func paths_func filt) pre_filts output_func
       must_exist uniquify w
     = process_library_filter filt pre_filts output_func must_exist uniquify w) /\
  (forall filt,
     filt ∈ [LibraryFilterHolder.lef_filter; Filters.verilog_sim_filter;
             Filters.gds_filter; Filters.spice_filter;
             Filters.power_grid_library_filter; Filters.klayout_techfile_filter] ->
     exists g, LibraryFilter.filter_func filt = Some g /\
       forall lib, g lib = true ->
         exists f, LibraryFilter.paths_func filt lib = Ok [f]).
Proof.
  split.
  - intros filt g paths_func. apply paths_func_agree.
  - intros filt Hin.
    repeat (apply elem_of_cons in Hin as [->|Hin]);
      try (eexists; split; [reflexivity|]; intros lib Hlib; simpl in *;
           unfold LibraryFilterHolder.lef_filter_filter_func,
             LibraryFilterHolder.lef_filter_paths_func in *;
           match goal with
           | Hg : match ?x with Some _ => true | None => false end = true |- _ =>
               destruct x; [eexists; reflexivity | discriminate]
           end).
    inversion Hin.
Qed.

(** X23 at [gds_filter] with a [paths_func] that returns the empty list instead of
    failing its assertion. *)
Lemma paths_func_only_on_selected_witness :
  process_library_filter
    (with_paths_func
       (fun lib => match Library.gds_file lib with Some f => Ok [f] | None => Ok [] end)
       Filters.gds_filter)
    default_pre_filters HammerTechnologyUtils.to_plain_item true true Demo.with_extra
  = process_library_filter Filters.gds_filter default_pre_filters
      HammerTechnologyUtils.to_plain_item true true Demo.with_extra.
Proof.
  destruct (paths_func_only_on_selected default_pre_filters
              HammerTechnologyUtils.to_plain_item true true Demo.with_extra) as [H _].
  apply (H Filters.gds_filter
           (fun lib => match Library.gds_file lib with Some _ => true | None => false end)).
  - reflexivity.
  - intros lib Hlib. simpl. destruct (Library.gds_file lib); [reflexivity | discriminate].
  - reflexivity.
Defined.
